(** * Extraction-and-classification pipeline of the scrapers

    A shallow embedding of [scrapers/common.py],
    [scrapers/scrape_github_trending.py], [scrapers/scrape_producthunt.py]
    and [scrapers/scrape_taaft.py].

    Python [str] values are modelled by [string]; a character is a code
    point below 256, and the character classes below ([str.lower],
    [str.strip], the [\s] and [\d] classes of [re]) are the ones Python
    uses on that range.  Python sets of strings are [gset string]; a [dict]
    whose insertion order is observed is an association list. *)

From Stdlib Require Import Ascii String ZArith NArith Bool List Lia.
From Stdlib Require Import Floats.SpecFloat.
From stdpp Require Import base decidable list gmap strings.

Local Open Scope string_scope.
Local Open Scope list_scope.

Set Warnings "-clear-no-such-hyp".

(** ** Characters and Python string methods *)

Module Py.

Definition code (c : ascii) : N := N_of_ascii c.

Definition between (lo hi : N) (c : ascii) : bool :=
  ((lo <=? code c) && (code c <=? hi))%N.

Definition is_upper_az (c : ascii) : bool := between 65 90 c.
Definition is_lower_az (c : ascii) : bool := between 97 122 c.
Definition is_digit (c : ascii) : bool := between 48 57 c.

(** [str.isspace] on code points below 256 (also the class [\s]). *)
Definition is_space (c : ascii) : bool :=
  between 9 13 c || between 28 32 c || (code c =? 133)%N || (code c =? 160)%N.

(** [str.lower] on one character: A-Z and the Latin-1 capitals.  Beyond
    the characters of this file [str.lower] gives a letter of a to z for one
    more character, the Kelvin sign U+212A, which it maps to k. *)
Definition lower_char (c : ascii) : ascii :=
  if is_upper_az c || (between 192 222 c && negb (code c =? 215)%N)
  then ascii_of_N (code c + 32) else c.

Fixpoint lower (s : string) : string :=
  match s with
  | EmptyString => EmptyString
  | String c s' => String (lower_char c) (lower s')
  end.

Definition is_empty (s : string) : bool :=
  match s with EmptyString => true | _ => false end.

(** [s.startswith(p)] *)
Fixpoint startswith (p s : string) : bool :=
  match p, s with
  | EmptyString, _ => true
  | String a p', String b s' => if Ascii.eqb a b then startswith p' s' else false
  | String _ _, EmptyString => false
  end.

(** [sub in s] *)
Fixpoint contains (sub s : string) : bool :=
  startswith sub s ||
  match s with
  | EmptyString => false
  | String _ s' => contains sub s'
  end.

(** [s.endswith(p)] *)
Fixpoint endswith (p s : string) : bool :=
  String.eqb p s ||
  match s with
  | EmptyString => false
  | String _ s' => endswith p s'
  end.

(** [s.lstrip(chars)] and [s.rstrip(chars)], the set [chars] given as a
    predicate. *)
Fixpoint lstrip_by (p : ascii -> bool) (s : string) : string :=
  match s with
  | EmptyString => EmptyString
  | String c s' => if p c then lstrip_by p s' else s
  end.

Fixpoint rstrip_by (p : ascii -> bool) (s : string) : string :=
  match s with
  | EmptyString => EmptyString
  | String c s' =>
      let r := rstrip_by p s' in
      if p c && is_empty r then EmptyString else String c r
  end.

Definition strip_by (p : ascii -> bool) (s : string) : string :=
  rstrip_by p (lstrip_by p s).

(** [s.strip()] *)
Definition strip (s : string) : string := strip_by is_space s.

(** [s[:n]] *)
Fixpoint take (n : nat) (s : string) : string :=
  match n, s with
  | S n', String c s' => String c (take n' s')
  | _, _ => EmptyString
  end.

(** [s[n:]] *)
Fixpoint drop (n : nat) (s : string) : string :=
  match n, s with
  | S n', String _ s' => drop n' s'
  | _, _ => s
  end.

(** [s.replace(c, "")] for a one-character [c] *)
Fixpoint remove_char (c : ascii) (s : string) : string :=
  match s with
  | EmptyString => EmptyString
  | String a s' => if Ascii.eqb a c then remove_char c s' else String a (remove_char c s')
  end.

(** [x or d] on a value that may be [None] *)
Definition or_str (x : option string) (d : string) : string :=
  match x with
  | Some s => if is_empty s then d else s
  | None => d
  end.

(** every character of [s] satisfies [p] *)
Fixpoint all_chars (p : ascii -> bool) (s : string) : bool :=
  match s with
  | EmptyString => true
  | String c s' => p c && all_chars p s'
  end.

(** [s[:-1]] *)
Fixpoint drop_last (s : string) : string :=
  match s with
  | EmptyString => EmptyString
  | String c EmptyString => EmptyString
  | String c s' => String c (drop_last s')
  end.

Definition first_char (s : string) : option ascii :=
  match s with EmptyString => None | String c _ => Some c end.

Fixpoint last_char (s : string) : option ascii :=
  match s with
  | EmptyString => None
  | String c EmptyString => Some c
  | String _ s' => last_char s'
  end.

End Py.

(** ** Exceptions, [int()] and [float()] *)

Module Exc.

Inductive exn : Type := ValueError | OverflowError.

(** what a call gives: a value, or an exception that is raised *)
Inductive result (A : Type) : Type :=
| Ok (a : A)
| Raise (e : exn).
Arguments Ok {A} a.
Arguments Raise {A} e.

Global Instance result_ret : MRet result := fun A a => Ok a.

Global Instance result_bind : MBind result := fun A B k c =>
  match c with
  | Ok a => k a
  | Raise e => Raise e
  end.

(** [try: c  except ValueError: return d] *)
Definition except_ValueError {A : Type} (c : result A) (d : A) : result A :=
  match c with
  | Raise ValueError => Ok d
  | _ => c
  end.

End Exc.

Module PyNum.
Import Exc.
Local Open Scope Z_scope.

Definition prec : Z := 53.
Definition emax : Z := 1024.

Definition digit_val (c : ascii) : Z := Z.of_N (Py.code c) - 48.

(** The blanks [int()] and [float()] drop at both ends of their argument:
    those of [str.isspace] without the separators 28 to 31. *)
Definition is_num_space (c : ascii) : bool :=
  Py.between 9 13 c || (Py.code c =? 32)%N || (Py.code c =? 133)%N || (Py.code c =? 160)%N.

(** The rest of a [digitpart], digits with single underscores between
    them: the value and the number of the digits read so far, then what
    is left of the text. *)
Fixpoint digits_go (acc : Z) (n : nat) (s : string) : Z * nat * string :=
  match s with
  | String c s' =>
      if Py.is_digit c then digits_go (10 * acc + digit_val c) (S n) s'
      else if Ascii.eqb c "_"%char then
        match s' with
        | String d s'' =>
            if Py.is_digit d then digits_go (10 * acc + digit_val d) (S n) s''
            else (acc, n, s)
        | EmptyString => (acc, n, s)
        end
      else (acc, n, s)
  | EmptyString => (acc, n, s)
  end.

(** a [digitpart] at the head of [s], continuing the value [acc] *)
Definition digitpart (acc : Z) (s : string) : option (Z * nat * string) :=
  match s with
  | String c s' =>
      if Py.is_digit c then Some (digits_go (10 * acc + digit_val c) 1 s') else None
  | EmptyString => None
  end.

Definition split_sign (s : string) : bool * string :=
  match s with
  | String c s' =>
      if Ascii.eqb c "-"%char then (true, s')
      else if Ascii.eqb c "+"%char then (false, s')
      else (false, s)
  | EmptyString => (false, s)
  end.

(** [int(s)].  A text of more than 4300 digits is refused with a
    [ValueError]: the limit Python sets on the conversion of a decimal text
    ([sys.int_max_str_digits]); the zeros in front count, the sign, the
    blanks and the underscores do not. *)
Definition int_of_str (s : string) : result Z :=
  let '(neg, body) := split_sign (Py.strip_by is_num_space s) in
  match digitpart 0 body with
  | Some (v, n, EmptyString) =>
      if 4300 <? Z.of_nat n then Raise ValueError else Ok (if neg then - v else v)
  | _ => Raise ValueError
  end.

(** the exponent of a [floatnumber]: nothing, or e, a sign and digits *)
Definition exponent (s : string) : option Z :=
  match s with
  | EmptyString => Some 0
  | String c s' =>
      if Ascii.eqb (Py.lower_char c) "e"%char then
        let '(neg, body) := split_sign s' in
        match digitpart 0 body with
        | Some (v, _, EmptyString) => Some (if neg then - v else v)
        | _ => None
        end
      else None
  end.

(** A [floatnumber] as a pair [(m, e)] that stands for m * 10^e. *)
Definition floatnumber (s : string) : option (Z * Z) :=
  match digitpart 0 s with
  | Some (ip, _, rest) =>
      match rest with
      | String c rest' =>
          if Ascii.eqb c "."%char then
            match digitpart ip rest' with
            | Some (m, nfrac, rest'') =>
                match exponent rest'' with
                | Some e => Some (m, e - Z.of_nat nfrac)
                | None => None
                end
            | None =>
                match exponent rest' with
                | Some e => Some (ip, e)
                | None => None
                end
            end
          else match exponent rest with
               | Some e => Some (ip, e)
               | None => None
               end
      | EmptyString => Some (ip, 0)
      end
  | None =>
      match s with
      | String c rest' =>
          if Ascii.eqb c "."%char then
            match digitpart 0 rest' with
            | Some (m, nfrac, rest'') =>
                match exponent rest'' with
                | Some e => Some (m, e - Z.of_nat nfrac)
                | None => None
                end
            | None => None
            end
          else None
      | EmptyString => None
      end
  end.

(** the double nearest to m * 10^e, ties to even *)
Definition decimal (neg : bool) (m e : Z) : spec_float :=
  match m with
  | Zpos p =>
      if (0 <=? e)%Z
      then binary_round prec emax neg (p * Z.to_pos (10 ^ e)) 0
      else SFdiv prec emax (S754_finite neg p 0)
                           (S754_finite false (Z.to_pos (10 ^ (- e))) 0)
  | _ => S754_zero neg
  end.

(** [float(s)] *)
Definition float_of_str (s : string) : result spec_float :=
  let '(neg, body) := split_sign (Py.strip_by is_num_space s) in
  let low := Py.lower body in
  if String.eqb low "inf" || String.eqb low "infinity" then Ok (S754_infinity neg)
  else if String.eqb low "nan" then Ok S754_nan
  else match floatnumber body with
       | Some (m, e) => Ok (decimal neg m e)
       | None => Raise ValueError
       end.

(** the float of a small integer *)
Definition float_of_pos (p : positive) : spec_float := binary_round prec emax false p 0.

(** [x * y] on floats *)
Definition fmul (x y : spec_float) : spec_float := SFmul prec emax x y.

(** [int(x)] on a float: towards zero; an infinity cannot be converted. *)
Definition int_of_float (x : spec_float) : result Z :=
  match x with
  | S754_nan => Raise ValueError
  | S754_infinity _ => Raise OverflowError
  | S754_zero _ => Ok 0%Z
  | S754_finite s m e =>
      let a := Z.shiftl (Zpos m) e in
      Ok (if s then - a else a)%Z
  end.

End PyNum.

(** ** Regular expressions

    The patterns of the scrapers, matched the way Python's [re] does it:
    by backtracking, alternatives tried left to right, repetitions greedy,
    numbered groups recording the span of their last match. *)

Module Re.

Inductive regex : Type :=
| Eps                               (* the empty pattern *)
| Chr (p : ascii -> bool)           (* one character of a class *)
| Seq (r1 r2 : regex)
| Alt (r1 r2 : regex)               (* r1|r2 *)
| Star (r : regex)                  (* r*, greedy *)
| Group (n : nat) (r : regex)       (* the n-th capturing group *)
| Bol                               (* ^ *)
| Eol.                              (* $ *)

Definition Plus (r : regex) : regex := Seq r (Star r).
Definition Opt (r : regex) : regex := Alt r Eps.

Fixpoint Lit (s : string) : regex :=
  match s with
  | EmptyString => Eps
  | String c s' => Seq (Chr (Ascii.eqb c)) (Lit s')
  end.

(** a literal under [re.IGNORECASE] *)
Fixpoint LitI (s : string) : regex :=
  match s with
  | EmptyString => Eps
  | String c s' =>
      Seq (Chr (fun a => Ascii.eqb (Py.lower_char a) (Py.lower_char c))) (LitI s')
  end.

(** spans of the groups, the most recent first *)
Definition caps : Type := list (nat * (nat * nat)).

Fixpoint span_of (n : nat) (cs : caps) : option (nat * nat) :=
  match cs with
  | [] => None
  | (m, sp) :: cs' => if Nat.eqb n m then Some sp else span_of n cs'
  end.

(** [$] matches at the end and before a final newline. *)
Definition at_eol (s : string) : bool :=
  match s with
  | EmptyString => true
  | String c EmptyString => Ascii.eqb c "010"%char
  | _ => false
  end.

Section Matcher.
Context {R : Type}.

(** [run r pos s cs k]: match [r] against [s], the rest of the subject
    from offset [pos] on, and hand the offset, the rest and the groups to
    [k]; [None] makes the matcher backtrack.  The body of a repetition
    has to consume a character on each round, as it does in every
    pattern below, so that the fuel of [Star] is never used up. *)
Fixpoint run (r : regex) (pos : nat) (s : string) (cs : caps)
         (k : nat -> string -> caps -> option R) {struct r} : option R :=
  match r with
  | Eps => k pos s cs
  | Chr p =>
      match s with
      | String c s' => if p c then k (S pos) s' cs else None
      | EmptyString => None
      end
  | Seq r1 r2 => run r1 pos s cs (fun pos' s' cs' => run r2 pos' s' cs' k)
  | Alt r1 r2 =>
      match run r1 pos s cs k with
      | Some x => Some x
      | None => run r2 pos s cs k
      end
  | Star r' =>
      (fix loop (fuel : nat) (pos : nat) (s : string) (cs : caps) : option R :=
         match fuel with
         | O => k pos s cs
         | S fuel' =>
             match run r' pos s cs
                     (fun pos' s' cs' =>
                        if Nat.ltb pos pos' then loop fuel' pos' s' cs' else None) with
             | Some x => Some x
             | None => k pos s cs
             end
         end) (S (String.length s)) pos s cs
  | Group n r' =>
      run r' pos s cs (fun pos' s' cs' => k pos' s' ((n, (pos, pos')) :: cs'))
  | Bol => if Nat.eqb pos 0 then k pos s cs else None
  | Eol => if at_eol s then k pos s cs else None
  end.
End Matcher.

(** A match object: the span of the whole match and of the groups. *)
Record Match : Type := mkMatch { m_start : nat; m_end : nat; m_caps : caps }.

(** the match of [r] that starts at offset [pos], where [s] is the subject
    from [pos] on *)
Definition match_at (r : regex) (pos : nat) (s : string) : option Match :=
  run r pos s [] (fun pos' _ cs => Some (mkMatch pos pos' cs)).

(** [re.match(r, s)] *)
Definition rmatch (r : regex) (s : string) : option Match := match_at r 0 s.

(** [bool(re.match(r, s))] *)
Definition matches (r : regex) (s : string) : bool :=
  match rmatch r s with Some _ => true | None => false end.

(** [re.finditer(r, s)]: the leftmost match, then the leftmost match after
    its end, and so on.  [skip] counts the characters still covered by the
    match found last. *)
Fixpoint finditer_go (r : regex) (skip : nat) (pos : nat) (s : string) : list Match :=
  match skip with
  | S skip' =>
      match s with
      | String _ s' => finditer_go r skip' (S pos) s'
      | EmptyString => []
      end
  | O =>
      match match_at r pos s with
      | Some m =>
          m :: match s with
               | String _ s' => finditer_go r (m_end m - pos - 1) (S pos) s'
               | EmptyString => []
               end
      | None =>
          match s with
          | String _ s' => finditer_go r 0 (S pos) s'
          | EmptyString => []
          end
      end
  end.

Definition finditer (r : regex) (s : string) : list Match := finditer_go r 0 0 s.

(** [s[i:j]] *)
Definition slice (s : string) (i j : nat) : string := Py.take (j - i) (Py.drop i s).

(** [m.group(n)] for a match [m] in the subject [s]; the groups the
    scrapers read take part in every match of their pattern. *)
Definition group (s : string) (m : Match) (n : nat) : string :=
  match span_of n (m_caps m) with
  | Some (i, j) => slice s i j
  | None => EmptyString
  end.

(** [m.end(n)] *)
Definition group_end (m : Match) (n : nat) : nat :=
  match span_of n (m_caps m) with
  | Some (_, j) => j
  | None => 0
  end.

(** [re.sub(r, "", s)]: the subject without the matches of [r]. *)
Fixpoint delete_spans (ms : list Match) (pos : nat) (s : string) : string :=
  match ms with
  | [] => s
  | m :: ms' =>
      Py.take (m_start m - pos) s
      +:+ delete_spans ms' (m_end m) (Py.drop (m_end m - pos) s)
  end.

Definition sub_empty (r : regex) (s : string) : string :=
  delete_spans (finditer r s) 0 s.

(** character classes *)
Definition is_char (c : ascii) : ascii -> bool := Ascii.eqb c.
Definition not_char (c : ascii) : ascii -> bool := fun a => negb (Ascii.eqb c a).
Definition one_of (cs : string) : ascii -> bool :=
  fun a => existsb (Ascii.eqb a) (list_ascii_of_string cs).

(** a sequence of patterns *)
Definition seqs (rs : list regex) : regex := fold_right Seq Eps rs.

End Re.

(** ** [common.py] *)

Definition hyphen : ascii := "-"%char.

(** the class [[a-z0-9]] *)
Definition is_slug_alnum (c : ascii) : bool := Py.is_lower_az c || Py.is_digit c.

(** [re.sub(r"[^a-z0-9]+", "-", s)]: every maximal run of characters outside
    [[a-z0-9]] becomes one hyphen; [in_run] says that the previous character
    was part of such a run. *)
Fixpoint sub_non_alnum (in_run : bool) (s : string) : string :=
  match s with
  | EmptyString => EmptyString
  | String c s' =>
      if is_slug_alnum c then String c (sub_non_alnum false s')
      else if in_run then sub_non_alnum true s'
      else String hyphen (sub_non_alnum true s')
  end.

Definition slugify (name : string) : string :=
  let slug := Py.lower name in
  let slug := sub_non_alnum false slug in
  let slug := Py.strip_by (Ascii.eqb hyphen) slug in
  Py.take 100 slug.

Definition VALID_CATEGORIES : list string :=
  [ "mcp-server"; "ai-agent"; "web3-tool"; "defi-tool";
    "infra"; "framework"; "saas-tool"; "api-service"; "developer-tool" ].

(** [any(kw in desc for kw in kws)] *)
Definition any_in (kws : list string) (desc : string) : bool :=
  existsb (fun kw => Py.contains kw desc) kws.

(** [topic_set & other] as a truth value *)
Definition intersects (topic_set other : gset string) : bool :=
  bool_decide (topic_set ∩ other ≠ ∅).

Definition ai_keywords : list string :=
  [ "agent"; "llm"; "gpt"; "claude"; "openai"; "langchain";
    "artificial intelligence"; "machine-learning"; "generative-ai";
    "chatbot"; "natural-language-processing"; "automation" ].

Definition ai_topics : gset string :=
  list_to_set [ "artificial-intelligence"; "ai"; "machine-learning"; "ml";
                "chatbot"; "gpt"; "llm"; "generative-ai"; "agent" ].

Definition defi_keywords : list string :=
  [ "defi"; "swap"; "yield"; "liquidity"; "amm"; "dex "; "lending" ].

Definition defi_topics : gset string :=
  list_to_set [ "defi"; "yield"; "swap"; "amm"; "dex"; "lending" ].

Definition web3_keywords : list string :=
  [ "web3"; "blockchain"; "ethereum"; "solana"; "smart contract"; "nft"; "crypto" ].

Definition web3_topics : gset string :=
  list_to_set [ "web3"; "blockchain"; "ethereum"; "solana"; "crypto"; "nft"; "wallet" ].

Definition infra_keywords : list string :=
  [ "kubernetes"; " k8s"; "docker"; "infrastructure"; "monitoring"; "observability" ].

Definition devtool_topics : gset string :=
  list_to_set [ "developer-tools"; "developer"; "api"; "sdk"; "open-source"; "github" ].

Definition devtool_keywords : list string :=
  [ "developer tool"; "cli tool"; "code editor"; "devtool" ].

Definition categorize_by_keywords
    (text : string) (topics : option (list string)) (language : option string) : string :=
  let desc := Py.lower text in
  let lang := Py.lower (Py.or_str language "") in
  let topic_set : gset string :=
    list_to_set (map Py.lower (match topics with Some ts => ts | None => [] end)) in
  (* 1. MCP *)
  if Py.contains "mcp" desc || Py.contains "model context protocol" desc
     || bool_decide ("mcp" ∈ topic_set)
  then "mcp-server"
  (* 2. AI / Agent / LLM *)
  else if any_in ai_keywords desc || Py.contains " ai " desc || Py.startswith "ai " desc
  then "ai-agent"
  else if intersects topic_set ai_topics
  then "ai-agent"
  (* 3. DeFi *)
  else if any_in defi_keywords desc
  then "defi-tool"
  else if intersects topic_set defi_topics
  then "defi-tool"
  (* 4. Web3 / blockchain *)
  else if any_in web3_keywords desc
  then "web3-tool"
  else if intersects topic_set web3_topics
  then "web3-tool"
  (* 5. Infrastructure *)
  else if String.eqb lang "dockerfile" || any_in infra_keywords desc
  then "infra"
  (* 6. Developer tools *)
  else if intersects topic_set devtool_topics
  then "developer-tool"
  else if any_in devtool_keywords desc
  then "developer-tool"
  (* 7. Default *)
  else "framework".

Definition categorize_producthunt (tagline : string) (topics : list string) : string :=
  let cat := categorize_by_keywords tagline (Some topics) None in
  if String.eqb cat "framework" then "saas-tool" else cat.

(** ** Catalog records and crawl results *)

(** The record a pipeline emits.  Only the GitHub pipeline writes the
    ["runtime"] key; the other two leave it out, which is [None] here. *)
Record Entry : Type := mkEntry {
  e_slug : string;
  e_name : string;
  e_tagline : string;
  e_description : string;
  e_category : string;
  e_tags : list string;
  e_sourceUrl : string;
  e_runtime : option string;
  e_stars : Z;
  e_submittedBy : string
}.

Definition len (s : string) : nat := String.length s.

(** [x in xs] for a tuple of strings *)
Definition in_strs (x : string) (xs : list string) : bool :=
  existsb (String.eqb x) xs.

(** ** [scrape_github_trending.py] *)

Module GithubTrending.
Import Exc.

Definition MAX_RESULTS : nat := 50.

Definition URLS : list string :=
  [ "https://github.com/trending?since=daily";
    "https://github.com/trending?since=weekly" ].

Definition parse_stars (text : string) : result Z :=
  let text := Py.remove_char ","%char (Py.strip text) in
  if Py.is_empty text then Ok 0%Z
  else if Py.endswith "k" (Py.lower text) then
    except_ValueError
      (x ← PyNum.float_of_str (Py.drop_last text);
       PyNum.int_of_float (PyNum.fmul x (PyNum.float_of_pos 1000)))
      0%Z
  else
    except_ValueError (PyNum.int_of_str text) 0%Z.

Definition language_to_runtime (lang : option string) : option string :=
  match lang with
  | None => None
  | Some l =>
      if Py.is_empty l then None
      else
        let lang_lower := Py.strip (Py.lower l) in
        if String.eqb lang_lower "typescript" then Some "node"
        else if String.eqb lang_lower "javascript" then Some "node"
        else if String.eqb lang_lower "python" then Some "python"
        else if String.eqb lang_lower "rust" then Some "rust"
        else if String.eqb lang_lower "go" then Some "go"
        else Some "other"
  end.

(** One row of the CSS extraction; a field the page does not have is
    [None]. *)
Record Row : Type := mkRow {
  repo_path : option string;
  description : option string;
  language : option string;
  stars_text : option string
}.

(** What the crawler hands back for one URL.  [extracted_content] is the
    JSON text already read by [json.loads]; [None] stands for a missing or
    empty text. *)
Record CrawlResult : Type := mkCrawlResult {
  success : bool;
  extracted_content : option (list Row)
}.

(** the key of a row in [seen] *)
Definition row_key (row : Row) : string := Py.strip (Py.or_str (repo_path row) "").

(** the entry appended for a row that is kept *)
Definition entry_of (row : Row) : result Entry :=
  let full_name := Py.lstrip_by (Ascii.eqb "/"%char) (row_key row) in
  let desc := Py.strip (Py.or_str (description row) "") in
  let lang :=
    let l := Py.strip (Py.or_str (language row) "") in
    if Py.is_empty l then None else Some l in
  stars ← parse_stars (Py.or_str (stars_text row) "");
  let category := categorize_by_keywords desc None lang in
  Ok {| e_slug := slugify full_name;
        e_name := full_name;
        e_tagline := Py.take 160 (Py.or_str (Some desc) ("GitHub trending: " +:+ full_name));
        e_description := Py.or_str (Some desc) ("No description provided for " +:+ full_name);
        e_category := category;
        e_tags := [];
        e_sourceUrl := "https://github.com/" +:+ full_name;
        e_runtime := language_to_runtime lang;
        e_stars := stars;
        e_submittedBy := "crawl4ai-github-trending" |}.

(** The loop over the rows of one page; it ends early, by [break], once
    [MAX_RESULTS] entries are there. *)
Fixpoint scrape_rows (rows : list Row) (seen : gset string) (entries : list Entry)
  : result (gset string * list Entry) :=
  match rows with
  | [] => Ok (seen, entries)
  | row :: rows' =>
      let repo_path := row_key row in
      if Py.is_empty repo_path || bool_decide (repo_path ∈ seen)
      then scrape_rows rows' seen entries
      else
        let seen := {[ repo_path ]} ∪ seen in
        entry ← entry_of row;
        let entries := entries ++ [ entry ] in
        if Nat.leb MAX_RESULTS (length entries) then Ok (seen, entries)
        else scrape_rows rows' seen entries
  end.

(** The loop over the URLs; [crawl] is the crawler. *)
Fixpoint scrape_urls (crawl : string -> CrawlResult) (urls : list string)
    (seen : gset string) (entries : list Entry) : result (list Entry) :=
  match urls with
  | [] => Ok entries
  | url :: urls' =>
      let result := crawl url in
      if negb (success result) then scrape_urls crawl urls' seen entries
      else
        match extracted_content result with
        | None => scrape_urls crawl urls' seen entries
        | Some rows =>
            '(seen, entries) ← scrape_rows rows seen entries;
            if Nat.leb MAX_RESULTS (length entries) then Ok entries
            else scrape_urls crawl urls' seen entries
        end
  end.

Definition scrape (crawl : string -> CrawlResult) : result (list Entry) :=
  scrape_urls crawl URLS ∅ [].

End GithubTrending.

(** ** [scrape_producthunt.py] *)

Module ProductHunt.

Definition MAX_RESULTS : nat := 100.

Definition URLS : list string :=
  [ "https://www.producthunt.com/topics/artificial-intelligence";
    "https://www.producthunt.com/topics/developer-tools" ].

Definition slug_class (c : ascii) : bool :=
  Py.is_lower_az c || Py.is_digit c || Ascii.eqb c "-"%char.

Definition non_space (c : ascii) : bool := negb (Py.is_space c).

(** The link pattern, its parts set apart by blanks:
    \[ ([^\]]+) \] \( (https://www\.producthunt\.com/products/ ([a-z0-9-]+) ) (?: /reviews [^\)]* )? \) *)
Definition pattern : Re.regex :=
  Re.seqs
    [ Re.Lit "[";
      Re.Group 1 (Re.Plus (Re.Chr (Re.not_char "]"%char)));
      Re.Lit "](";
      Re.Group 2 (Re.Seq (Re.Lit "https://www.producthunt.com/products/")
                         (Re.Group 3 (Re.Plus (Re.Chr slug_class))));
      Re.Opt (Re.Seq (Re.Lit "/reviews") (Re.Star (Re.Chr (Re.not_char ")"%char))));
      Re.Lit ")" ].

(** ^ [\d.,]+ K? \s* reviews? $   with re.IGNORECASE *)
Definition review_count : Re.regex :=
  Re.seqs
    [ Re.Bol;
      Re.Plus (Re.Chr (fun c => Py.is_digit c || Re.one_of ".," c));
      Re.Opt (Re.LitI "K");
      Re.Star (Re.Chr Py.is_space);
      Re.LitI "review";
      Re.Opt (Re.LitI "s");
      Re.Eol ].

(** ^ ( [A-Z] [^\s]+ (?: [ ] [A-Z] [^\s]+ )* ) \s+ ( The[ ] | A[ ] | An[ ] | [A-Z] [a-z] )
    where [ ] is a blank of the pattern *)
Definition name_split : Re.regex :=
  Re.seqs
    [ Re.Bol;
      Re.Group 1
        (Re.seqs
           [ Re.Chr Py.is_upper_az;
             Re.Plus (Re.Chr non_space);
             Re.Star (Re.seqs [ Re.Lit " "; Re.Chr Py.is_upper_az;
                                Re.Plus (Re.Chr non_space) ]) ]);
      Re.Plus (Re.Chr Py.is_space);
      Re.Group 2
        (Re.Alt (Re.Lit "The ")
           (Re.Alt (Re.Lit "A ")
              (Re.Alt (Re.Lit "An ")
                 (Re.Seq (Re.Chr Py.is_upper_az) (Re.Chr Py.is_lower_az))))) ].

Record Product : Type := mkProduct {
  p_name : string;
  p_tagline : string;
  p_url : string;
  p_slug : string
}.

(** [slug in products] *)
Definition has_key (slug : string) (products : list (string * Product)) : bool :=
  existsb (fun kv => String.eqb slug (fst kv)) products.

(** the three tests that skip a link: review counts, navigation labels,
    length out of bounds *)
Definition is_noise (text : string) : bool :=
  Re.matches review_count text
  || in_strs (Py.lower text) [ "view all"; "see all"; "reviews"; "promoted"; "" ]
  || Nat.ltb (len text) 2 || Nat.ltb 200 (len text).

(** the name and the tagline read off a link text *)
Definition split_name (text : string) : string * string :=
  let '(name, tagline) :=
    match Re.rmatch name_split text with
    | Some ns =>
        let split_pos := Re.group_end ns 1 in
        (Py.strip (Py.take split_pos text), Py.strip (Py.drop split_pos text))
    | None => (text, EmptyString)
    end in
  let tagline :=
    if Py.is_empty tagline then "Discovered on Product Hunt: " +:+ name else tagline in
  (name, tagline).

(** One round of the loop over the matches; [products] is the dict, in
    insertion order. *)
Definition step (md : string) (products : list (string * Product)) (m : Re.Match)
  : list (string * Product) :=
  let text := Py.strip (Re.group md m 1) in
  let url := Re.group md m 2 in
  let slug := Re.group md m 3 in
  if is_noise text then products
  else if has_key slug products then products
  else
    let '(name, tagline) := split_name text in
    products ++ [ (slug, mkProduct name tagline url slug) ].

Definition extract_products_from_markdown (md : string) : list Product :=
  map snd (fold_left (step md) (Re.finditer pattern md) []).

(** What the crawler hands back for one URL. *)
Record CrawlResult : Type := mkCrawlResult {
  success : bool;
  markdown : option string
}.

(** [s.split(sep)[-1]] for a one-character [sep] *)
Fixpoint last_field (sep : ascii) (s : string) : string :=
  match s with
  | EmptyString => EmptyString
  | String c s' =>
      if Ascii.eqb c sep || Py.contains (String sep EmptyString) s'
      then last_field sep s' else s
  end.

(** [url_topics.get(topic_key, [])] *)
Definition url_topics (topic_key : string) : list string :=
  if String.eqb topic_key "artificial-intelligence" then [ "artificial-intelligence"; "ai" ]
  else if String.eqb topic_key "developer-tools" then [ "developer-tools"; "developer" ]
  else [].

Definition topics_of_url (url : string) : list string :=
  let topic_key := last_field "/"%char (Py.rstrip_by (Ascii.eqb "/"%char) url) in
  url_topics topic_key.

(** the entry appended for a product that is kept *)
Definition entry_of (topics : list string) (prod : Product) : Entry :=
  let category := categorize_producthunt (p_tagline prod) topics in
  {| e_slug := p_slug prod;
     e_name := p_name prod;
     e_tagline := Py.take 160 (p_tagline prod);
     e_description :=
       Py.or_str (Some (p_tagline prod)) ("Discovered on Product Hunt: " +:+ p_name prod);
     e_category := category;
     e_tags := match topics with [] => [ "product-hunt" ] | _ => topics end;
     e_sourceUrl := p_url prod;
     e_runtime := None;
     e_stars := 0%Z;
     e_submittedBy := "crawl4ai-producthunt" |}.

(** The loop over the products of one page; it ends early, by [break],
    once [MAX_RESULTS] entries are there. *)
Fixpoint scrape_products (topics : list string) (products : list Product)
    (seen : gset string) (entries : list Entry) : gset string * list Entry :=
  match products with
  | [] => (seen, entries)
  | prod :: products' =>
      if bool_decide (p_slug prod ∈ seen)
      then scrape_products topics products' seen entries
      else
        let seen := {[ p_slug prod ]} ∪ seen in
        let entries := entries ++ [ entry_of topics prod ] in
        if Nat.leb MAX_RESULTS (length entries) then (seen, entries)
        else scrape_products topics products' seen entries
  end.

(** The loop over the URLs; [crawl] is the crawler. *)
Fixpoint scrape_urls (crawl : string -> CrawlResult) (urls : list string)
    (seen : gset string) (entries : list Entry) : list Entry :=
  match urls with
  | [] => entries
  | url :: urls' =>
      let topics := topics_of_url url in
      let result := crawl url in
      if negb (success result) then scrape_urls crawl urls' seen entries
      else
        match markdown result with
        | None | Some EmptyString => scrape_urls crawl urls' seen entries
        | Some md =>
            let products := extract_products_from_markdown md in
            let '(seen, entries) := scrape_products topics products seen entries in
            if Nat.leb MAX_RESULTS (length entries) then entries
            else scrape_urls crawl urls' seen entries
        end
  end.

Definition scrape (crawl : string -> CrawlResult) : list Entry :=
  scrape_urls crawl URLS ∅ [].

End ProductHunt.

(** ** [scrape_taaft.py] *)

Module Taaft.

Definition MAX_RESULTS : nat := 100.

Definition URLS : list string :=
  [ "https://theresanaiforthat.com/";
    "https://theresanaiforthat.com/s/ai-agents/" ].

(** The link pattern, its parts set apart by blanks:
    \[ ([^\]]+) \] \( https://theresanaiforthat\.com/ai/ ( [a-z0-9-]+ (?: - \d+ )? ) /? \) *)
Definition pattern : Re.regex :=
  Re.seqs
    [ Re.Lit "[";
      Re.Group 1 (Re.Plus (Re.Chr (Re.not_char "]"%char)));
      Re.Lit "](https://theresanaiforthat.com/ai/";
      Re.Group 2 (Re.Seq (Re.Plus (Re.Chr ProductHunt.slug_class))
                         (Re.Opt (Re.Seq (Re.Lit "-") (Re.Plus (Re.Chr Py.is_digit)))));
      Re.Opt (Re.Lit "/");
      Re.Lit ")" ].

(** ^ [\d,.\s]+ $ *)
Definition pure_numbers : Re.regex :=
  Re.seqs
    [ Re.Bol;
      Re.Plus (Re.Chr (fun c => Py.is_digit c || Re.one_of ",." c || Py.is_space c));
      Re.Eol ].

(** ^ Free   with re.IGNORECASE *)
Definition free_marker : Re.regex := Re.Seq Re.Bol (Re.LitI "Free").

(** ^ \$ *)
Definition price_marker : Re.regex := Re.Seq Re.Bol (Re.Lit "$").

(** \s+ v [\d.]+ \s* $ *)
Definition version_suffix : Re.regex :=
  Re.seqs
    [ Re.Plus (Re.Chr Py.is_space);
      Re.Lit "v";
      Re.Plus (Re.Chr (fun c => Py.is_digit c || Ascii.eqb c "."%char));
      Re.Star (Re.Chr Py.is_space);
      Re.Eol ].

Record Tool : Type := mkTool {
  t_name : string;
  t_slug : string;
  t_url : string
}.

Definition has_key (slug : string) (tools : list (string * Tool)) : bool :=
  existsb (fun kv => String.eqb slug (fst kv)) tools.

(** the four tests that skip a link: statistics, pricing, price, length out
    of bounds *)
Definition is_noise (text : string) : bool :=
  Re.matches pure_numbers text
  || Re.matches free_marker text
  || Re.matches price_marker text
  || Nat.ltb (len text) 2 || Nat.ltb 100 (len text).

(** the name without a version suffix *)
Definition clean_name (text : string) : string :=
  Py.strip (Re.sub_empty version_suffix text).

Definition step (md : string) (tools : list (string * Tool)) (m : Re.Match)
  : list (string * Tool) :=
  let text := Py.strip (Re.group md m 1) in
  let slug := Re.group md m 2 in
  if has_key slug tools then tools
  else if is_noise text then tools
  else
    let name := clean_name text in
    if Py.is_empty name then tools
    else tools ++ [ (slug, mkTool name slug ("https://theresanaiforthat.com/ai/" +:+ slug +:+ "/")) ].

Definition extract_tools_from_markdown (md : string) : list Tool :=
  map snd (fold_left (step md) (Re.finditer pattern md) []).

(** What the crawler hands back for one URL. *)
Record CrawlResult : Type := mkCrawlResult {
  success : bool;
  markdown : option string
}.

(** the entry appended for a tool that is kept *)
Definition entry_of (tool : Tool) : Entry :=
  let name := t_name tool in
  let category := categorize_by_keywords name None None in
  let category := if String.eqb category "framework" then "ai-agent" else category in
  {| e_slug := slugify name;
     e_name := name;
     e_tagline := Py.take 160 ("AI tool: " +:+ name);
     e_description := "Discovered on There's An AI For That: " +:+ name;
     e_category := category;
     e_tags := [ "ai" ];
     e_sourceUrl := t_url tool;
     e_runtime := None;
     e_stars := 0%Z;
     e_submittedBy := "crawl4ai-taaft" |}.

(** The loop over the tools of one page; it ends early, by [break], once
    [MAX_RESULTS] entries are there. *)
Fixpoint scrape_tools (tools : list Tool) (seen : gset string) (entries : list Entry)
  : gset string * list Entry :=
  match tools with
  | [] => (seen, entries)
  | tool :: tools' =>
      if bool_decide (t_slug tool ∈ seen)
      then scrape_tools tools' seen entries
      else
        let seen := {[ t_slug tool ]} ∪ seen in
        let entries := entries ++ [ entry_of tool ] in
        if Nat.leb MAX_RESULTS (length entries) then (seen, entries)
        else scrape_tools tools' seen entries
  end.

(** The loop over the URLs; [crawl] is the crawler. *)
Fixpoint scrape_urls (crawl : string -> CrawlResult) (urls : list string)
    (seen : gset string) (entries : list Entry) : list Entry :=
  match urls with
  | [] => entries
  | url :: urls' =>
      let result := crawl url in
      if negb (success result) then scrape_urls crawl urls' seen entries
      else
        match markdown result with
        | None | Some EmptyString => scrape_urls crawl urls' seen entries
        | Some md =>
            let tools := extract_tools_from_markdown md in
            let '(seen, entries) := scrape_tools tools seen entries in
            if Nat.leb MAX_RESULTS (length entries) then entries
            else scrape_urls crawl urls' seen entries
        end
  end.

Definition scrape (crawl : string -> CrawlResult) : list Entry :=
  scrape_urls crawl URLS ∅ [].

End Taaft.

(** ** The shape the three pipelines share

    Each [scrape] runs the same two loops: over the pages, and over the items
    of a page, with the set [seen] of keys and the list [entries] carried
    along.  The loops are stated here once, over any kind of item; each
    pipeline's own loops are shown further down to be instances. *)

Module Pipeline.
Import Exc.

Section Loops.
Context {Item : Type}.
Variable key : Item -> string.        (* the key looked up in [seen] *)
Variable skip : Item -> bool.         (* an item dropped before the lookup *)
Variable max_results : nat.

Fixpoint run_items (mk : Item -> result Entry) (items : list Item)
    (seen : gset string) (entries : list Entry) : result (gset string * list Entry) :=
  match items with
  | [] => Ok (seen, entries)
  | item :: items' =>
      if skip item || bool_decide (key item ∈ seen)
      then run_items mk items' seen entries
      else
        let seen := {[ key item ]} ∪ seen in
        entry ← mk item;
        let entries := entries ++ [ entry ] in
        if Nat.leb max_results (length entries) then Ok (seen, entries)
        else run_items mk items' seen entries
  end.

(** A page: the way its entries are made and its items, or [None] when
    the crawl failed or brought nothing. *)
Definition Page : Type := option ((Item -> result Entry) * list Item).

(** the key of a kept item, which comes with the way its entry is made *)
Definition kept_key (x : (Item -> result Entry) * Item) : string := key (snd x).

Fixpoint run_pages (pages : list Page) (seen : gset string) (entries : list Entry)
  : result (list Entry) :=
  match pages with
  | [] => Ok entries
  | None :: pages' => run_pages pages' seen entries
  | Some (mk, items) :: pages' =>
      '(seen, entries) ← run_items mk items seen entries;
      if Nat.leb max_results (length entries) then Ok entries
      else run_pages pages' seen entries
  end.
End Loops.

End Pipeline.

(** the page a crawl result stands for, in each pipeline *)
Definition github_page (crawl : string -> GithubTrending.CrawlResult) (url : string)
  : Pipeline.Page (Item := GithubTrending.Row) :=
  let result := crawl url in
  if negb (GithubTrending.success result) then None
  else match GithubTrending.extracted_content result with
       | None => None
       | Some rows => Some (GithubTrending.entry_of, rows)
       end.

Definition producthunt_page (crawl : string -> ProductHunt.CrawlResult) (url : string)
  : Pipeline.Page (Item := ProductHunt.Product) :=
  let result := crawl url in
  if negb (ProductHunt.success result) then None
  else match ProductHunt.markdown result with
       | None | Some EmptyString => None
       | Some md =>
           Some (fun prod => Exc.Ok (ProductHunt.entry_of (ProductHunt.topics_of_url url) prod),
                 ProductHunt.extract_products_from_markdown md)
       end.

Definition taaft_page (crawl : string -> Taaft.CrawlResult) (url : string)
  : Pipeline.Page (Item := Taaft.Tool) :=
  let result := crawl url in
  if negb (Taaft.success result) then None
  else match Taaft.markdown result with
       | None | Some EmptyString => None
       | Some md =>
           Some (fun tool => Exc.Ok (Taaft.entry_of tool),
                 Taaft.extract_tools_from_markdown md)
       end.

Definition never_skip {A : Type} (_ : A) : bool := false.

(** What a run of the GitHub pipeline emits: the entries [scrape] returns,
    and nothing when it ends in an exception. *)
Definition github_emitted (crawl : string -> GithubTrending.CrawlResult) : list Entry :=
  match GithubTrending.scrape crawl with
  | Exc.Ok entries => entries
  | Exc.Raise _ => []
  end.

(** * Definitions the properties are stated with *)

(** the seven categories the cascade can give *)
Definition CASCADE_CATEGORIES : list string :=
  [ "mcp-server"; "ai-agent"; "defi-tool"; "web3-tool"; "infra"; "developer-tool"; "framework" ].

(** The cascade as the specification words it: an ordered table of rules,
    each a test and the category it gives, and the first rule that holds
    decides. *)
Section Cascade.
Variables (text : string) (topics : option (list string)) (language : option string).

Let desc := Py.lower text.
Let lang := Py.lower (Py.or_str language "").
Let topic_set : gset string :=
  list_to_set (map Py.lower (match topics with Some ts => ts | None => [] end)).

Definition rule_mcp : bool :=
  Py.contains "mcp" desc || Py.contains "model context protocol" desc
  || bool_decide ("mcp" ∈ topic_set).
Definition rule_ai : bool :=
  (any_in ai_keywords desc || Py.contains " ai " desc || Py.startswith "ai " desc)
  || intersects topic_set ai_topics.
Definition rule_defi : bool :=
  any_in defi_keywords desc || intersects topic_set defi_topics.
Definition rule_web3 : bool :=
  any_in web3_keywords desc || intersects topic_set web3_topics.
Definition rule_infra : bool :=
  String.eqb lang "dockerfile" || any_in infra_keywords desc.
Definition rule_devtool : bool :=
  intersects topic_set devtool_topics || any_in devtool_keywords desc.

Definition rule_table : list (bool * string) :=
  [ (rule_mcp, "mcp-server");
    (rule_ai, "ai-agent");
    (rule_defi, "defi-tool");
    (rule_web3, "web3-tool");
    (rule_infra, "infra");
    (rule_devtool, "developer-tool") ].

Fixpoint first_match (rules : list (bool * string)) (default : string) : string :=
  match rules with
  | [] => default
  | (holds, category) :: rules' => if holds then category else first_match rules' default
  end.
End Cascade.

(** the class [[a-z0-9-]] *)
Definition is_slug_char (c : ascii) : bool := is_slug_alnum c || Ascii.eqb c hyphen.

(** a name of 101 characters: 99 letters, a blank and a letter *)
Definition long_name : string := String.concat "" (repeat "a" 99) +:+ " b".

(** the blob of the specification's example *)
Definition acme_blob : string :=
  "[Acme Fix your bugs fast](https://www.producthunt.com/products/acme)".

(** a row without a key is passed over *)
Definition github_skip (row : GithubTrending.Row) : bool :=
  Py.is_empty (GithubTrending.row_key row).

(** ** A dict filled in the order of the matches

    Both markdown extractors fill a dict keyed by the slug of the link and
    return its values.  What a match would add when its key is new is its
    candidate; a match that a filter rejects has none. *)

Section FirstWins.
Context {V M : Type}.
Variable cand : M -> option (string * V).

(** [k in d] *)
Definition dict_has (k : string) (d : list (string * V)) : bool :=
  existsb (fun kv => String.eqb k (fst kv)) d.

(** one round: the candidate is added unless its key is there *)
Definition keep (d : list (string * V)) (m : M) : list (string * V) :=
  match cand m with
  | None => d
  | Some (k, v) => if dict_has k d then d else d ++ [ (k, v) ]
  end.

(** [v] is the candidate of the first match, in the order of [ms], that has
    a candidate with the key [k] *)
Definition first_cand (ms : list M) (k : string) (v : V) : Prop :=
  exists ms1 m ms2,
    ms = ms1 ++ m :: ms2
    /\ cand m = Some (k, v)
    /\ forall m', m' ∈ ms1 -> fst <$> cand m' <> Some k.
End FirstWins.

(** a page of GitHub with one repository, described in 161 characters *)
Definition long_description : string := String.concat "" (repeat "d" 161).

Definition long_description_crawl (url : string) : GithubTrending.CrawlResult :=
  if String.eqb url "https://github.com/trending?since=daily"
  then GithubTrending.mkCrawlResult true
         (Some [ GithubTrending.mkRow (Some "/owner/repo") (Some long_description)
                   (Some "Python") (Some "1,234") ])
  else GithubTrending.mkCrawlResult false None.

(** a page of Product Hunt with one product whose tagline has 170
    characters *)
Definition long_tagline_crawl (url : string) : ProductHunt.CrawlResult :=
  ProductHunt.mkCrawlResult true
    (Some ("[Acme Fix " +:+ String.concat "" (repeat "x" 166)
           +:+ "](https://www.producthunt.com/products/acme)")).

(** what a link of Product Hunt adds when its slug is new *)
Definition producthunt_candidate (md : string) (m : Re.Match)
  : option (string * ProductHunt.Product) :=
  let text := Py.strip (Re.group md m 1) in
  let url := Re.group md m 2 in
  let slug := Re.group md m 3 in
  if ProductHunt.is_noise text then None
  else
    let '(name, tagline) := ProductHunt.split_name text in
    Some (slug, ProductHunt.mkProduct name tagline url slug).

(** what a link of There's An AI For That adds when its slug is new *)
Definition taaft_candidate (md : string) (m : Re.Match) : option (string * Taaft.Tool) :=
  let text := Py.strip (Re.group md m 1) in
  let slug := Re.group md m 2 in
  if Taaft.is_noise text then None
  else
    let name := Taaft.clean_name text in
    if Py.is_empty name then None
    else Some (slug, Taaft.mkTool name slug ("https://theresanaiforthat.com/ai/" +:+ slug +:+ "/")).

(** a page with a link to the reviews of a product before the link to the
    product itself *)
Definition reviews_first_blob : string :=
  "[1.4K reviews](https://www.producthunt.com/products/acme/reviews) "
  +:+ "[Acme Fix your bugs fast](https://www.producthunt.com/products/acme)".

(** the first link of [reviews_first_blob], and the second *)
Definition reviews_match : Re.Match :=
  hd (Re.mkMatch 0 0 []) (Re.finditer ProductHunt.pattern reviews_first_blob).

Definition acme_match : Re.Match :=
  hd (Re.mkMatch 0 0 []) (tl (Re.finditer ProductHunt.pattern reviews_first_blob)).

(** the rows a crawl brings for a URL *)
Definition github_rows (crawl : string -> GithubTrending.CrawlResult) (url : string)
  : list GithubTrending.Row :=
  match github_page crawl url with
  | Some (_, rows) => rows
  | None => []
  end.

(** [parse_stars] returns on the stars text of the row *)
Definition stars_parse (row : GithubTrending.Row) : bool :=
  match GithubTrending.parse_stars (Py.or_str (GithubTrending.stars_text row) "") with
  | Exc.Ok _ => true
  | Exc.Raise _ => false
  end.

(** the keys of the rows of a page that have one, each once *)
Definition github_candidates (rows : list GithubTrending.Row) : list string :=
  remove_dups (GithubTrending.row_key <$> filter (fun row => github_skip row = false) rows).

(** pages with more candidates than the cap: [n] repositories, [n] products
    and [n] tools, numbered *)
Definition two_digits (i : nat) : string :=
  String (ascii_of_nat (48 + i / 10)) (String (ascii_of_nat (48 + i mod 10)) EmptyString).

Definition many_rows (n : nat) : list GithubTrending.Row :=
  map (fun i => GithubTrending.mkRow (Some ("/owner/repo-" +:+ two_digits i))
                  (Some "A library") (Some "Python") (Some "1.2k"))
      (seq 0 n).

Definition many_rows_crawl (url : string) : GithubTrending.CrawlResult :=
  GithubTrending.mkCrawlResult true (Some (many_rows 53)).

Definition many_links (n : nat) : string :=
  String.concat " "
    (map (fun i => "[Acme Fix your bugs](https://www.producthunt.com/products/acme-"
                   +:+ two_digits (i / 100) +:+ two_digits (i mod 100) +:+ ")")
         (seq 0 n)).

Definition many_links_crawl (url : string) : ProductHunt.CrawlResult :=
  ProductHunt.mkCrawlResult true (Some (many_links 104)).

Definition many_tools (n : nat) : string :=
  String.concat " "
    (map (fun i => "[Tool Name v1.2](https://theresanaiforthat.com/ai/tool-"
                   +:+ two_digits (i / 100) +:+ two_digits (i mod 100) +:+ "/)")
         (seq 0 n)).

Definition many_tools_crawl (url : string) : Taaft.CrawlResult :=
  Taaft.mkCrawlResult true (Some (many_tools 101)).

(** ** What a run takes up, written as a function

    The items of a page that a run makes entries from, when the cap does not
    stop it: those that are not passed over and whose key is new, each key
    once, in the order of the page. *)

Section Fresh.
Context {Item : Type}.
Variables (key : Item -> string) (skip : Item -> bool).

Fixpoint fresh (items : list Item) (seen : gset string) : list Item :=
  match items with
  | [] => []
  | item :: items' =>
      if skip item || bool_decide (key item ∈ seen) then fresh items' seen
      else item :: fresh items' ({[ key item ]} ∪ seen)
  end.

(** the same over the pages of a run, every item with the way its entry is
    made *)
Fixpoint fresh_pages (pages : list (Pipeline.Page (Item := Item))) (seen : gset string)
  : list ((Item -> Exc.result Entry) * Item) :=
  match pages with
  | [] => []
  | None :: pages' => fresh_pages pages' seen
  | Some (mk, items) :: pages' =>
      let l := fresh items seen in
      ((fun item => (mk, item)) <$> l)
      ++ fresh_pages pages' (list_to_set (key <$> l) ∪ seen)
  end.
End Fresh.

(** the entries of a list of items, made one after the other; the first
    exception ends it *)
Fixpoint make_all {Item : Type} (l : list ((Item -> Exc.result Entry) * Item))
  : Exc.result (list Entry) :=
  match l with
  | [] => Exc.Ok []
  | (mk, item) :: l' => e ← mk item; es ← make_all l'; Exc.Ok (e :: es)
  end.

(** a page whose entries are always made, or no page and no items *)
Definition page_of {Item : Type} (f : Item -> Entry) (items : list Item)
    (p : Pipeline.Page (Item := Item)) : Prop :=
  p = Some (fun item => Exc.Ok (f item), items) \/ (p = None /\ items = []).

(** the products and the tools a crawl brings for a URL *)
Definition producthunt_products (crawl : string -> ProductHunt.CrawlResult) (url : string)
  : list ProductHunt.Product :=
  match producthunt_page crawl url with
  | Some (_, products) => products
  | None => []
  end.

Definition taaft_tools (crawl : string -> Taaft.CrawlResult) (url : string)
  : list Taaft.Tool :=
  match taaft_page crawl url with
  | Some (_, tools) => tools
  | None => []
  end.

(** the rows a run of GitHub makes entries from, when the cap does not stop
    it: the fresh rows of the daily page, then those of the weekly page *)
Definition github_fresh (crawl : string -> GithubTrending.CrawlResult)
  : list GithubTrending.Row :=
  let daily :=
    fresh GithubTrending.row_key github_skip
      (github_rows crawl "https://github.com/trending?since=daily") ∅ in
  daily
  ++ fresh GithubTrending.row_key github_skip
       (github_rows crawl "https://github.com/trending?since=weekly")
       (list_to_set (GithubTrending.row_key <$> daily)).

(** the entries of a list of rows; the first stars text that raises ends
    it *)
Fixpoint entries_of_rows (rows : list GithubTrending.Row) : Exc.result (list Entry) :=
  match rows with
  | [] => Exc.Ok []
  | row :: rows' =>
      e ← GithubTrending.entry_of row; es ← entries_of_rows rows'; Exc.Ok (e :: es)
  end.

(** a row of GitHub whose language is written with capitals and blanks *)
Definition typescript_row : GithubTrending.Row :=
  GithubTrending.mkRow (Some "/owner/repo") (Some "A library") (Some " TypeScript ")
    (Some "1,234").

(** the record of [typescript_row] *)
Definition typescript_entry : Entry :=
  {| e_slug := "owner-repo";
     e_name := "owner/repo";
     e_tagline := "A library";
     e_description := "A library";
     e_category := "framework";
     e_tags := [];
     e_sourceUrl := "https://github.com/owner/repo";
     e_runtime := Some "node";
     e_stars := 1234;
     e_submittedBy := "crawl4ai-github-trending" |}.

(** a page of There's An AI For That with a link to the pricing of a tool
    before the link to the tool *)
Definition pricing_first_blob : string :=
  "[Free + from $5/mo](https://theresanaiforthat.com/ai/tool-name/) "
  +:+ "[Tool Name v1.2](https://theresanaiforthat.com/ai/tool-name/)".

(** the rounds of a repetition, as [Re.run] goes through them *)
Section StarLoop.
Context {R : Type}.
Variables (r : Re.regex) (k : nat -> string -> Re.caps -> option R).

Fixpoint star_loop (fuel : nat) (pos : nat) (s : string) (cs : Re.caps) : option R :=
  match fuel with
  | O => k pos s cs
  | S fuel' =>
      match Re.run r pos s cs
              (fun pos' s' cs' =>
                 if Nat.ltb pos pos' then star_loop fuel' pos' s' cs' else None) with
      | Some x => Some x
      | None => k pos s cs
      end
  end.
End StarLoop.

(** the address the extractor of There's An AI For That writes for a slug *)
Definition taaft_url (slug : string) : string :=
  "https://theresanaiforthat.com/ai/" +:+ slug +:+ "/".

(** the number a text of decimal digits stands for *)
Definition decimal_value (s : string) : Z :=
  fold_left (fun acc c => (10 * acc + PyNum.digit_val c)%Z) (list_ascii_of_string s) 0%Z.

(** a digit or a comma *)
Definition is_digit_or_comma (c : ascii) : bool := Py.is_digit c || Ascii.eqb c ","%char.

(** ** What a match is, without the matcher

    [sem r pos s cs n cs']: the pattern [r] matches the first [n]
    characters of [s], the rest of the subject from the offset [pos] on, and
    the groups recorded go from [cs] to [cs']. *)
Inductive sem : Re.regex -> nat -> string -> Re.caps -> nat -> Re.caps -> Prop :=
| sem_Eps pos s cs : sem Re.Eps pos s cs 0 cs
| sem_Chr p c pos s cs : p c = true -> sem (Re.Chr p) pos (String c s) cs 1 cs
| sem_Seq r1 r2 pos s cs n1 cs1 n2 cs2 :
    sem r1 pos s cs n1 cs1 ->
    sem r2 (pos + n1) (Py.drop n1 s) cs1 n2 cs2 ->
    sem (Re.Seq r1 r2) pos s cs (n1 + n2) cs2
| sem_AltL r1 r2 pos s cs n cs' :
    sem r1 pos s cs n cs' -> sem (Re.Alt r1 r2) pos s cs n cs'
| sem_AltR r1 r2 pos s cs n cs' :
    sem r2 pos s cs n cs' -> sem (Re.Alt r1 r2) pos s cs n cs'
| sem_Star0 r pos s cs : sem (Re.Star r) pos s cs 0 cs
| sem_StarS r pos s cs n1 cs1 n2 cs2 :
    sem r pos s cs n1 cs1 ->
    sem (Re.Star r) (pos + n1) (Py.drop n1 s) cs1 n2 cs2 ->
    sem (Re.Star r) pos s cs (n1 + n2) cs2
| sem_Group g r pos s cs n cs' :
    sem r pos s cs n cs' ->
    sem (Re.Group g r) pos s cs n ((g, (pos, pos + n)) :: cs')
| sem_Bol s cs : sem Re.Bol 0 s cs 0 cs
| sem_Eol pos s cs : Re.at_eol s = true -> sem Re.Eol pos s cs 0 cs.

(** a pattern without groups *)
Fixpoint no_group (r : Re.regex) : bool :=
  match r with
  | Re.Seq r1 r2 | Re.Alt r1 r2 => no_group r1 && no_group r2
  | Re.Star r' => no_group r'
  | Re.Group _ _ => false
  | _ => true
  end.

(** the address of a product of Product Hunt *)
Definition producthunt_url (slug : string) : string :=
  "https://www.producthunt.com/products/" +:+ slug.

(** ** [parse_review_count] of [scrape_producthunt.py] *)

(** a digit or a dot, the class [[\d.]] *)
Definition is_digit_or_dot (c : ascii) : bool := Py.is_digit c || Ascii.eqb c "."%char.

(** ( [\d.]+ ) \s* K? \s* reviews?   with re.IGNORECASE *)
Definition review_count_pattern : Re.regex :=
  Re.seqs
    [ Re.Group 1 (Re.Plus (Re.Chr is_digit_or_dot));
      Re.Star (Re.Chr Py.is_space);
      Re.Opt (Re.LitI "K");
      Re.Star (Re.Chr Py.is_space);
      Re.LitI "review";
      Re.Opt (Re.LitI "s") ].

(** [re.search(r, s)]: the match at the leftmost offset that has one *)
Fixpoint search_go (r : Re.regex) (pos : nat) (s : string) : option Re.Match :=
  match Re.match_at r pos s with
  | Some m => Some m
  | None =>
      match s with
      | String _ s' => search_go r (S pos) s'
      | EmptyString => None
      end
  end.

Definition re_search (r : Re.regex) (s : string) : option Re.Match := search_go r 0 s.

(** ['K' in s.upper()]: of the code points below 256 only k and K have an
    upper case with a K in it *)
Definition upper_has_K (s : string) : bool := Py.contains "K" s || Py.contains "k" s.

Definition parse_review_count (text : string) : Exc.result Z :=
  match re_search review_count_pattern text with
  | None => Exc.Ok 0%Z
  | Some m =>
      let num := Re.group text m 1 in
      if upper_has_K (Re.slice text (Re.m_start m) (Re.m_end m)) then
        x ← PyNum.float_of_str num;
        PyNum.int_of_float (PyNum.fmul x (PyNum.float_of_pos 1000))
      else
        x ← PyNum.float_of_str num;
        PyNum.int_of_float x
  end.

(** a float that is not below zero, or is no number *)
Definition sf_nonneg (x : spec_float) : Prop :=
  match x with
  | S754_finite true _ _ => False
  | _ => True
  end.

(** the rows of the two pages of a run of GitHub, in the order the run
    reads them *)
Definition github_all_rows (crawl : string -> GithubTrending.CrawlResult)
  : list GithubTrending.Row :=
  github_rows crawl "https://github.com/trending?since=daily"
  ++ github_rows crawl "https://github.com/trending?since=weekly".

(** a page of 53 repositories, the stars text of the first of which is
    "infk" *)
Definition overflow_rows : list GithubTrending.Row :=
  GithubTrending.mkRow (Some "/owner/first") (Some "A library") (Some "Python") (Some "infk")
  :: many_rows 52.

Definition overflow_rows_crawl (url : string) : GithubTrending.CrawlResult :=
  GithubTrending.mkCrawlResult true (Some overflow_rows).

(** * Checks of the model on concrete inputs *)

Example slugify_ex1 : slugify "Hello, World!" = "hello-world".
Proof. vm_compute. reflexivity. Qed.

Example categorize_ex1 :
  categorize_by_keywords "mcp server for defi swaps" None None = "mcp-server".
Proof. vm_compute. reflexivity. Qed.

Example categorize_ex2 :
  categorize_by_keywords "a yield-farming defi protocol" None None = "defi-tool".
Proof. vm_compute. reflexivity. Qed.

Example categorize_ex3 :
  categorize_by_keywords "something" (Some ["Wallet"]) None = "web3-tool".
Proof. vm_compute. reflexivity. Qed.

Example categorize_ex4 :
  categorize_producthunt "a new way to manage tasks" [] = "saas-tool".
Proof. vm_compute. reflexivity. Qed.

Example re_ex1 :
  Re.matches (Re.Seq Re.Bol (Re.Seq (Re.Plus (Re.Chr Py.is_digit)) Re.Eol)) "123" = true.
Proof. vm_compute. reflexivity. Qed.

Example re_ex2 :
  map (fun m => (Re.m_start m, Re.m_end m))
      (Re.finditer (Re.Plus (Re.Chr Py.is_digit)) "ab12c345") = [(2, 4); (5, 8)].
Proof. vm_compute. reflexivity. Qed.

Example re_ex3 :
  Re.sub_empty (Re.Plus (Re.Chr Py.is_digit)) "ab12c345d" = "abcd".
Proof. vm_compute. reflexivity. Qed.

Example ph_ex1 :
  ProductHunt.extract_products_from_markdown
    "[Acme Fix your bugs fast](https://www.producthunt.com/products/acme)"
  = [ ProductHunt.mkProduct "Acme" "Fix your bugs fast"
        "https://www.producthunt.com/products/acme" "acme" ].
Proof. vm_compute. reflexivity. Qed.

Example ph_ex2 :
  ProductHunt.extract_products_from_markdown
    "[1.4K reviews](https://www.producthunt.com/products/acme/reviews)"
  = [].
Proof. vm_compute. reflexivity. Qed.

Example ph_ex3 :
  ProductHunt.extract_products_from_markdown
    "x [1.4K reviews](https://www.producthunt.com/products/acme/reviews?x=1) y [Acme Fix your bugs fast](https://www.producthunt.com/products/acme) [Acme The Other](https://www.producthunt.com/products/acme) [Zed](https://www.producthunt.com/products/zed-2)"
  = [ ProductHunt.mkProduct "Acme" "Fix your bugs fast"
        "https://www.producthunt.com/products/acme" "acme";
      ProductHunt.mkProduct "Zed" "Discovered on Product Hunt: Zed"
        "https://www.producthunt.com/products/zed-2" "zed-2" ].
Proof. vm_compute. reflexivity. Qed.

Example taaft_ex1 :
  Taaft.extract_tools_from_markdown
    "[Tool Name v1.2](https://theresanaiforthat.com/ai/tool-name/) [Free + from $5/mo](https://theresanaiforthat.com/ai/tool-name/) [18,458108](https://theresanaiforthat.com/ai/other-3/) [Other](https://theresanaiforthat.com/ai/other-3)"
  = [ Taaft.mkTool "Tool Name" "tool-name" "https://theresanaiforthat.com/ai/tool-name/";
      Taaft.mkTool "Other" "other-3" "https://theresanaiforthat.com/ai/other-3/" ].
Proof. vm_compute. reflexivity. Qed.

Example stars_ex1 : GithubTrending.parse_stars "12.5k" = Exc.Ok 12500%Z.
Proof. vm_compute. reflexivity. Qed.
Example stars_ex2 : GithubTrending.parse_stars "1,234" = Exc.Ok 1234%Z.
Proof. vm_compute. reflexivity. Qed.
Example stars_ex3 : GithubTrending.parse_stars "" = Exc.Ok 0%Z.
Proof. vm_compute. reflexivity. Qed.
Example stars_ex4 : GithubTrending.parse_stars "garbage" = Exc.Ok 0%Z.
Proof. vm_compute. reflexivity. Qed.
Example stars_ex5 : GithubTrending.parse_stars "infk" = Exc.Raise Exc.OverflowError.
Proof. vm_compute. reflexivity. Qed.
Example stars_ex6 : GithubTrending.parse_stars "nank" = Exc.Ok 0%Z.
Proof. vm_compute. reflexivity. Qed.
Example stars_ex7 : GithubTrending.parse_stars " 1.001K " = Exc.Ok 1000%Z.
Proof. vm_compute. reflexivity. Qed.
Example stars_ex8 : GithubTrending.parse_stars "2.3k" = Exc.Ok 2300%Z.
Proof. vm_compute. reflexivity. Qed.
Example stars_ex9 : GithubTrending.parse_stars "1e400k" = Exc.Raise Exc.OverflowError.
Proof. vm_compute. reflexivity. Qed.
Example stars_ex10 : GithubTrending.parse_stars "0.0005k" = Exc.Ok 0%Z.
Proof. vm_compute. reflexivity. Qed.
Example stars_ex11 : GithubTrending.parse_stars "4.35k" = Exc.Ok 4350%Z.
Proof. vm_compute. reflexivity. Qed.

Example topics_ex1 : map ProductHunt.topics_of_url ProductHunt.URLS
  = [ ["artificial-intelligence"; "ai"]; ["developer-tools"; "developer"] ].
Proof. vm_compute. reflexivity. Qed.
Example last_field_ex : map (ProductHunt.last_field "/") ["a/b/c"; "a/"; "abc"; ""; "/"; "//x"] = ["c"; ""; "abc"; ""; ""; "x"].
Proof. vm_compute. reflexivity. Qed.

(** * Properties *)

(** ** The classifier *)

Lemma VALID_CATEGORIES_distinct : NoDup VALID_CATEGORIES /\ length VALID_CATEGORIES = 9.
Proof.
  split; [| reflexivity].
  apply (bool_decide_unpack _). vm_compute. exact I.
Qed.

Ltac split_ifs :=
  repeat match goal with
         | |- context [if ?b then _ else _] => destruct b
         end.

Lemma categorize_in_cascade text topics language :
  In (categorize_by_keywords text topics language) CASCADE_CATEGORIES.
Proof.
  unfold categorize_by_keywords, CASCADE_CATEGORIES. cbv zeta.
  split_ifs; simpl; tauto.
Qed.

(** C1: for every text, every optional topic list and every optional language
    hint, [categorize_by_keywords] returns (it is a total function) an element of
    the closed set [VALID_CATEGORIES], which has nine different members. *)
Theorem categorize_by_keywords_total (text : string) (topics : option (list string))
    (language : option string) :
  In (categorize_by_keywords text topics language) VALID_CATEGORIES
  /\ NoDup VALID_CATEGORIES /\ length VALID_CATEGORIES = 9.
Proof.
  split; [| exact VALID_CATEGORIES_distinct].
  pose proof (categorize_in_cascade text topics language) as H.
  unfold CASCADE_CATEGORIES in H. unfold VALID_CATEGORIES.
  simpl in *. intuition.
Qed.

Lemma categorize_first_match text topics language :
  categorize_by_keywords text topics language
  = first_match (rule_table text topics language) "framework".
Proof.
  unfold categorize_by_keywords, rule_table, first_match,
    rule_mcp, rule_ai, rule_defi, rule_web3, rule_infra, rule_devtool.
  cbv zeta.
  set (desc := Py.lower text). set (lang := Py.lower (Py.or_str language "")).
  set (topic_set := list_to_set (map Py.lower (match topics with Some ts => ts | None => [] end))
                    : gset string).
  destruct (Py.contains "mcp" desc || Py.contains "model context protocol" desc
            || bool_decide ("mcp" ∈ topic_set)); [reflexivity |].
  destruct (any_in ai_keywords desc || Py.contains " ai " desc
            || Py.startswith "ai " desc); [reflexivity |].
  destruct (intersects topic_set ai_topics); [reflexivity |]. cbn [orb].
  destruct (any_in defi_keywords desc); [reflexivity |].
  destruct (intersects topic_set defi_topics); [reflexivity |]. cbn [orb].
  destruct (any_in web3_keywords desc); [reflexivity |].
  destruct (intersects topic_set web3_topics); [reflexivity |]. cbn [orb].
  destruct (String.eqb lang "dockerfile" || any_in infra_keywords desc); [reflexivity |].
  destruct (intersects topic_set devtool_topics); [reflexivity |]. cbn [orb].
  destruct (any_in devtool_keywords desc); reflexivity.
Qed.

(** C3: the rules are tried in their order of priority and the first that
    holds decides.  On "mcp server for defi swaps" the MCP rule wins although
    the DeFi rule holds as well; on "a yield-farming defi protocol" the DeFi
    rule wins, the Web3 rule coming after it. *)
Theorem categorize_priority_order :
  (forall text topics language,
      categorize_by_keywords text topics language
      = first_match (rule_table text topics language) "framework")
  /\ categorize_by_keywords "mcp server for defi swaps" None None = "mcp-server"
  /\ rule_defi "mcp server for defi swaps" None = true
  /\ categorize_by_keywords "a yield-farming defi protocol" None None = "defi-tool"
  /\ categorize_by_keywords "a yield-farming defi protocol" None None <> "web3-tool".
Proof.
  split; [exact categorize_first_match |].
  repeat split; try (vm_compute; reflexivity).
  vm_compute. discriminate.
Qed.

(** ** The slug generator *)

Lemma all_chars_weaken (p q : ascii -> bool) s :
  (forall c, p c = true -> q c = true) ->
  Py.all_chars p s = true -> Py.all_chars q s = true.
Proof.
  intros Hpq. induction s as [| c s IH]; simpl; [reflexivity |].
  rewrite !andb_true_iff. intros [Hc Hs]. auto.
Qed.

Lemma sub_non_alnum_chars in_run s :
  Py.all_chars is_slug_char (sub_non_alnum in_run s) = true.
Proof.
  revert in_run. induction s as [| c s IH]; intros in_run; simpl; [reflexivity |].
  destruct (is_slug_alnum c) eqn:Hc.
  - simpl. unfold is_slug_char at 1. rewrite Hc. simpl. apply IH.
  - destruct in_run; [apply IH |].
    simpl. rewrite IH. reflexivity.
Qed.

Lemma lstrip_by_chars p q s :
  Py.all_chars q s = true -> Py.all_chars q (Py.lstrip_by p s) = true.
Proof.
  induction s as [| c s IH]; simpl; [reflexivity |].
  intros H. destruct (p c); [| exact H].
  apply andb_true_iff in H. apply IH, H.
Qed.

Lemma rstrip_by_chars p q s :
  Py.all_chars q s = true -> Py.all_chars q (Py.rstrip_by p s) = true.
Proof.
  induction s as [| c s IH]; simpl; [reflexivity |].
  rewrite andb_true_iff. intros [Hc Hs].
  destruct (p c && Py.is_empty (Py.rstrip_by p s)); simpl; [reflexivity |].
  rewrite Hc. simpl. auto.
Qed.

Lemma take_chars q n s :
  Py.all_chars q s = true -> Py.all_chars q (Py.take n s) = true.
Proof.
  revert s. induction n as [| n IH]; intros [| c s]; simpl; try reflexivity.
  rewrite !andb_true_iff. intros [Hc Hs]. auto.
Qed.

Lemma take_length n s : len (Py.take n s) <= n.
Proof.
  unfold len. revert s. induction n as [| n IH]; intros [| c s]; simpl; try lia.
  specialize (IH s). lia.
Qed.

Lemma take_all n s : len s <= n -> Py.take n s = s.
Proof.
  unfold len. revert s. induction n as [| n IH]; intros [| c s]; simpl; intros H;
    try reflexivity; try lia.
  f_equal. apply IH. lia.
Qed.

Lemma take_first_char n s c :
  Py.first_char (Py.take n s) = Some c -> Py.first_char s = Some c.
Proof. destruct n, s; simpl; congruence. Qed.

Lemma lstrip_by_first p s c :
  Py.first_char (Py.lstrip_by p s) = Some c -> p c = false.
Proof.
  induction s as [| a s IH]; simpl; [discriminate |].
  destruct (p a) eqn:Ha; [exact IH |].
  simpl. intros [= <-]. exact Ha.
Qed.

Lemma rstrip_by_first p s c :
  Py.first_char (Py.rstrip_by p s) = Some c -> Py.first_char s = Some c.
Proof.
  destruct s as [| a s]; simpl; [discriminate |].
  destruct (p a && Py.is_empty (Py.rstrip_by p s)); simpl; congruence.
Qed.

Lemma rstrip_by_last p s c :
  Py.last_char (Py.rstrip_by p s) = Some c -> p c = false.
Proof.
  induction s as [| a s IH]; simpl; [discriminate |].
  destruct (Py.rstrip_by p s) as [| b r] eqn:Hr.
  - rewrite andb_true_r. destruct (p a) eqn:Ha; simpl; [discriminate |].
    intros [= <-]. exact Ha.
  - rewrite andb_false_r. exact IH.
Qed.

(** What holds of every slug: the characters, the length and the first
    character; the last character is no hyphen as long as nothing is cut
    off. *)
Lemma slugify_shape (name : string) :
  Py.all_chars is_slug_char (slugify name) = true
  /\ len (slugify name) <= 100
  /\ Py.first_char (slugify name) <> Some hyphen
  /\ (len (Py.strip_by (Ascii.eqb hyphen) (sub_non_alnum false (Py.lower name))) <= 100 ->
      Py.last_char (slugify name) <> Some hyphen).
Proof.
  unfold slugify. cbv zeta. repeat split.
  - apply take_chars. unfold Py.strip_by.
    apply rstrip_by_chars, lstrip_by_chars, sub_non_alnum_chars.
  - apply take_length.
  - intros H. apply take_first_char in H. unfold Py.strip_by in H.
    apply rstrip_by_first, lstrip_by_first in H. discriminate.
  - intros Hlen H. rewrite (take_all _ _ Hlen) in H. unfold Py.strip_by in H.
    apply rstrip_by_last in H. discriminate.
Qed.

(** C2: every slug is made of lowercase letters, digits and hyphens, has at
    most 100 characters and begins with no hyphen; but a slug can end in one.
    On [long_name] the slug is cut after its hundredth character, which is
    the hyphen that stands for the blank. *)
Theorem slugify_trailing_hyphen :
  (forall name,
      Py.all_chars is_slug_char (slugify name) = true
      /\ len (slugify name) <= 100
      /\ Py.first_char (slugify name) <> Some hyphen)
  /\ slugify long_name = String.concat "" (repeat "a" 99) +:+ "-"
  /\ len (slugify long_name) = 100
  /\ Py.last_char (slugify long_name) = Some hyphen.
Proof.
  split.
  - intros name. destruct (slugify_shape name) as (Hc & Hl & Hf & _). auto.
  - repeat split; vm_compute; reflexivity.
Qed.

(** ** Popularity parsing *)

(** [parse_stars] never lets a [ValueError] out. *)
Lemma parse_stars_no_ValueError text :
  GithubTrending.parse_stars text <> Exc.Raise Exc.ValueError.
Proof.
  unfold GithubTrending.parse_stars. cbv zeta.
  destruct (Py.is_empty _); [discriminate |].
  destruct (Py.endswith _ _).
  - destruct (_ ≫= _) as [z | []]; simpl; discriminate.
  - destruct (PyNum.int_of_str _) as [z | []]; simpl; discriminate.
Qed.

(** Without a final k the text goes through [int()] alone, and
    [parse_stars] returns. *)
Lemma parse_stars_plain_returns text :
  Py.endswith "k" (Py.lower (Py.remove_char ","%char (Py.strip text))) = false ->
  exists n, GithubTrending.parse_stars text = Exc.Ok n.
Proof.
  intros Hk. unfold GithubTrending.parse_stars. cbv zeta. rewrite Hk.
  destruct (Py.is_empty _); [eauto |].
  destruct (PyNum.int_of_str _) as [z | []] eqn:E; simpl; eauto.
  exfalso. unfold PyNum.int_of_str in E.
  destruct (PyNum.split_sign _) as [neg body].
  destruct (PyNum.digitpart 0 body) as [[[v n] [| c r]] |]; try discriminate.
  destruct (4300 <? Z.of_nat n)%Z; discriminate.
Qed.

(** C7: the four examples of the specification, and the text "infk", which
    is no decimal number: [float] reads it as infinity and [int] of an
    infinity raises [OverflowError], which [parse_stars] does not catch. *)
Theorem parse_stars_examples :
  GithubTrending.parse_stars "12.5k" = Exc.Ok 12500%Z
  /\ GithubTrending.parse_stars "1,234" = Exc.Ok 1234%Z
  /\ GithubTrending.parse_stars "" = Exc.Ok 0%Z
  /\ GithubTrending.parse_stars "garbage" = Exc.Ok 0%Z
  /\ GithubTrending.parse_stars "infk" = Exc.Raise Exc.OverflowError.
Proof. repeat split; vm_compute; reflexivity. Qed.

(** ** Extraction from markdown *)

(** C8: the blob with the one link to Acme gives one product, named "Acme",
    with the tagline "Fix your bugs fast" and the slug "acme"; the link text
    is split after its first four characters, before the capitalised word
    "Fix". *)
Theorem extract_acme :
  ProductHunt.extract_products_from_markdown acme_blob
  = [ ProductHunt.mkProduct "Acme" "Fix your bugs fast"
        "https://www.producthunt.com/products/acme" "acme" ]
  /\ option_map (fun m => Re.group_end m 1)
       (Re.rmatch ProductHunt.name_split "Acme Fix your bugs fast") = Some 4.
Proof. split; vm_compute; reflexivity. Qed.

(** ** The loops of a pipeline *)

Section LoopFacts.
Import Exc Pipeline.
Context {Item : Type}.
Variables (key : Item -> string) (skip : Item -> bool) (max_results : nat).

Abbreviation run_items := (run_items key skip max_results).
Abbreviation run_pages := (run_pages key skip max_results).
Abbreviation kept_key := (kept_key key).

(** What one round over the items of a page does: the entries it appends
    are made from items [kept], taken from the page, not skipped, with keys
    that were not in [seen] and differ from one another; their keys are
    what [seen] grows by; the cap is kept; and below the cap every item of
    the page that is not skipped has its key in [seen] afterwards. *)
Lemma run_items_spec mk items seen entries seen' entries' :
  length entries < max_results ->
  run_items mk items seen entries = Ok (seen', entries') ->
  exists kept ents,
    entries' = entries ++ ents
    /\ Forall2 (fun item e => mk item = Ok e) kept ents
    /\ NoDup (key <$> kept)
    /\ (forall item, item ∈ kept -> item ∈ items /\ skip item = false /\ key item ∉ seen)
    /\ seen' = list_to_set (key <$> kept) ∪ seen
    /\ length entries' <= max_results
    /\ (length entries' < max_results ->
        forall item, item ∈ items -> skip item = false -> key item ∈ seen').
Proof.
  revert seen entries.
  induction items as [| item items IH]; intros seen entries Hlt Hrun; simpl in Hrun.
  - injection Hrun as <- <-. exists [], [].
    rewrite app_nil_r. split_and!.
    + reflexivity.
    + constructor.
    + constructor.
    + intros item Hitem. inversion Hitem.
    + simpl. set_solver.
    + lia.
    + intros _ item Hitem. inversion Hitem.
  - destruct (skip item || bool_decide (key item ∈ seen)) eqn:Hskip.
    + destruct (IH _ _ Hlt Hrun) as (kept & ents & -> & Hmk & Hnd & Hin & -> & Hcap & Hall).
      exists kept, ents. split_and!; try assumption; try reflexivity.
      * intros it Hit. destruct (Hin it Hit) as (? & ? & ?).
        split_and!; [apply elem_of_cons; by right | assumption | assumption].
      * intros Hlt' it Hit Hns. apply elem_of_cons in Hit as [-> | Hit].
        -- rewrite Hns in Hskip. simpl in Hskip.
           apply bool_decide_eq_true in Hskip. set_solver.
        -- exact (Hall Hlt' it Hit Hns).
    + apply orb_false_iff in Hskip as [Hns Hseen].
      apply bool_decide_eq_false in Hseen.
      destruct (mk item) as [e | x] eqn:Hmk; simpl in Hrun; [| discriminate].
      destruct (Nat.leb max_results (length (entries ++ [e]))) eqn:Hfull.
      * injection Hrun as <- <-. apply Nat.leb_le in Hfull.
        rewrite length_app in *. simpl in *.
        exists [item], [e]. split_and!.
        -- reflexivity.
        -- constructor; [exact Hmk | constructor].
        -- simpl. apply NoDup_singleton.
        -- intros it Hit. apply list_elem_of_singleton in Hit as ->.
           split_and!; [apply elem_of_cons; by left | assumption | assumption].
        -- simpl. set_solver.
        -- lia.
        -- lia.
      * apply Nat.leb_gt in Hfull.
        destruct (IH _ _ Hfull Hrun)
          as (kept & ents & -> & Hmks & Hnd & Hin & -> & Hcap & Hall).
        exists (item :: kept), (e :: ents). split_and!.
        -- rewrite <- app_assoc. reflexivity.
        -- constructor; assumption.
        -- simpl. apply NoDup_cons. split; [| exact Hnd].
           intros Hk. apply list_elem_of_fmap in Hk as (it & Hkey & Hit).
           destruct (Hin it Hit) as (_ & _ & Hnot). set_solver.
        -- intros it Hit. apply elem_of_cons in Hit as [-> | Hit].
           ++ split_and!; [apply elem_of_cons; by left | assumption | assumption].
           ++ destruct (Hin _ Hit) as (? & ? & ?).
              split_and!; [apply elem_of_cons; by right | assumption | set_solver].
        -- simpl. set_solver.
        -- exact Hcap.
        -- intros Hlt' it Hit Hns'. apply elem_of_cons in Hit as [-> | Hit].
           ++ set_solver.
           ++ exact (Hall Hlt' it Hit Hns').
Qed.

Lemma kept_key_tag mk (l : list Item) :
  kept_key <$> ((fun item => (mk, item)) <$> l) = key <$> l.
Proof. induction l as [| x l IH]; simpl; [reflexivity |]. f_equal. exact IH. Qed.

(** What a whole run does: the same, over the pages. *)
Lemma run_pages_spec pages seen entries es :
  length entries < max_results ->
  run_pages pages seen entries = Ok es ->
  exists kept ents,
    es = entries ++ ents
    /\ Forall2 (fun x e => fst x (snd x) = Ok e) kept ents
    /\ NoDup (kept_key <$> kept)
    /\ (forall x, x ∈ kept ->
          (exists items, Some (fst x, items) ∈ pages /\ snd x ∈ items)
          /\ skip (snd x) = false /\ kept_key x ∉ seen)
    /\ length es <= max_results
    /\ (length es < max_results ->
        forall mk items item,
          Some (mk, items) ∈ pages -> item ∈ items -> skip item = false ->
          key item ∈ (list_to_set (kept_key <$> kept) ∪ seen : gset string)).
Proof.
  revert seen entries.
  induction pages as [| [[mk items] |] pages IH]; intros seen entries Hlt Hrun;
    simpl in Hrun.
  - injection Hrun as <-. exists [], []. rewrite app_nil_r. split_and!.
    + reflexivity.
    + constructor.
    + constructor.
    + intros x Hx. inversion Hx.
    + lia.
    + intros _ mk items item Hp. inversion Hp.
  - destruct (Pipeline.run_items key skip max_results mk items seen entries)
      as [[seen1 entries1] | x] eqn:Hitems; simpl in Hrun; [| discriminate].
    destruct (run_items_spec _ _ _ _ _ _ Hlt Hitems)
      as (kept1 & ents1 & -> & Hmk1 & Hnd1 & Hin1 & -> & Hcap1 & Hall1).
    destruct (Nat.leb max_results (length (entries ++ ents1))) eqn:Hfull.
    + injection Hrun as <-. apply Nat.leb_le in Hfull.
      exists ((fun item => (mk, item)) <$> kept1), ents1. split_and!.
      * reflexivity.
      * apply Forall2_fmap_l. exact Hmk1.
      * rewrite kept_key_tag. exact Hnd1.
      * intros x Hx. apply list_elem_of_fmap in Hx as (item & -> & Hitem).
        destruct (Hin1 item Hitem) as (? & ? & ?). simpl. split_and!; try assumption.
        exists items. split; [apply elem_of_cons; by left | assumption].
      * exact Hcap1.
      * lia.
    + apply Nat.leb_gt in Hfull.
      destruct (IH _ _ Hfull Hrun)
        as (kept2 & ents2 & -> & Hmk2 & Hnd2 & Hin2 & Hcap2 & Hall2).
      exists (((fun item => (mk, item)) <$> kept1) ++ kept2), (ents1 ++ ents2). split_and!.
      * by rewrite app_assoc.
      * apply Forall2_app; [apply Forall2_fmap_l; exact Hmk1 | exact Hmk2].
      * rewrite fmap_app, kept_key_tag. apply NoDup_app. split_and!; try assumption.
        intros k Hk1 Hk2. apply list_elem_of_fmap in Hk2 as (x & -> & Hx).
        destruct (Hin2 x Hx) as (_ & _ & Hnot). set_solver.
      * intros x Hx. apply elem_of_app in Hx as [Hx | Hx].
        -- apply list_elem_of_fmap in Hx as (item & -> & Hitem).
           destruct (Hin1 item Hitem) as (? & ? & ?). simpl. split_and!; try assumption.
           exists items. split; [apply elem_of_cons; by left | assumption].
        -- destruct (Hin2 x Hx) as ((its & Hp & Hits) & ? & Hnot). split_and!; try assumption.
           ++ exists its. split; [apply elem_of_cons; by right | assumption].
           ++ set_solver.
      * exact Hcap2.
      * intros Hlt' mk' items' item Hp Hitem Hns.
        rewrite fmap_app, kept_key_tag.
        apply elem_of_cons in Hp as [Heq | Hp].
        -- injection Heq as -> ->. specialize (Hall1 Hfull item Hitem Hns). set_solver.
        -- specialize (Hall2 Hlt' mk' items' item Hp Hitem Hns). set_solver.
  - destruct (IH _ _ Hlt Hrun) as (kept & ents & -> & Hmk & Hnd & Hin & Hcap & Hall).
    exists kept, ents. split_and!; try assumption; try reflexivity.
    + intros x Hx. destruct (Hin x Hx) as ((its & Hp & Hits) & ? & ?).
      split_and!; try assumption.
      exists its. split; [apply elem_of_cons; by right | assumption].
    + intros Hlt' mk items item Hp Hitem Hns.
      apply elem_of_cons in Hp as [Heq | Hp]; [discriminate |].
      exact (Hall Hlt' mk items item Hp Hitem Hns).
Qed.

(** A run returns when no entry it could make raises. *)
Lemma run_items_returns mk items seen entries :
  (forall item, item ∈ items -> exists e, mk item = Ok e) ->
  exists st, run_items mk items seen entries = Ok st.
Proof.
  revert seen entries.
  induction items as [| item items IH]; intros seen entries Hok; simpl; [eauto |].
  assert (Htl : forall it, it ∈ items -> exists e, mk it = Ok e)
    by (intros it Hit; apply Hok, elem_of_cons; by right).
  destruct (skip item || bool_decide (key item ∈ seen)); [by apply IH |].
  destruct (Hok item) as [e ->]; [apply elem_of_cons; by left |]. simpl.
  destruct (Nat.leb max_results (length (entries ++ [e]))); [eauto | by apply IH].
Qed.

Lemma run_pages_returns pages seen entries :
  (forall mk items item, Some (mk, items) ∈ pages -> item ∈ items ->
                         exists e, mk item = Ok e) ->
  exists es, run_pages pages seen entries = Ok es.
Proof.
  revert seen entries.
  induction pages as [| [[mk items] |] pages IH]; intros seen entries Hok; simpl; [eauto | |].
  - destruct (run_items_returns mk items seen entries) as [[seen1 entries1] ->].
    { intros item Hitem. apply (Hok mk items); [apply elem_of_cons; by left | assumption]. }
    simpl. destruct (Nat.leb max_results (length entries1)); [eauto |].
    apply IH. intros mk' items' item Hp. apply Hok, elem_of_cons. by right.
  - apply IH. intros mk' items' item Hp. apply Hok, elem_of_cons. by right.
Qed.

(** The consequences used below, for a run that starts with nothing seen
    and no entry. *)
Lemma run_pages_cap pages es :
  0 < max_results -> run_pages pages ∅ [] = Ok es -> length es <= max_results.
Proof.
  intros Hpos Hrun.
  destruct (run_pages_spec pages ∅ [] es Hpos Hrun) as (? & ? & _ & _ & _ & _ & Hcap & _).
  exact Hcap.
Qed.

Lemma run_pages_Forall (P : Entry -> Prop) pages es :
  0 < max_results ->
  (forall mk items item e, Some (mk, items) ∈ pages -> item ∈ items ->
                           mk item = Ok e -> P e) ->
  run_pages pages ∅ [] = Ok es -> Forall P es.
Proof.
  intros Hpos HP Hrun.
  destruct (run_pages_spec pages ∅ [] es Hpos Hrun) as (kept & ents & -> & Hmk & _ & Hin & _).
  simpl. clear Hrun. induction Hmk as [| x e kept ents Hx Hmk IH]; constructor.
  - destruct (Hin x) as ((items & Hp & Hitem) & _); [apply elem_of_cons; by left |].
    exact (HP _ _ _ _ Hp Hitem Hx).
  - apply IH. intros y Hy. apply Hin, elem_of_cons. by right.
Qed.

Lemma run_pages_full pages es mk items (ks : list string) :
  0 < max_results ->
  run_pages pages ∅ [] = Ok es ->
  Some (mk, items) ∈ pages ->
  NoDup ks ->
  (forall k, k ∈ ks -> exists item, item ∈ items /\ skip item = false /\ key item = k) ->
  max_results <= length ks ->
  length es = max_results.
Proof.
  intros Hpos Hrun Hp Hnd Hks Hmany.
  destruct (run_pages_spec pages ∅ [] es Hpos Hrun)
    as (kept & ents & -> & Hmk & Hndk & _ & Hcap & Hall).
  simpl in *. destruct (decide (length ents < max_results)) as [Hlt |]; [| lia].
  exfalso. specialize (Hall Hlt mk items).
  assert (Hsub : ks ⊆ kept_key <$> kept).
  { intros k Hk. destruct (Hks k Hk) as (item & Hitem & Hns & <-).
    specialize (Hall item Hp Hitem Hns). set_solver. }
  pose proof (submseteq_length _ _ (NoDup_submseteq _ _ Hnd Hsub)) as Hle.
  rewrite length_fmap in Hle. apply Forall2_length in Hmk. lia.
Qed.
(** The set of seen keys only grows. *)
Lemma run_items_seen mk items seen entries seen' entries' :
  run_items mk items seen entries = Ok (seen', entries') -> seen ⊆ seen'.
Proof.
  revert seen entries.
  induction items as [| item items IH]; intros seen entries Hrun; simpl in Hrun.
  - injection Hrun as <- <-. reflexivity.
  - destruct (skip item || bool_decide (key item ∈ seen)); [exact (IH _ _ Hrun) |].
    destruct (mk item) as [e | x]; simpl in Hrun; [| discriminate].
    destruct (Nat.leb max_results (length (entries ++ [e]))).
    + injection Hrun as <- <-. set_solver.
    + apply IH in Hrun. set_solver.
Qed.

(** The entries of a run are made, one each and in their order, from items
    of the pages whose keys differ from one another. *)
Lemma run_pages_keys pages es :
  0 < max_results -> run_pages pages ∅ [] = Ok es ->
  exists kept : list Item,
    NoDup (key <$> kept)
    /\ Forall2 (fun item e => exists mk items,
                    Some (mk, items) ∈ pages /\ item ∈ items /\ mk item = Ok e) kept es.
Proof.
  intros Hpos Hrun.
  destruct (run_pages_spec pages ∅ [] es Hpos Hrun) as (kept & ents & -> & Hmk & Hnd & Hin & _).
  exists (snd <$> kept). split.
  - rewrite <- list_fmap_compose. exact Hnd.
  - simpl. apply Forall2_fmap_l. clear Hnd Hrun.
    induction Hmk as [| x e kept ents Hx Hmk IH]; constructor.
    + destruct (Hin x) as ((items & Hp & Hitem) & _); [apply elem_of_cons; by left |].
      exists (fst x), items. split_and!; assumption.
    + apply IH. intros y Hy. apply Hin, elem_of_cons. by right.
Qed.
End LoopFacts.

(** ** The pipelines as instances of the loops *)

(** one round of a loop, the cap left as it is *)
Ltac loop_step :=
  cbn [GithubTrending.scrape_rows GithubTrending.scrape_urls
       ProductHunt.scrape_products ProductHunt.scrape_urls
       Taaft.scrape_tools Taaft.scrape_urls
       Pipeline.run_items Pipeline.run_pages
       mbind Exc.result_bind fmap list_fmap never_skip orb].

Lemma github_rows_loop rows seen entries :
  GithubTrending.scrape_rows rows seen entries
  = Pipeline.run_items GithubTrending.row_key github_skip GithubTrending.MAX_RESULTS
      GithubTrending.entry_of rows seen entries.
Proof.
  revert seen entries. induction rows as [| row rows IH]; intros seen entries;
    loop_step; [reflexivity |].
  unfold github_skip.
  destruct (Py.is_empty _ || bool_decide _); [apply IH |].
  destruct (GithubTrending.entry_of row) as [e | x]; loop_step; [| reflexivity].
  destruct (Nat.leb _ _); [reflexivity | apply IH].
Qed.

Lemma github_urls_loop crawl urls seen entries :
  GithubTrending.scrape_urls crawl urls seen entries
  = Pipeline.run_pages GithubTrending.row_key github_skip GithubTrending.MAX_RESULTS
      (github_page crawl <$> urls) seen entries.
Proof.
  revert seen entries. induction urls as [| url urls IH]; intros seen entries;
    loop_step; [reflexivity |].
  unfold github_page at 1. cbv zeta.
  destruct (negb (GithubTrending.success (crawl url))); [apply IH |].
  destruct (GithubTrending.extracted_content (crawl url)) as [rows |]; [| apply IH].
  rewrite github_rows_loop.
  destruct (Pipeline.run_items _ _ _ _ _ _ _) as [[seen1 entries1] | x]; loop_step;
    [| reflexivity].
  destruct (Nat.leb _ _); [reflexivity | apply IH].
Qed.

Lemma github_scrape_loop crawl :
  GithubTrending.scrape crawl
  = Pipeline.run_pages GithubTrending.row_key github_skip GithubTrending.MAX_RESULTS
      (github_page crawl <$> GithubTrending.URLS) ∅ [].
Proof. apply github_urls_loop. Qed.

Lemma producthunt_products_loop topics products seen entries :
  Exc.Ok (ProductHunt.scrape_products topics products seen entries)
  = Pipeline.run_items ProductHunt.p_slug never_skip ProductHunt.MAX_RESULTS
      (fun prod => Exc.Ok (ProductHunt.entry_of topics prod)) products seen entries.
Proof.
  revert seen entries. induction products as [| prod products IH]; intros seen entries;
    loop_step; [reflexivity |].
  destruct (bool_decide _); [apply IH |].
  destruct (Nat.leb _ _); [reflexivity | apply IH].
Qed.

Lemma producthunt_urls_loop crawl urls seen entries :
  Exc.Ok (ProductHunt.scrape_urls crawl urls seen entries)
  = Pipeline.run_pages ProductHunt.p_slug never_skip ProductHunt.MAX_RESULTS
      (producthunt_page crawl <$> urls) seen entries.
Proof.
  revert seen entries. induction urls as [| url urls IH]; intros seen entries;
    loop_step; [reflexivity |].
  unfold producthunt_page at 1. cbv zeta.
  destruct (negb (ProductHunt.success (crawl url))); [apply IH |].
  destruct (ProductHunt.markdown (crawl url)) as [[| c md] |]; try apply IH.
  rewrite <- producthunt_products_loop.
  destruct (ProductHunt.scrape_products _ _ _ _) as [seen1 entries1]. loop_step.
  destruct (Nat.leb _ _); [reflexivity | apply IH].
Qed.

Lemma producthunt_scrape_loop crawl :
  Exc.Ok (ProductHunt.scrape crawl)
  = Pipeline.run_pages ProductHunt.p_slug never_skip ProductHunt.MAX_RESULTS
      (producthunt_page crawl <$> ProductHunt.URLS) ∅ [].
Proof. apply producthunt_urls_loop. Qed.

Lemma taaft_tools_loop tools seen entries :
  Exc.Ok (Taaft.scrape_tools tools seen entries)
  = Pipeline.run_items Taaft.t_slug never_skip Taaft.MAX_RESULTS
      (fun tool => Exc.Ok (Taaft.entry_of tool)) tools seen entries.
Proof.
  revert seen entries. induction tools as [| tool tools IH]; intros seen entries;
    loop_step; [reflexivity |].
  destruct (bool_decide _); [apply IH |].
  destruct (Nat.leb _ _); [reflexivity | apply IH].
Qed.

Lemma taaft_urls_loop crawl urls seen entries :
  Exc.Ok (Taaft.scrape_urls crawl urls seen entries)
  = Pipeline.run_pages Taaft.t_slug never_skip Taaft.MAX_RESULTS
      (taaft_page crawl <$> urls) seen entries.
Proof.
  revert seen entries. induction urls as [| url urls IH]; intros seen entries;
    loop_step; [reflexivity |].
  unfold taaft_page at 1. cbv zeta.
  destruct (negb (Taaft.success (crawl url))); [apply IH |].
  destruct (Taaft.markdown (crawl url)) as [[| c md] |]; try apply IH.
  rewrite <- taaft_tools_loop.
  destruct (Taaft.scrape_tools _ _ _) as [seen1 entries1]. loop_step.
  destruct (Nat.leb _ _); [reflexivity | apply IH].
Qed.

Lemma taaft_scrape_loop crawl :
  Exc.Ok (Taaft.scrape crawl)
  = Pipeline.run_pages Taaft.t_slug never_skip Taaft.MAX_RESULTS
      (taaft_page crawl <$> Taaft.URLS) ∅ [].
Proof. apply taaft_urls_loop. Qed.

(** the way a page makes its entries, in each pipeline *)
Lemma github_page_mk crawl url mk rows :
  github_page crawl url = Some (mk, rows) -> mk = GithubTrending.entry_of.
Proof.
  unfold github_page.
  destruct (negb _); [discriminate |].
  destruct (GithubTrending.extracted_content _); [| discriminate]. congruence.
Qed.

Lemma producthunt_page_mk crawl url mk products :
  producthunt_page crawl url = Some (mk, products) ->
  mk = fun prod => Exc.Ok (ProductHunt.entry_of (ProductHunt.topics_of_url url) prod).
Proof.
  unfold producthunt_page.
  destruct (negb _); [discriminate |].
  destruct (ProductHunt.markdown _) as [[| c md] |]; try discriminate. congruence.
Qed.

Lemma taaft_page_mk crawl url mk tools :
  taaft_page crawl url = Some (mk, tools) ->
  mk = fun tool => Exc.Ok (Taaft.entry_of tool).
Proof.
  unfold taaft_page.
  destruct (negb _); [discriminate |].
  destruct (Taaft.markdown _) as [[| c md] |]; try discriminate. congruence.
Qed.

(** A property of every entry a pipeline can make holds of every entry it
    emits. *)
Lemma github_emitted_Forall (P : Entry -> Prop) crawl :
  (forall row e, GithubTrending.entry_of row = Exc.Ok e -> P e) ->
  Forall P (github_emitted crawl).
Proof.
  intros HP. unfold github_emitted.
  destruct (GithubTrending.scrape crawl) as [es | x] eqn:Hrun; [| constructor].
  rewrite github_scrape_loop in Hrun.
  eapply run_pages_Forall; [| | exact Hrun]; [unfold GithubTrending.MAX_RESULTS; lia |].
  intros mk rows row e Hp _ Hmk.
  apply list_elem_of_fmap in Hp as (url & Hp & _). symmetry in Hp.
  apply github_page_mk in Hp as ->. eauto.
Qed.

Lemma producthunt_scrape_Forall (P : Entry -> Prop) crawl :
  (forall topics prod, P (ProductHunt.entry_of topics prod)) ->
  Forall P (ProductHunt.scrape crawl).
Proof.
  intros HP. pose proof (producthunt_scrape_loop crawl) as Hrun. symmetry in Hrun.
  eapply run_pages_Forall; [| | exact Hrun]; [unfold ProductHunt.MAX_RESULTS; lia |].
  intros mk products prod e Hp _ Hmk.
  apply list_elem_of_fmap in Hp as (url & Hp & _). symmetry in Hp.
  apply producthunt_page_mk in Hp as ->. injection Hmk as <-. apply HP.
Qed.

Lemma taaft_scrape_Forall (P : Entry -> Prop) crawl :
  (forall tool, P (Taaft.entry_of tool)) ->
  Forall P (Taaft.scrape crawl).
Proof.
  intros HP. pose proof (taaft_scrape_loop crawl) as Hrun. symmetry in Hrun.
  eapply run_pages_Forall; [| | exact Hrun]; [unfold Taaft.MAX_RESULTS; lia |].
  intros mk tools tool e Hp _ Hmk.
  apply list_elem_of_fmap in Hp as (url & Hp & _). symmetry in Hp.
  apply taaft_page_mk in Hp as ->. injection Hmk as <-. apply HP.
Qed.

(** ** Categories of the records *)

Lemma Ok_inj {A : Type} (a b : A) : Exc.Ok a = Exc.Ok b -> a = b.
Proof. congruence. Qed.

Lemma categorize_not_outside text topics language :
  categorize_by_keywords text topics language <> "api-service"
  /\ categorize_by_keywords text topics language <> "saas-tool".
Proof.
  pose proof (categorize_in_cascade text topics language) as H.
  unfold CASCADE_CATEGORIES in H. simpl in H.
  split; intros E; rewrite E in H; intuition discriminate.
Qed.

Lemma github_entry_category row e :
  GithubTrending.entry_of row = Exc.Ok e -> e_category e <> "api-service".
Proof.
  unfold GithubTrending.entry_of. cbv zeta.
  destruct (GithubTrending.parse_stars _) as [n | x]; cbn [mbind Exc.result_bind];
    [| discriminate].
  intros H%Ok_inj. subst e. cbn [e_category]. apply categorize_not_outside.
Qed.

Lemma producthunt_entry_category topics prod :
  e_category (ProductHunt.entry_of topics prod) <> "api-service".
Proof.
  unfold ProductHunt.entry_of, categorize_producthunt. cbv zeta. cbn [e_category].
  destruct (String.eqb _ "framework"); [discriminate |].
  apply categorize_not_outside.
Qed.

Lemma taaft_entry_category tool :
  e_category (Taaft.entry_of tool) <> "api-service".
Proof.
  unfold Taaft.entry_of. cbv zeta. cbn [e_category].
  destruct (String.eqb _ "framework"); [discriminate |].
  apply categorize_not_outside.
Qed.

(** C10: [categorize_by_keywords] returns one of seven categories, never
    "api-service" and never "saas-tool", although both are in
    [VALID_CATEGORIES]; and no record a pipeline emits has the category
    "api-service". *)
Theorem categorize_seven_categories :
  (forall text topics language,
      In (categorize_by_keywords text topics language) CASCADE_CATEGORIES
      /\ categorize_by_keywords text topics language <> "api-service"
      /\ categorize_by_keywords text topics language <> "saas-tool")
  /\ length CASCADE_CATEGORIES = 7
  /\ In "api-service" VALID_CATEGORIES /\ In "saas-tool" VALID_CATEGORIES
  /\ (forall crawl, Forall (fun e => e_category e <> "api-service") (github_emitted crawl))
  /\ (forall crawl, Forall (fun e => e_category e <> "api-service") (ProductHunt.scrape crawl))
  /\ (forall crawl, Forall (fun e => e_category e <> "api-service") (Taaft.scrape crawl)).
Proof.
  split_and!.
  - intros text topics language. split; [apply categorize_in_cascade |].
    apply categorize_not_outside.
  - reflexivity.
  - simpl. tauto.
  - simpl. tauto.
  - intros crawl. apply github_emitted_Forall. exact github_entry_category.
  - intros crawl. apply producthunt_scrape_Forall. exact producthunt_entry_category.
  - intros crawl. apply taaft_scrape_Forall. exact taaft_entry_category.
Qed.

(** ** Length of the tagline and of the description *)

Lemma github_entry_tagline row e :
  GithubTrending.entry_of row = Exc.Ok e -> len (e_tagline e) <= 160.
Proof.
  unfold GithubTrending.entry_of. cbv zeta.
  destruct (GithubTrending.parse_stars _) as [n | x]; cbn [mbind Exc.result_bind];
    [| discriminate].
  intros H%Ok_inj. subst e. cbn [e_tagline]. apply take_length.
Qed.

(** C6, as it is stated, fails: the description is written out whole.  The
    GitHub record of a repository described in 161 characters has a tagline
    of 160 characters and a description of 161; the Product Hunt record of a
    tagline of 170 characters has a description of 170. *)
Lemma description_not_truncated :
  map (fun e => (len (e_tagline e), len (e_description e)))
      (github_emitted long_description_crawl) = [ (160, 161) ]
  /\ map (fun e => (len (e_tagline e), len (e_description e)))
         (ProductHunt.scrape long_tagline_crawl) = [ (160, 170) ].
Proof. split; vm_compute; reflexivity. Qed.

(** C6, amended: the tagline of every record a pipeline emits has at most
    160 characters; it is the first 160 characters of the text it is taken
    from.  Nothing is said of the description. *)
Theorem tagline_truncated :
  (forall crawl, Forall (fun e => len (e_tagline e) <= 160) (github_emitted crawl))
  /\ (forall crawl, Forall (fun e => len (e_tagline e) <= 160) (ProductHunt.scrape crawl))
  /\ (forall crawl, Forall (fun e => len (e_tagline e) <= 160) (Taaft.scrape crawl)).
Proof.
  split_and!; intros crawl.
  - apply github_emitted_Forall. exact github_entry_tagline.
  - apply producthunt_scrape_Forall. intros topics prod. apply take_length.
  - apply taaft_scrape_Forall. intros tool. apply take_length.
Qed.

(** ** A dict filled in the order of the matches *)

Section FirstWinsFacts.
Context {V M : Type}.
Variable cand : M -> option (string * V).

Lemma dict_has_elem k (d : list (string * V)) : dict_has k d = true <-> k ∈ d.*1.
Proof.
  unfold dict_has. induction d as [| [k0 v0] d IH]; simpl.
  - split; [discriminate | intros H; inversion H].
  - rewrite orb_true_iff, IH, String.eqb_eq, elem_of_cons. reflexivity.
Qed.

Lemma dict_has_not_elem k (d : list (string * V)) : dict_has k d = false <-> k ∉ d.*1.
Proof.
  rewrite <- dict_has_elem. destruct (dict_has k d); split; congruence.
Qed.

Lemma first_cand_nil k v : ~ first_cand cand [] k v.
Proof. intros (ms1 & m & ms2 & H & _). destruct ms1; discriminate. Qed.

Lemma first_cand_cons m0 ms k v :
  first_cand cand (m0 :: ms) k v
  <-> cand m0 = Some (k, v) \/ (fst <$> cand m0 <> Some k /\ first_cand cand ms k v).
Proof.
  split.
  - intros (ms1 & m & ms2 & Heq & Hm & Hno). destruct ms1 as [| m1 ms1]; simpl in Heq.
    + injection Heq as <- <-. by left.
    + injection Heq as <- ->. right. split.
      * apply Hno, elem_of_cons. by left.
      * exists ms1, m, ms2. split_and!; [reflexivity | exact Hm |].
        intros m' Hm'. apply Hno, elem_of_cons. by right.
  - intros [Hm | [Hne (ms1 & m & ms2 & -> & Hm & Hno)]].
    + exists [], m0, ms. split_and!; [reflexivity | exact Hm |].
      intros m' Hm'. inversion Hm'.
    + exists (m0 :: ms1), m, ms2. split_and!; [reflexivity | exact Hm |].
      intros m' Hm'. apply elem_of_cons in Hm' as [-> | Hm']; [exact Hne | by apply Hno].
Qed.

(** No key comes twice. *)
Lemma fold_keep_NoDup ms d : NoDup d.*1 -> NoDup (fold_left (keep cand) ms d).*1.
Proof.
  revert d. induction ms as [| m ms IH]; intros d Hd; simpl; [exact Hd |].
  apply IH. unfold keep.
  destruct (cand m) as [[k v] |]; [| exact Hd].
  destruct (dict_has k d) eqn:Hk; [exact Hd |].
  apply dict_has_not_elem in Hk.
  rewrite fmap_app. apply NoDup_app. split_and!; [exact Hd | | apply NoDup_singleton].
  intros k' Hk' Hin. apply list_elem_of_singleton in Hin. simpl in Hin. congruence.
Qed.

(** What is in the dict at the end: what was there, and for every key
    that was not, the candidate of the first match that has one. *)
Lemma fold_keep_elem ms d k v :
  (k, v) ∈ fold_left (keep cand) ms d <-> (k, v) ∈ d \/ ((k ∉ d.*1) /\ first_cand cand ms k v).
Proof.
  revert d. induction ms as [| m ms IH]; intros d; simpl.
  - split; [by left |]. intros [H | [_ H]]; [exact H | by apply first_cand_nil in H].
  - rewrite IH, first_cand_cons. unfold keep.
    destruct (cand m) as [[k0 v0] |] eqn:Hm; simpl.
    + destruct (dict_has k0 d) eqn:Hk.
      * apply dict_has_elem in Hk. split.
        -- intros [H | [Hn H]]; [by left |]. right. split; [exact Hn |]. right.
           split; [congruence | exact H].
        -- intros [H | [Hn [H | [_ H]]]]; [by left | | by right].
           injection H as -> ->. contradiction.
      * apply dict_has_not_elem in Hk.
        rewrite elem_of_app, fmap_app, not_elem_of_app. simpl.
        rewrite !list_elem_of_singleton.
        split.
        -- intros [[H | H] | [[Hn Hne] H]]; [by left | | ].
           ++ injection H as -> ->. right. split; [exact Hk | by left].
           ++ right. split; [exact Hn |]. right. split; [congruence | exact H].
        -- intros [H | [Hn [H | [Hne H]]]]; [left; by left | |].
           ++ injection H as -> ->. left. by right.
           ++ right. split; [| exact H]. split; [exact Hn | congruence].
    + split.
      * intros [H | [Hn H]]; [by left |]. right. split; [exact Hn |]. right.
        split; [discriminate | exact H].
      * intros [H | [Hn [H | [_ H]]]]; [by left | discriminate | by right].
Qed.

(** the values of a dict whose keys can be read off the values *)
Lemma dict_values_keys (f : V -> string) (d : list (string * V)) :
  (forall k v, (k, v) ∈ d -> f v = k) -> f <$> d.*2 = d.*1.
Proof.
  induction d as [| [k v] d IH]; intros Hf; simpl; [reflexivity |]. f_equal.
  - apply Hf, elem_of_cons. by left.
  - apply IH. intros k' v' H. apply Hf, elem_of_cons. by right.
Qed.
End FirstWinsFacts.

(** *** The two extractors *)

Lemma fold_left_pointwise {A B : Type} (f g : A -> B -> A) (l : list B) (a : A) :
  (forall a b, f a b = g a b) -> fold_left f l a = fold_left g l a.
Proof.
  intros Hfg. revert a. induction l as [| b l IH]; intros a; simpl; [reflexivity |].
  rewrite Hfg. apply IH.
Qed.

Lemma producthunt_step_keep md d m :
  ProductHunt.step md d m = keep (producthunt_candidate md) d m.
Proof.
  unfold ProductHunt.step, keep, producthunt_candidate. cbv zeta.
  destruct (ProductHunt.is_noise _); [reflexivity |].
  destruct (ProductHunt.split_name _) as [name tagline].
  reflexivity.
Qed.

Lemma taaft_step_keep md d m :
  Taaft.step md d m = keep (taaft_candidate md) d m.
Proof.
  unfold Taaft.step, keep, taaft_candidate. cbv zeta.
  change (Taaft.has_key (Re.group md m 2) d) with (dict_has (Re.group md m 2) d).
  destruct (Taaft.is_noise _); [by destruct (dict_has _ _) |].
  destruct (Py.is_empty _); [by destruct (dict_has _ _) |].
  reflexivity.
Qed.

Lemma producthunt_extract_dict md :
  ProductHunt.extract_products_from_markdown md
  = (fold_left (keep (producthunt_candidate md)) (Re.finditer ProductHunt.pattern md) []).*2.
Proof.
  unfold ProductHunt.extract_products_from_markdown.
  rewrite (fold_left_pointwise _ _ _ _ (producthunt_step_keep md)). reflexivity.
Qed.

Lemma taaft_extract_dict md :
  Taaft.extract_tools_from_markdown md
  = (fold_left (keep (taaft_candidate md)) (Re.finditer Taaft.pattern md) []).*2.
Proof.
  unfold Taaft.extract_tools_from_markdown.
  rewrite (fold_left_pointwise _ _ _ _ (taaft_step_keep md)). reflexivity.
Qed.

Lemma producthunt_candidate_slug md m k prod :
  producthunt_candidate md m = Some (k, prod) -> ProductHunt.p_slug prod = k.
Proof.
  unfold producthunt_candidate. cbv zeta.
  destruct (ProductHunt.is_noise _); [discriminate |].
  destruct (ProductHunt.split_name _) as [name tagline].
  intros [= <- <-]. reflexivity.
Qed.

Lemma taaft_candidate_slug md m k tool :
  taaft_candidate md m = Some (k, tool) -> Taaft.t_slug tool = k.
Proof.
  unfold taaft_candidate. cbv zeta.
  destruct (Taaft.is_noise _); [discriminate |].
  destruct (Py.is_empty _); [discriminate |].
  intros [= <- <-]. reflexivity.
Qed.

(** the key of an entry of the dict is the slug of its value *)
Lemma fold_keep_slug {V M : Type} (cand : M -> option (string * V)) (f : V -> string) ms :
  (forall m k v, cand m = Some (k, v) -> f v = k) ->
  forall k v, (k, v) ∈ fold_left (keep cand) ms [] -> f v = k.
Proof.
  intros Hf k v H. apply fold_keep_elem in H as [H | [_ (ms1 & m & ms2 & _ & Hm & _)]].
  - inversion H.
  - exact (Hf _ _ _ Hm).
Qed.

Lemma producthunt_extract_NoDup md :
  NoDup (ProductHunt.p_slug <$> ProductHunt.extract_products_from_markdown md).
Proof.
  rewrite producthunt_extract_dict, dict_values_keys.
  - apply fold_keep_NoDup. constructor.
  - apply fold_keep_slug, producthunt_candidate_slug.
Qed.

Lemma taaft_extract_NoDup md :
  NoDup (Taaft.t_slug <$> Taaft.extract_tools_from_markdown md).
Proof.
  rewrite taaft_extract_dict, dict_values_keys.
  - apply fold_keep_NoDup. constructor.
  - apply fold_keep_slug, taaft_candidate_slug.
Qed.

Lemma fold_keep_value {V M : Type} (cand : M -> option (string * V)) (f : V -> string) ms v :
  (forall m k v, cand m = Some (k, v) -> f v = k) ->
  v ∈ (fold_left (keep cand) ms []).*2 <-> first_cand cand ms (f v) v.
Proof.
  intros Hf. rewrite list_elem_of_fmap. split.
  - intros ([k v'] & -> & H). simpl.
    rewrite (fold_keep_slug cand f ms Hf _ _ H).
    apply fold_keep_elem in H as [H | [_ H]]; [inversion H | exact H].
  - intros H. exists (f v, v). split; [reflexivity |].
    apply fold_keep_elem. right. split; [| exact H]. intros Hin. inversion Hin.
Qed.

Lemma producthunt_extract_elem md prod :
  prod ∈ ProductHunt.extract_products_from_markdown md
  <-> first_cand (producthunt_candidate md) (Re.finditer ProductHunt.pattern md)
        (ProductHunt.p_slug prod) prod.
Proof.
  rewrite producthunt_extract_dict.
  apply fold_keep_value, producthunt_candidate_slug.
Qed.

Lemma taaft_extract_elem md tool :
  tool ∈ Taaft.extract_tools_from_markdown md
  <-> first_cand (taaft_candidate md) (Re.finditer Taaft.pattern md)
        (Taaft.t_slug tool) tool.
Proof.
  rewrite taaft_extract_dict.
  apply fold_keep_value, taaft_candidate_slug.
Qed.

(** *** Keys across the pages of a run *)

Lemma Forall2_fmap_eq {A B C : Type} (R : A -> B -> Prop) (f : A -> C) (g : B -> C) l1 l2 :
  Forall2 R l1 l2 -> (forall x y, R x y -> f x = g y) -> f <$> l1 = g <$> l2.
Proof.
  intros HR Hfg. induction HR as [| x y l1 l2 Hxy HR IH]; simpl; [reflexivity |].
  f_equal; [exact (Hfg _ _ Hxy) | exact IH].
Qed.

(** Product Hunt: the slug of a record is its key, and no slug comes
    twice in a run. *)
Lemma producthunt_scrape_NoDup crawl : NoDup (e_slug <$> ProductHunt.scrape crawl).
Proof.
  pose proof (producthunt_scrape_loop crawl) as Hrun. symmetry in Hrun.
  apply run_pages_keys in Hrun as (kept & Hnd & Hmk);
    [| unfold ProductHunt.MAX_RESULTS; lia].
  rewrite <- (Forall2_fmap_eq _ ProductHunt.p_slug e_slug _ _ Hmk); [exact Hnd |].
  intros prod e (mk & products & Hp & _ & He).
  apply list_elem_of_fmap in Hp as (url & Hp & _). symmetry in Hp.
  apply producthunt_page_mk in Hp as ->. apply Ok_inj in He as <-. reflexivity.
Qed.

Lemma github_rows_seen rows seen entries :
  match GithubTrending.scrape_rows rows seen entries with
  | Exc.Ok (seen', _) => seen ⊆ seen'
  | Exc.Raise _ => True
  end.
Proof.
  destruct (GithubTrending.scrape_rows rows seen entries) as [[seen' entries'] | x] eqn:Hrun;
    [| exact I].
  rewrite github_rows_loop in Hrun. exact (run_items_seen _ _ _ _ _ _ _ _ _ Hrun).
Qed.

Lemma producthunt_products_seen topics products seen entries :
  seen ⊆ (ProductHunt.scrape_products topics products seen entries).1.
Proof.
  pose proof (producthunt_products_loop topics products seen entries) as Hrun.
  symmetry in Hrun.
  destruct (ProductHunt.scrape_products topics products seen entries) as [seen' entries'].
  exact (run_items_seen _ _ _ _ _ _ _ _ _ Hrun).
Qed.

(** C4, as it is stated, fails: [reviews_first_blob] has two matches with
    the identifier "acme"; the first is a link to reviews, which the filters
    drop, and the one product of the output is made from the second. *)
Lemma later_match_retained :
  exists m1 m2,
    Re.finditer ProductHunt.pattern reviews_first_blob = [ m1; m2 ]
    /\ Re.group reviews_first_blob m1 3 = "acme"
    /\ Re.group reviews_first_blob m2 3 = "acme"
    /\ Re.group reviews_first_blob m1 1 = "1.4K reviews"
    /\ Re.group reviews_first_blob m2 1 = "Acme Fix your bugs fast"
    /\ ProductHunt.extract_products_from_markdown reviews_first_blob
       = [ ProductHunt.mkProduct "Acme" "Fix your bugs fast"
             "https://www.producthunt.com/products/acme" "acme" ].
Proof. eexists _, _. split_and!; vm_compute; reflexivity. Qed.

(** ** Links that are no items *)

Lemma fold_left_skip {A B : Type} (f : A -> B -> A) (b : B) :
  (forall a, f a b = a) ->
  forall l1 l2 a, fold_left f (l1 ++ b :: l2) a = fold_left f (l1 ++ l2) a.
Proof.
  intros Hb l1 l2 a. rewrite !fold_left_app. simpl. rewrite Hb. reflexivity.
Qed.

Lemma producthunt_noise_step md m products :
  ProductHunt.is_noise (Py.strip (Re.group md m 1)) = true ->
  ProductHunt.step md products m = products.
Proof. intros H. unfold ProductHunt.step. cbv zeta. rewrite H. reflexivity. Qed.

Lemma taaft_noise_step md m tools :
  Taaft.is_noise (Py.strip (Re.group md m 1)) = true
  \/ Py.is_empty (Taaft.clean_name (Py.strip (Re.group md m 1))) = true ->
  Taaft.step md tools m = tools.
Proof.
  intros H. unfold Taaft.step. cbv zeta.
  destruct (Taaft.has_key _ _); [reflexivity |].
  destruct (Taaft.is_noise _); [reflexivity |].
  destruct H as [H | H]; [discriminate |]. rewrite H. reflexivity.
Qed.

(** C9: a link whose text has the shape of a count of reviews, or is one of
    the navigation labels, or is shorter or longer than the bounds, adds
    nothing to the products, and the matches after it are gone through as if
    it were not there; the same holds of a link of There's An AI For That
    that a filter drops or whose name is empty once the version is cut off.
    The link "1.4K reviews" of the specification gives no product, and the
    link that comes after it in [reviews_first_blob] gives its product. *)
Theorem noise_rejected :
  (forall md m,
      let text := Py.strip (Re.group md m 1) in
      Re.matches ProductHunt.review_count text = true
      \/ in_strs (Py.lower text) [ "view all"; "see all"; "reviews"; "promoted"; "" ] = true
      \/ len text < 2 \/ 200 < len text ->
      forall ms1 ms2 products,
        ProductHunt.step md products m = products
        /\ fold_left (ProductHunt.step md) (ms1 ++ m :: ms2) products
           = fold_left (ProductHunt.step md) (ms1 ++ ms2) products)
  /\ (forall md m,
      let text := Py.strip (Re.group md m 1) in
      Re.matches Taaft.pure_numbers text = true
      \/ Re.matches Taaft.free_marker text = true
      \/ Re.matches Taaft.price_marker text = true
      \/ len text < 2 \/ 100 < len text
      \/ Py.is_empty (Taaft.clean_name text) = true ->
      forall ms1 ms2 tools,
        Taaft.step md tools m = tools
        /\ fold_left (Taaft.step md) (ms1 ++ m :: ms2) tools
           = fold_left (Taaft.step md) (ms1 ++ ms2) tools)
  /\ Re.matches ProductHunt.review_count "1.4K reviews" = true
  /\ ProductHunt.extract_products_from_markdown
       "[1.4K reviews](https://www.producthunt.com/products/acme/reviews)" = []
  /\ ProductHunt.extract_products_from_markdown reviews_first_blob
     = [ ProductHunt.mkProduct "Acme" "Fix your bugs fast"
           "https://www.producthunt.com/products/acme" "acme" ].
Proof.
  split_and!; [| | vm_compute; reflexivity ..].
  - intros md m text H.
    assert (Hn : ProductHunt.is_noise text = true).
    { unfold ProductHunt.is_noise. rewrite !orb_true_iff, !Nat.ltb_lt. tauto. }
    intros ms1 ms2 products. split.
    + exact (producthunt_noise_step md m products Hn).
    + apply fold_left_skip. intros a. exact (producthunt_noise_step md m a Hn).
  - intros md m text H.
    assert (Hn : Taaft.is_noise text = true \/ Py.is_empty (Taaft.clean_name text) = true).
    { unfold Taaft.is_noise. rewrite !orb_true_iff, !Nat.ltb_lt. tauto. }
    intros ms1 ms2 tools. split.
    + exact (taaft_noise_step md m tools Hn).
    + apply fold_left_skip. intros a. exact (taaft_noise_step md m a Hn).
Qed.

(** The link to the reviews in [reviews_first_blob] adds nothing, and the
    link after it is gone through as the only one. *)
Lemma noise_rejected_witness :
  ProductHunt.step reviews_first_blob [] reviews_match = []
  /\ fold_left (ProductHunt.step reviews_first_blob) ([] ++ reviews_match :: [ acme_match ]) []
     = fold_left (ProductHunt.step reviews_first_blob) ([] ++ [ acme_match ]) [].
Proof.
  apply (proj1 noise_rejected reviews_first_blob reviews_match).
  left. vm_compute. reflexivity.
Defined.

(** ** The cap on the records of a run *)

Lemma github_entry_returns row :
  stars_parse row = true -> exists e, GithubTrending.entry_of row = Exc.Ok e.
Proof.
  unfold stars_parse, GithubTrending.entry_of. cbv zeta.
  destruct (GithubTrending.parse_stars _) as [n | x]; [| discriminate].
  intros _. cbn [mbind Exc.result_bind]. eauto.
Qed.

Lemma github_page_rows crawl url mk rows :
  github_page crawl url = Some (mk, rows) -> github_rows crawl url = rows.
Proof. unfold github_rows. intros ->. reflexivity. Qed.

Lemma producthunt_scrape_full crawl url md :
  In url ProductHunt.URLS ->
  ProductHunt.success (crawl url) = true ->
  ProductHunt.markdown (crawl url) = Some md ->
  ProductHunt.MAX_RESULTS <= length (ProductHunt.extract_products_from_markdown md) ->
  length (ProductHunt.scrape crawl) = ProductHunt.MAX_RESULTS.
Proof.
  intros Hurl Hok Hmd Hmany.
  pose proof (producthunt_scrape_loop crawl) as Hrun. symmetry in Hrun.
  eapply (run_pages_full _ _ _ _ _ _ (ProductHunt.extract_products_from_markdown md)
            (ProductHunt.p_slug <$> ProductHunt.extract_products_from_markdown md));
    [unfold ProductHunt.MAX_RESULTS; lia | exact Hrun | | | |].
  - apply list_elem_of_fmap. exists url. split; [| by apply list_elem_of_In].
    unfold producthunt_page. cbv zeta. rewrite Hok, Hmd.
    destruct md as [| c md']; [| reflexivity].
    exfalso. vm_compute in Hmany. lia.
  - apply producthunt_extract_NoDup.
  - intros k Hk. apply list_elem_of_fmap in Hk as (prod & -> & Hprod). eauto.
  - rewrite length_fmap. exact Hmany.
Qed.

Lemma taaft_scrape_full crawl url md :
  In url Taaft.URLS ->
  Taaft.success (crawl url) = true ->
  Taaft.markdown (crawl url) = Some md ->
  Taaft.MAX_RESULTS <= length (Taaft.extract_tools_from_markdown md) ->
  length (Taaft.scrape crawl) = Taaft.MAX_RESULTS.
Proof.
  intros Hurl Hok Hmd Hmany.
  pose proof (taaft_scrape_loop crawl) as Hrun. symmetry in Hrun.
  eapply (run_pages_full _ _ _ _ _ _ (Taaft.extract_tools_from_markdown md)
            (Taaft.t_slug <$> Taaft.extract_tools_from_markdown md));
    [unfold Taaft.MAX_RESULTS; lia | exact Hrun | | | |].
  - apply list_elem_of_fmap. exists url. split; [| by apply list_elem_of_In].
    unfold taaft_page. cbv zeta. rewrite Hok, Hmd.
    destruct md as [| c md']; [| reflexivity].
    exfalso. vm_compute in Hmany. lia.
  - apply taaft_extract_NoDup.
  - intros k Hk. apply list_elem_of_fmap in Hk as (tool & -> & Htool). eauto.
  - rewrite length_fmap. exact Hmany.
Qed.

Lemma github_emitted_cap crawl : length (github_emitted crawl) <= GithubTrending.MAX_RESULTS.
Proof.
  unfold github_emitted.
  destruct (GithubTrending.scrape crawl) as [es | x] eqn:Hrun; [| simpl; lia].
  rewrite github_scrape_loop in Hrun.
  eapply run_pages_cap; [| exact Hrun]. unfold GithubTrending.MAX_RESULTS. lia.
Qed.

Lemma producthunt_scrape_cap crawl :
  length (ProductHunt.scrape crawl) <= ProductHunt.MAX_RESULTS.
Proof.
  pose proof (producthunt_scrape_loop crawl) as Hrun. symmetry in Hrun.
  eapply run_pages_cap; [| exact Hrun]. unfold ProductHunt.MAX_RESULTS. lia.
Qed.

Lemma taaft_scrape_cap crawl : length (Taaft.scrape crawl) <= Taaft.MAX_RESULTS.
Proof.
  pose proof (taaft_scrape_loop crawl) as Hrun. symmetry in Hrun.
  eapply run_pages_cap; [| exact Hrun]. unfold Taaft.MAX_RESULTS. lia.
Qed.

(** ** The loops as functions of their input *)

Section LoopFunction.
Import Exc Pipeline.
Context {Item : Type}.
Variables (key : Item -> string) (skip : Item -> bool) (max_results : nat).

Lemma make_all_app (l1 l2 : list ((Item -> result Entry) * Item)) :
  make_all (l1 ++ l2) = es1 ← make_all l1; es2 ← make_all l2; Ok (es1 ++ es2).
Proof.
  induction l1 as [| [mk item] l1 IH]; simpl.
  - destruct (make_all l2); reflexivity.
  - destruct (mk item) as [e | x]; simpl; [| reflexivity].
    rewrite IH. destruct (make_all l1) as [es1 | x]; simpl; [| reflexivity].
    destruct (make_all l2); reflexivity.
Qed.

Lemma make_all_length (l : list ((Item -> result Entry) * Item)) es :
  make_all l = Ok es -> length es = length l.
Proof.
  revert es. induction l as [| [mk item] l IH]; intros es; simpl.
  - intros [= <-]. reflexivity.
  - destruct (mk item) as [e | x]; simpl; [| discriminate].
    destruct (make_all l) as [es' | x]; simpl; [| discriminate].
    intros [= <-]. simpl. f_equal. by apply IH.
Qed.

(** One page: the run makes the entries of the first fresh items, as many
    as the cap leaves room for, and has seen their keys. *)
Lemma run_items_fresh mk items seen entries n :
  0 < n -> length entries + n = max_results ->
  run_items key skip max_results mk items seen entries
  = es ← make_all ((fun item => (mk, item)) <$> take n (fresh key skip items seen));
    Ok (list_to_set (key <$> take n (fresh key skip items seen)) ∪ seen, entries ++ es).
Proof.
  revert seen entries n.
  induction items as [| item items IH]; intros seen entries n Hn Hlen; simpl.
  - rewrite take_nil. simpl. rewrite app_nil_r. f_equal. f_equal. set_solver.
  - destruct (skip item || bool_decide (key item ∈ seen)); [by apply IH |].
    destruct n as [| n]; [lia |]. simpl.
    destruct (mk item) as [e | x]; simpl; [| reflexivity].
    destruct (Nat.leb max_results (length (entries ++ [e]))) eqn:Hfull.
    + apply Nat.leb_le in Hfull. rewrite length_app in Hfull. simpl in Hfull.
      assert (n = 0) as -> by lia. rewrite take_0. simpl.
      f_equal. f_equal. set_solver.
    + apply Nat.leb_gt in Hfull. rewrite length_app in Hfull. simpl in Hfull.
      rewrite (IH _ _ n); [| lia | rewrite length_app; simpl; lia].
      destruct (make_all _) as [es | x]; simpl; [| reflexivity].
      rewrite <- app_assoc. simpl. f_equal. f_equal. set_solver.
Qed.

(** A whole run: the entries of the first [max_results] fresh items of its
    pages. *)
Lemma run_pages_fresh pages seen entries n :
  0 < n -> length entries + n = max_results ->
  run_pages key skip max_results pages seen entries
  = es ← make_all (take n (fresh_pages key skip pages seen)); Ok (entries ++ es).
Proof.
  revert seen entries n.
  induction pages as [| [[mk items] |] pages IH]; intros seen entries n Hn Hlen; simpl.
  - rewrite take_nil. simpl. by rewrite app_nil_r.
  - rewrite (run_items_fresh mk items seen entries n Hn Hlen).
    set (l := fresh key skip items seen).
    rewrite take_app, make_all_app, <- fmap_take.
    destruct (make_all ((fun item => (mk, item)) <$> take n l)) as [es1 | x] eqn:Hes1;
      simpl; [| reflexivity].
    apply make_all_length in Hes1. rewrite length_fmap, length_take in Hes1.
    rewrite length_fmap.
    destruct (Nat.leb max_results (length (entries ++ es1))) eqn:Hfull.
    + apply Nat.leb_le in Hfull. rewrite length_app in Hfull.
      replace (n - length l) with 0 by lia. rewrite take_0. simpl.
      by rewrite app_nil_r.
    + apply Nat.leb_gt in Hfull. rewrite length_app in Hfull.
      rewrite (take_ge l n) by lia.
      rewrite (IH _ _ (n - length l)); [| lia | rewrite length_app; lia].
      destruct (make_all _) as [es2 | x]; simpl; [| reflexivity].
      by rewrite app_assoc.
  - by apply IH.
Qed.

(** entries that are always made *)
Lemma make_all_total (f : Item -> Entry) (l : list Item) :
  make_all ((fun item => (fun i => Ok (f i), item)) <$> l) = Ok (f <$> l).
Proof.
  induction l as [| item l IH]; [reflexivity |].
  simpl. unfold fmap in IH. rewrite IH. reflexivity.
Qed.

Lemma filter_ext_elem {A : Type} (P Q : A -> Prop)
    `{!forall x, Decision (P x)} `{!forall x, Decision (Q x)} (l : list A) :
  (forall x, x ∈ l -> P x <-> Q x) -> filter P l = filter Q l.
Proof.
  induction l as [| a l IH]; intros HPQ; [reflexivity |].
  assert (Hl : filter P l = filter Q l)
    by (apply IH; intros x Hx; apply HPQ, elem_of_cons; by right).
  assert (Ha : P a <-> Q a) by (apply HPQ, elem_of_cons; by left).
  rewrite !filter_cons, Hl.
  destruct (decide (P a)), (decide (Q a)); tauto.
Qed.

End LoopFunction.

(** When no key comes twice and nothing is passed over, the fresh items
    are those whose key was not seen. *)
Lemma fresh_NoDup {Item : Type} (key : Item -> string) (items : list Item) seen :
  NoDup (key <$> items) ->
  fresh key never_skip items seen = filter (fun item => key item ∉ seen) items.
Proof.
  revert seen. induction items as [| item items IH]; intros seen Hnd; simpl; [reflexivity |].
  apply NoDup_cons in Hnd as [Hitem Hnd]. unfold never_skip at 1. simpl.
  destruct (bool_decide (key item ∈ seen)) eqn:Hseen.
  - apply bool_decide_eq_true in Hseen.
    rewrite filter_cons_False by (intros H; by apply H). by apply IH.
  - apply bool_decide_eq_false in Hseen.
    rewrite filter_cons_True by exact Hseen. f_equal.
    rewrite IH by exact Hnd. apply filter_ext_elem.
    intros x Hin.
    assert (key x ≠ key item)
      by (intros E; apply Hitem; rewrite <- E; by apply list_elem_of_fmap_2).
    set_solver.
Qed.


Section TwoPages.
Import Exc Pipeline.
Context {Item : Type}.
Variables (key : Item -> string) (max_results : nat).

Lemma filter_not_seen_empty (items : list Item) (seen : gset string) :
  seen = ∅ -> filter (fun item => key item ∉ seen) items = items.
Proof.
  intros ->. induction items as [| item items IH]; [reflexivity |].
  rewrite filter_cons_True by set_solver. by rewrite IH.
Qed.

Lemma fresh_pages_two f1 f2 items1 items2 p1 p2 :
  page_of f1 items1 p1 -> page_of f2 items2 p2 ->
  NoDup (key <$> items1) -> NoDup (key <$> items2) ->
  fresh_pages key never_skip [ p1; p2 ] ∅
  = ((fun item => (fun i => Ok (f1 i), item)) <$> items1)
    ++ ((fun item => (fun i => Ok (f2 i), item)) <$>
          filter (fun item => key item ∉ key <$> items1) items2).
Proof.
  intros H1 H2 Hnd1 Hnd2.
  assert (Hfirst : forall items, NoDup (key <$> items) -> fresh key never_skip items ∅ = items)
    by (intros items Hnd; by rewrite fresh_NoDup, filter_not_seen_empty).
  assert (Hsecond : forall seen : gset string,
             (forall k, k ∈ seen <-> k ∈ key <$> items1) ->
             fresh key never_skip items2 seen
             = filter (fun item => key item ∉ key <$> items1) items2).
  { intros seen Hseen. rewrite fresh_NoDup by exact Hnd2.
    apply list_filter_iff. intros x. by rewrite Hseen. }
  destruct H1 as [-> | [-> ->]], H2 as [-> | [-> ->]]; cbn [fresh_pages fresh].
  - rewrite (Hfirst items1 Hnd1), app_nil_r. f_equal. f_equal.
    apply Hsecond. intros k. rewrite elem_of_union, elem_of_list_to_set. set_solver.
  - rewrite (Hfirst items1 Hnd1), filter_nil. reflexivity.
  - rewrite app_nil_r. cbn [fmap list_fmap app]. f_equal.
    apply Hsecond. intros k. set_solver.
  - rewrite filter_nil. reflexivity.
Qed.

(** A run over two pages whose entries are always made and that have no
    key twice: the entries of the first page, then those of the second page
    whose key is not on the first, cut at the cap. *)
Lemma run_two_pages f1 f2 items1 items2 p1 p2 :
  0 < max_results ->
  page_of f1 items1 p1 -> page_of f2 items2 p2 ->
  NoDup (key <$> items1) -> NoDup (key <$> items2) ->
  run_pages key never_skip max_results [ p1; p2 ] ∅ []
  = Ok (take max_results
          ((f1 <$> items1)
           ++ (f2 <$> filter (fun item => key item ∉ key <$> items1) items2))).
Proof.
  intros Hpos H1 H2 Hnd1 Hnd2.
  rewrite (run_pages_fresh key never_skip max_results [ p1; p2 ] ∅ [] max_results Hpos eq_refl).
  rewrite (fresh_pages_two f1 f2 items1 items2 p1 p2 H1 H2 Hnd1 Hnd2).
  rewrite !take_app, make_all_app, <- !fmap_take, !make_all_total. simpl.
  by rewrite !length_fmap.
Qed.
End TwoPages.

(** ** The three runs as functions of what the crawler brings *)

Lemma producthunt_page_of crawl url :
  page_of (ProductHunt.entry_of (ProductHunt.topics_of_url url))
    (producthunt_products crawl url) (producthunt_page crawl url).
Proof.
  unfold page_of, producthunt_products.
  destruct (producthunt_page crawl url) as [[mk products] |] eqn:E; [left | by right].
  by rewrite (producthunt_page_mk _ _ _ _ E).
Qed.

Lemma producthunt_products_NoDup crawl url :
  NoDup (ProductHunt.p_slug <$> producthunt_products crawl url).
Proof.
  unfold producthunt_products, producthunt_page. cbv zeta.
  destruct (negb _); [constructor |].
  destruct (ProductHunt.markdown _) as [[| c md] |]; try constructor.
  apply producthunt_extract_NoDup.
Qed.

Lemma taaft_page_of crawl url :
  page_of Taaft.entry_of (taaft_tools crawl url) (taaft_page crawl url).
Proof.
  unfold page_of, taaft_tools.
  destruct (taaft_page crawl url) as [[mk tools] |] eqn:E; [left | by right].
  by rewrite (taaft_page_mk _ _ _ _ E).
Qed.

Lemma taaft_tools_NoDup crawl url : NoDup (Taaft.t_slug <$> taaft_tools crawl url).
Proof.
  unfold taaft_tools, taaft_page. cbv zeta.
  destruct (negb _); [constructor |].
  destruct (Taaft.markdown _) as [[| c md] |]; try constructor.
  apply taaft_extract_NoDup.
Qed.

Lemma producthunt_scrape_eq crawl :
  let first := producthunt_products crawl
                 "https://www.producthunt.com/topics/artificial-intelligence" in
  let second := producthunt_products crawl
                  "https://www.producthunt.com/topics/developer-tools" in
  ProductHunt.scrape crawl
  = take ProductHunt.MAX_RESULTS
      ((ProductHunt.entry_of [ "artificial-intelligence"; "ai" ] <$> first)
       ++ (ProductHunt.entry_of [ "developer-tools"; "developer" ] <$>
             filter (fun prod => ProductHunt.p_slug prod ∉ ProductHunt.p_slug <$> first)
                    second)).
Proof.
  intros first second. apply Ok_inj. rewrite producthunt_scrape_loop.
  apply (run_two_pages ProductHunt.p_slug ProductHunt.MAX_RESULTS).
  - unfold ProductHunt.MAX_RESULTS. lia.
  - apply (producthunt_page_of crawl
             "https://www.producthunt.com/topics/artificial-intelligence").
  - apply (producthunt_page_of crawl "https://www.producthunt.com/topics/developer-tools").
  - apply producthunt_products_NoDup.
  - apply producthunt_products_NoDup.
Qed.

(** X2: A run of the Product Hunt scraper returns the records of the products
    of the first page, then those of the products of the second page whose
    slug is not on the first, each page with its topics, cut after
    [MAX_RESULTS] records.  A page that was not crawled, or came back
    empty, has no products. *)
Theorem producthunt_scrape_function crawl :
  let first := producthunt_products crawl
                 "https://www.producthunt.com/topics/artificial-intelligence" in
  let second := producthunt_products crawl
                  "https://www.producthunt.com/topics/developer-tools" in
  ProductHunt.scrape crawl
  = take ProductHunt.MAX_RESULTS
      ((ProductHunt.entry_of [ "artificial-intelligence"; "ai" ] <$> first)
       ++ (ProductHunt.entry_of [ "developer-tools"; "developer" ] <$>
             filter (fun prod => ProductHunt.p_slug prod ∉ ProductHunt.p_slug <$> first)
                    second)).
Proof. exact (producthunt_scrape_eq crawl). Qed.

Lemma taaft_scrape_eq crawl :
  let first := taaft_tools crawl "https://theresanaiforthat.com/" in
  let second := taaft_tools crawl "https://theresanaiforthat.com/s/ai-agents/" in
  Taaft.scrape crawl
  = Taaft.entry_of <$>
      take Taaft.MAX_RESULTS
        (first ++ filter (fun tool => Taaft.t_slug tool ∉ Taaft.t_slug <$> first) second).
Proof.
  intros first second. apply Ok_inj. rewrite taaft_scrape_loop.
  rewrite fmap_take, fmap_app.
  apply (run_two_pages Taaft.t_slug Taaft.MAX_RESULTS).
  - unfold Taaft.MAX_RESULTS. lia.
  - apply taaft_page_of.
  - apply taaft_page_of.
  - apply taaft_tools_NoDup.
  - apply taaft_tools_NoDup.
Qed.

(** X3: A run of the scraper of There's An AI For That returns the records of
    the tools of the first page, then those of the tools of the second page
    whose slug is not on the first, cut after [MAX_RESULTS] records. *)
Theorem taaft_scrape_function crawl :
  let first := taaft_tools crawl "https://theresanaiforthat.com/" in
  let second := taaft_tools crawl "https://theresanaiforthat.com/s/ai-agents/" in
  Taaft.scrape crawl
  = Taaft.entry_of <$>
      take Taaft.MAX_RESULTS
        (first ++ filter (fun tool => Taaft.t_slug tool ∉ Taaft.t_slug <$> first) second).
Proof. exact (taaft_scrape_eq crawl). Qed.

Lemma make_all_rows (rows : list GithubTrending.Row) :
  make_all ((fun row => (GithubTrending.entry_of, row)) <$> rows) = entries_of_rows rows.
Proof.
  induction rows as [| row rows IH]; [reflexivity |].
  simpl. unfold fmap in IH. rewrite IH. reflexivity.
Qed.

Lemma result_bind_ret {A : Type} (c : Exc.result (list A)) :
  (es ← c; Exc.Ok ([] ++ es)) = c.
Proof. destruct c; reflexivity. Qed.

Lemma github_page_cases crawl url :
  github_page crawl url = Some (GithubTrending.entry_of, github_rows crawl url)
  \/ (github_page crawl url = None /\ github_rows crawl url = []).
Proof.
  unfold github_rows.
  destruct (github_page crawl url) as [[mk rows] |] eqn:E; [left | by right].
  by rewrite (github_page_mk _ _ _ _ E).
Qed.

Lemma github_scrape_eq crawl :
  GithubTrending.scrape crawl
  = entries_of_rows (take GithubTrending.MAX_RESULTS (github_fresh crawl)).
Proof.
  rewrite github_scrape_loop.
  rewrite (run_pages_fresh _ _ _ _ _ _ GithubTrending.MAX_RESULTS)
    by (unfold GithubTrending.MAX_RESULTS; simpl; lia).
  rewrite result_bind_ret, <- make_all_rows, fmap_take. f_equal. f_equal.
  unfold github_fresh. cbv zeta. rewrite fmap_app.
  change (github_page crawl <$> GithubTrending.URLS)
    with [ github_page crawl "https://github.com/trending?since=daily";
           github_page crawl "https://github.com/trending?since=weekly" ].
  destruct (github_page_cases crawl "https://github.com/trending?since=daily")
    as [-> | [-> ->]];
    destruct (github_page_cases crawl "https://github.com/trending?since=weekly")
      as [-> | [-> ->]]; cbn [fresh_pages fresh fmap list_fmap app];
    rewrite ?app_nil_r; try reflexivity.
  f_equal. f_equal. f_equal. set_solver.
Qed.

(** X1: A run of the GitHub scraper makes the records of the first
    [MAX_RESULTS] fresh rows, those of the daily page before those of the
    weekly page, in their order; it raises when the stars text of one of
    these rows does, and no row after them is looked at. *)
Theorem github_scrape_function crawl :
  GithubTrending.scrape crawl
  = entries_of_rows (take GithubTrending.MAX_RESULTS (github_fresh crawl)).
Proof. exact (github_scrape_eq crawl). Qed.


(** ** The rows a run of GitHub makes its records from *)

Section FreshFacts.
Context {Item : Type}.
Variables (key : Item -> string) (skip : Item -> bool).

Lemma fresh_sublist items seen : fresh key skip items seen `sublist_of` items.
Proof.
  revert seen. induction items as [| item items IH]; intros seen; cbn [fresh]; [constructor |].
  destruct (skip item || bool_decide (key item ∈ seen)).
  - apply sublist_cons, IH.
  - apply sublist_skip, IH.
Qed.

(** the keys of the fresh items differ from one another and from the keys
    seen before *)
Lemma fresh_keys items seen :
  NoDup (key <$> fresh key skip items seen)
  /\ (forall k, k ∈ key <$> fresh key skip items seen -> k ∉ seen).
Proof.
  revert seen. induction items as [| item items IH]; intros seen; cbn [fresh].
  - split; [constructor | intros k Hk; inversion Hk].
  - destruct (skip item || bool_decide (key item ∈ seen)) eqn:E; [apply IH |].
    apply orb_false_iff in E as [_ E]. apply bool_decide_eq_false in E.
    destruct (IH ({[ key item ]} ∪ seen)) as [Hnd Hnot].
    rewrite fmap_cons. split.
    + apply NoDup_cons. split; [| exact Hnd]. intros Hin. apply Hnot in Hin. set_solver.
    + intros k Hk. apply elem_of_cons in Hk as [-> | Hk]; [exact E |].
      apply Hnot in Hk. set_solver.
Qed.

End FreshFacts.

Lemma github_fresh_NoDup crawl : NoDup (GithubTrending.row_key <$> github_fresh crawl).
Proof.
  unfold github_fresh. cbv zeta. rewrite fmap_app. apply NoDup_app. split_and!.
  - apply fresh_keys.
  - intros k Hk1 Hk2.
    apply (proj2 (fresh_keys GithubTrending.row_key github_skip _ _)) in Hk2.
    apply Hk2. by apply elem_of_list_to_set.
  - apply fresh_keys.
Qed.

Lemma github_fresh_sublist crawl : github_fresh crawl `sublist_of` github_all_rows crawl.
Proof.
  unfold github_fresh, github_all_rows. cbv zeta. apply sublist_app; apply fresh_sublist.
Qed.

Lemma entries_of_rows_Forall2 rows es :
  entries_of_rows rows = Exc.Ok es ->
  Forall2 (fun row e => GithubTrending.entry_of row = Exc.Ok e) rows es.
Proof.
  revert es. induction rows as [| row rows IH]; intros es; cbn [entries_of_rows].
  - intros H%Ok_inj. subst es. constructor.
  - destruct (GithubTrending.entry_of row) as [e | x] eqn:He; [| discriminate].
    destruct (entries_of_rows rows) as [es' | x]; [| discriminate].
    cbn [mbind Exc.result_bind]. intros H%Ok_inj. subst es.
    constructor; [exact He | by apply IH].
Qed.

Lemma take_min {A : Type} (l : list A) n : take (n `min` length l) l = take n l.
Proof.
  destruct (Nat.le_gt_cases n (length l)) as [H | H].
  - by rewrite Nat.min_l.
  - rewrite Nat.min_r by lia. by rewrite !take_ge by lia.
Qed.

(** The records of a run are those of the first fresh rows, one record a
    row. *)
Lemma github_emitted_rows crawl :
  Forall2 (fun row e => GithubTrending.entry_of row = Exc.Ok e)
    (take (length (github_emitted crawl)) (github_fresh crawl)) (github_emitted crawl).
Proof.
  unfold github_emitted. rewrite github_scrape_eq.
  generalize GithubTrending.MAX_RESULTS. intros n.
  destruct (entries_of_rows (take n (github_fresh crawl))) as [es | x] eqn:Hrun;
    [| constructor].
  apply entries_of_rows_Forall2 in Hrun.
  rewrite <- (Forall2_length _ _ _ Hrun), length_take, take_min. exact Hrun.
Qed.

(** Where the stars text does not parse, the entry is not made: [int]
    fails on an infinity. *)
Lemma github_entry_raises row :
  stars_parse row = false -> GithubTrending.entry_of row = Exc.Raise Exc.OverflowError.
Proof.
  unfold stars_parse, GithubTrending.entry_of. cbv zeta.
  pose proof (parse_stars_no_ValueError (Py.or_str (GithubTrending.stars_text row) "")) as Hno.
  destruct (GithubTrending.parse_stars _) as [n | []]; try discriminate; [congruence |].
  reflexivity.
Qed.

Lemma entries_of_rows_cases rows :
  if forallb stars_parse rows
  then exists es, entries_of_rows rows = Exc.Ok es
  else entries_of_rows rows = Exc.Raise Exc.OverflowError.
Proof.
  induction rows as [| row rows IH]; cbn [forallb entries_of_rows]; [eauto |].
  destruct (stars_parse row) eqn:Hrow; cbn [andb].
  - destruct (github_entry_returns row Hrow) as [e ->].
    destruct (forallb stars_parse rows).
    + destruct IH as [es ->]. cbn [mbind Exc.result_bind]. eauto.
    + rewrite IH. reflexivity.
  - by rewrite (github_entry_raises row Hrow).
Qed.

(** A run that returns, over a page with [MAX_RESULTS] candidates or
    more, returns [MAX_RESULTS] records. *)
Lemma github_scrape_length crawl url rows es :
  In url GithubTrending.URLS ->
  GithubTrending.success (crawl url) = true ->
  GithubTrending.extracted_content (crawl url) = Some rows ->
  GithubTrending.MAX_RESULTS <= length (github_candidates rows) ->
  GithubTrending.scrape crawl = Exc.Ok es ->
  length es = GithubTrending.MAX_RESULTS.
Proof.
  intros Hurl Hok Hrows Hmany Hrun.
  rewrite github_scrape_loop in Hrun.
  eapply (run_pages_full _ _ _ _ _ GithubTrending.entry_of rows (github_candidates rows));
    [unfold GithubTrending.MAX_RESULTS; lia | exact Hrun | | | | exact Hmany].
  - apply list_elem_of_fmap. exists url. split; [| by apply list_elem_of_In].
    unfold github_page. cbv zeta. rewrite Hok, Hrows. reflexivity.
  - apply NoDup_remove_dups.
  - intros k Hk. unfold github_candidates in Hk.
    apply elem_of_remove_dups, list_elem_of_fmap in Hk as (row & -> & Hrow).
    apply list_elem_of_filter in Hrow as [Hns Hrow]. eauto.
Qed.

(** Whether the run returns is decided by the stars texts of the first
    [MAX_RESULTS] fresh rows: when they all parse, the run returns
    [MAX_RESULTS] records; when one does not, the run raises and no record
    is emitted. *)
Lemma github_scrape_cases crawl url rows :
  In url GithubTrending.URLS ->
  GithubTrending.success (crawl url) = true ->
  GithubTrending.extracted_content (crawl url) = Some rows ->
  GithubTrending.MAX_RESULTS <= length (github_candidates rows) ->
  (forallb stars_parse (take GithubTrending.MAX_RESULTS (github_fresh crawl)) = true ->
   exists es, GithubTrending.scrape crawl = Exc.Ok es
              /\ length es = GithubTrending.MAX_RESULTS)
  /\ (forallb stars_parse (take GithubTrending.MAX_RESULTS (github_fresh crawl)) = false ->
      GithubTrending.scrape crawl = Exc.Raise Exc.OverflowError
      /\ github_emitted crawl = []).
Proof.
  intros Hurl Hok Hrows Hmany.
  pose proof (entries_of_rows_cases (take GithubTrending.MAX_RESULTS (github_fresh crawl)))
    as Hcases.
  rewrite <- github_scrape_eq in Hcases.
  split; intros Hparse; rewrite Hparse in Hcases.
  - destruct Hcases as [es Hrun]. exists es. split; [exact Hrun |].
    exact (github_scrape_length crawl url rows es Hurl Hok Hrows Hmany Hrun).
  - split; [exact Hcases |]. unfold github_emitted. by rewrite Hcases.
Qed.


(** ** A key is emitted once *)

(** C4, amended: of the matches of a blob that pass the filters and carry
    the same identifier only the first, in the order of the document, is
    retained, and the output has every identifier once; in a run the set of
    seen keys only grows, and no key is emitted twice, whatever page it comes
    back on.  The key of a record of Product Hunt is its slug.  The key of
    GitHub is the repository path of a row, and a record does not keep it
    whole: the records of a run are made, one a row and in their order, from
    the first of the fresh rows of the crawl; these are rows of the pages
    the crawl brought, in the order of the pages, and their keys differ from
    one another. *)
Theorem first_candidate_retained :
  (forall md, NoDup (ProductHunt.p_slug <$> ProductHunt.extract_products_from_markdown md))
  /\ (forall md prod,
        prod ∈ ProductHunt.extract_products_from_markdown md
        <-> first_cand (producthunt_candidate md) (Re.finditer ProductHunt.pattern md)
              (ProductHunt.p_slug prod) prod)
  /\ (forall topics products seen entries,
        seen ⊆ (ProductHunt.scrape_products topics products seen entries).1)
  /\ (forall rows seen entries,
        match GithubTrending.scrape_rows rows seen entries with
        | Exc.Ok (seen', _) => seen ⊆ seen'
        | Exc.Raise _ => True
        end)
  /\ (forall crawl, NoDup (e_slug <$> ProductHunt.scrape crawl))
  /\ (forall crawl,
        let kept := take (length (github_emitted crawl)) (github_fresh crawl) in
        Forall2 (fun row e => GithubTrending.entry_of row = Exc.Ok e)
          kept (github_emitted crawl)
        /\ NoDup (GithubTrending.row_key <$> kept)
        /\ kept `sublist_of` github_all_rows crawl).
Proof.
  split_and!.
  - exact producthunt_extract_NoDup.
  - exact producthunt_extract_elem.
  - exact producthunt_products_seen.
  - exact github_rows_seen.
  - exact producthunt_scrape_NoDup.
  - intros crawl kept.
    assert (Hcut : kept `sublist_of` github_fresh crawl) by apply sublist_take.
    split_and!.
    + apply github_emitted_rows.
    + assert (Hkeys : (GithubTrending.row_key <$> kept)
                        `sublist_of` (GithubTrending.row_key <$> github_fresh crawl))
        by (by apply fmap_sublist).
      exact (sublist_NoDup _ _ (github_fresh_NoDup crawl) Hkeys).
    + etransitivity; [exact Hcut | apply github_fresh_sublist].
Qed.

(** On [reviews_first_blob] the product "Acme" is retained: its link is the
    first, and the only one, with the identifier "acme" that passes the
    filters. *)
Lemma first_candidate_retained_witness :
  ProductHunt.mkProduct "Acme" "Fix your bugs fast"
    "https://www.producthunt.com/products/acme" "acme"
  ∈ ProductHunt.extract_products_from_markdown reviews_first_blob.
Proof.
  apply (proj1 (proj2 first_candidate_retained)).
  eexists [_], _, []. split_and!.
  - vm_compute. reflexivity.
  - vm_compute. reflexivity.
  - intros m' Hm'. apply list_elem_of_singleton in Hm' as ->. vm_compute. discriminate.
Defined.

(** ** The cap of a run *)

(** C5: a run emits at most [MAX_RESULTS] records, in each of the three
    pipelines; a run of Product Hunt or of There's An AI For That over a
    page with [MAX_RESULTS] or more distinct candidates emits exactly
    [MAX_RESULTS] records.  A run of GitHub over such a page (a candidate
    is a row with a key) does so when the stars texts of the first
    [MAX_RESULTS] fresh rows parse; when one of them does not, the run
    raises [OverflowError] and emits no record.  [overflow_rows] is such a
    page: 53 candidates, the stars text of the first of them "infk". *)
Theorem scrape_cap :
  (forall crawl, length (github_emitted crawl) <= GithubTrending.MAX_RESULTS)
  /\ (forall crawl, length (ProductHunt.scrape crawl) <= ProductHunt.MAX_RESULTS)
  /\ (forall crawl, length (Taaft.scrape crawl) <= Taaft.MAX_RESULTS)
  /\ (forall crawl url rows,
        In url GithubTrending.URLS ->
        GithubTrending.success (crawl url) = true ->
        GithubTrending.extracted_content (crawl url) = Some rows ->
        GithubTrending.MAX_RESULTS <= length (github_candidates rows) ->
        (forallb stars_parse (take GithubTrending.MAX_RESULTS (github_fresh crawl)) = true ->
         exists es, GithubTrending.scrape crawl = Exc.Ok es
                    /\ length es = GithubTrending.MAX_RESULTS)
        /\ (forallb stars_parse (take GithubTrending.MAX_RESULTS (github_fresh crawl)) = false ->
            GithubTrending.scrape crawl = Exc.Raise Exc.OverflowError
            /\ github_emitted crawl = []))
  /\ (forall crawl url md,
        In url ProductHunt.URLS ->
        ProductHunt.success (crawl url) = true ->
        ProductHunt.markdown (crawl url) = Some md ->
        ProductHunt.MAX_RESULTS <= length (ProductHunt.extract_products_from_markdown md) ->
        length (ProductHunt.scrape crawl) = ProductHunt.MAX_RESULTS)
  /\ (forall crawl url md,
        In url Taaft.URLS ->
        Taaft.success (crawl url) = true ->
        Taaft.markdown (crawl url) = Some md ->
        Taaft.MAX_RESULTS <= length (Taaft.extract_tools_from_markdown md) ->
        length (Taaft.scrape crawl) = Taaft.MAX_RESULTS)
  /\ (length (github_candidates overflow_rows) = 53
      /\ GithubTrending.scrape overflow_rows_crawl = Exc.Raise Exc.OverflowError
      /\ github_emitted overflow_rows_crawl = []).
Proof.
  split_and!.
  - exact github_emitted_cap.
  - exact producthunt_scrape_cap.
  - exact taaft_scrape_cap.
  - exact github_scrape_cases.
  - exact producthunt_scrape_full.
  - exact taaft_scrape_full.
  - vm_compute. reflexivity.
  - vm_compute. reflexivity.
  - vm_compute. reflexivity.
Qed.

(** Pages with 53 repositories, 104 products and 101 tools give 50, 100
    and 100 records; the stars text of every one of the 53 repositories
    parses. *)
Lemma scrape_cap_witness :
  (exists es, GithubTrending.scrape many_rows_crawl = Exc.Ok es
              /\ length es = GithubTrending.MAX_RESULTS)
  /\ length (ProductHunt.scrape many_links_crawl) = ProductHunt.MAX_RESULTS
  /\ length (Taaft.scrape many_tools_crawl) = Taaft.MAX_RESULTS.
Proof.
  destruct scrape_cap as (_ & _ & _ & Hg & Hp & Ht & _). split_and!.
  - refine (proj1 (Hg many_rows_crawl "https://github.com/trending?since=daily"
                     (many_rows 53) _ _ _ _) _).
    + left. reflexivity.
    + reflexivity.
    + reflexivity.
    + apply Nat.leb_le. vm_compute. reflexivity.
    + vm_compute. reflexivity.
  - apply (Hp many_links_crawl "https://www.producthunt.com/topics/artificial-intelligence"
             (many_links 104)).
    + left. reflexivity.
    + reflexivity.
    + reflexivity.
    + apply Nat.leb_le. vm_compute. reflexivity.
  - apply (Ht many_tools_crawl "https://theresanaiforthat.com/" (many_tools 101)).
    + left. reflexivity.
    + reflexivity.
    + reflexivity.
    + apply Nat.leb_le. vm_compute. reflexivity.
Defined.

(** ** The classifier beyond the claims *)

Lemma lower_char_idem c : Py.lower_char (Py.lower_char c) = Py.lower_char c.
Proof.
  destruct c as [b0 b1 b2 b3 b4 b5 b6 b7].
  destruct b0, b1, b2, b3, b4, b5, b6, b7; vm_compute; reflexivity.
Qed.

Lemma lower_idem s : Py.lower (Py.lower s) = Py.lower s.
Proof.
  induction s as [| c s IH]; simpl; [reflexivity |].
  by rewrite lower_char_idem, IH.
Qed.

Lemma lower_is_empty s : Py.is_empty (Py.lower s) = Py.is_empty s.
Proof. destruct s; reflexivity. Qed.

Lemma map_lower_idem (ts : list string) : map Py.lower (map Py.lower ts) = map Py.lower ts.
Proof.
  induction ts as [| t ts IH]; simpl; [reflexivity |].
  by rewrite lower_idem, IH.
Qed.

(** X4: The category does not depend on the case of the letters of the text,
    of the topics or of the language. *)
Theorem categorize_case_insensitive text topics language :
  categorize_by_keywords (Py.lower text) (option_map (map Py.lower) topics)
    (option_map Py.lower language)
  = categorize_by_keywords text topics language.
Proof.
  unfold categorize_by_keywords. cbv zeta.
  assert (E2 : map Py.lower (match option_map (map Py.lower) topics with
                             | Some ts => ts | None => [] end)
               = map Py.lower (match topics with Some ts => ts | None => [] end))
    by (destruct topics as [ts |]; simpl; [apply map_lower_idem | reflexivity]).
  assert (E3 : Py.lower (Py.or_str (option_map Py.lower language) "")
               = Py.lower (Py.or_str language ""))
    by (destruct language as [l |]; simpl; [| reflexivity];
        rewrite lower_is_empty; destruct (Py.is_empty l); [reflexivity | apply lower_idem]).
  rewrite lower_idem, E2, E3. reflexivity.
Qed.

(** X5: The language takes part in one rule only: a language that is not
    "dockerfile", in any case of its letters, changes nothing, and
    "dockerfile" can only turn the category into "infra". *)
Theorem categorize_language_hint text topics language :
  categorize_by_keywords text topics language = categorize_by_keywords text topics None
  \/ (categorize_by_keywords text topics language = "infra"
      /\ Py.lower (Py.or_str language "") = "dockerfile").
Proof.
  unfold categorize_by_keywords. cbv zeta.
  destruct (String.eqb (Py.lower (Py.or_str language "")) "dockerfile") eqn:Hl.
  - apply String.eqb_eq in Hl.
    repeat match goal with
           | |- context [if ?b then _ else _] =>
               lazymatch b with
               | orb true _ => fail
               | _ => destruct b; [by left |]
               end
           end.
    right. simpl. split; [reflexivity | exact Hl].
  - left. reflexivity.
Qed.

(** X6: [categorize_producthunt] gives the category of [categorize_by_keywords]
    with "saas-tool" in the place of "framework": a valid category, never
    "framework" and never "api-service". *)
Theorem categorize_producthunt_range tagline topics :
  In (categorize_producthunt tagline topics)
     [ "mcp-server"; "ai-agent"; "defi-tool"; "web3-tool"; "infra"; "developer-tool";
       "saas-tool" ]
  /\ In (categorize_producthunt tagline topics) VALID_CATEGORIES
  /\ ((categorize_by_keywords tagline (Some topics) None = "framework"
       /\ categorize_producthunt tagline topics = "saas-tool")
      \/ (categorize_by_keywords tagline (Some topics) None <> "framework"
          /\ categorize_producthunt tagline topics
             = categorize_by_keywords tagline (Some topics) None)).
Proof.
  unfold categorize_producthunt. cbv zeta.
  pose proof (categorize_in_cascade tagline (Some topics) None) as Hin.
  set (cat := categorize_by_keywords tagline (Some topics) None) in *.
  unfold CASCADE_CATEGORIES in Hin. unfold VALID_CATEGORIES.
  destruct (String.eqb cat "framework") eqn:Hf.
  - apply String.eqb_eq in Hf.
    split_and!; [cbn [In]; tauto | cbn [In]; tauto | by left].
  - apply String.eqb_neq in Hf. cbn [In] in *.
    split_and!; [intuition congruence | intuition congruence | by right].
Qed.

Lemma categorize_ai_page tagline :
  In (categorize_producthunt tagline [ "artificial-intelligence"; "ai" ])
     [ "mcp-server"; "ai-agent" ].
Proof.
  assert (Hcat : In (categorize_by_keywords tagline
                       (Some [ "artificial-intelligence"; "ai" ]) None)
                    [ "mcp-server"; "ai-agent" ]).
  { unfold categorize_by_keywords. cbv beta iota zeta.
    assert (H : intersects (list_to_set (map Py.lower [ "artificial-intelligence"; "ai" ]))
                  ai_topics = true) by (vm_compute; reflexivity).
    rewrite H.
    destruct (_ || _ || bool_decide _); [by left |].
    destruct (_ || _ || _); right; by left. }
  unfold categorize_producthunt. cbv zeta.
  destruct Hcat as [<- | [<- | []]]; vm_compute; tauto.
Qed.

Lemma categorize_devtools_page tagline :
  In (categorize_producthunt tagline [ "developer-tools"; "developer" ])
     [ "mcp-server"; "ai-agent"; "defi-tool"; "web3-tool"; "infra"; "developer-tool" ].
Proof.
  assert (Hcat : In (categorize_by_keywords tagline
                       (Some [ "developer-tools"; "developer" ]) None)
                    [ "mcp-server"; "ai-agent"; "defi-tool"; "web3-tool"; "infra";
                      "developer-tool" ]).
  { unfold categorize_by_keywords. cbv beta iota zeta.
    assert (H : intersects (list_to_set (map Py.lower [ "developer-tools"; "developer" ]))
                  devtool_topics = true) by (vm_compute; reflexivity).
    rewrite H.
    repeat match goal with
           | |- context [if ?b then _ else _] =>
               lazymatch b with
               | true => fail
               | _ => destruct b; [cbn [In]; tauto |]
               end
           end.
    cbn [In]. tauto. }
  unfold categorize_producthunt. cbv zeta.
  destruct Hcat as [<- | [<- | [<- | [<- | [<- | [<- | []]]]]]]; vm_compute; tauto.
Qed.

(** X7: With the two pages the scraper of Product Hunt crawls, the topics of
    the page decide much of the category: a record of the first page has the
    topics of artificial intelligence as its tags and is an "mcp-server" or
    an "ai-agent"; a record of the second has the topics of the developer
    tools and one of six categories.  No record is a "saas-tool" or a
    "framework", and none has the tag "product-hunt". *)
Theorem producthunt_scrape_categories crawl :
  Forall (fun e =>
            (e_tags e = [ "artificial-intelligence"; "ai" ]
             /\ In (e_category e) [ "mcp-server"; "ai-agent" ])
            \/ (e_tags e = [ "developer-tools"; "developer" ]
                /\ In (e_category e)
                     [ "mcp-server"; "ai-agent"; "defi-tool"; "web3-tool"; "infra";
                       "developer-tool" ]))
         (ProductHunt.scrape crawl).
Proof.
  rewrite producthunt_scrape_eq. apply Forall_take, Forall_app. split.
  - apply Forall_fmap, Forall_true. intros prod. left.
    split; [reflexivity | apply categorize_ai_page].
  - apply Forall_fmap, Forall_true. intros prod. right.
    split; [reflexivity | apply categorize_devtools_page].
Qed.

(** ** The runtime of a repository *)

(** X8: [language_to_runtime] gives nothing for a language that is missing or
    empty and one of five runtimes for any other, whatever the case of its
    letters; in a record the runtime is missing exactly when the language of
    the row is missing or blank. *)
Theorem language_to_runtime_range :
  (forall lang,
      In (GithubTrending.language_to_runtime lang)
         [ None; Some "node"; Some "python"; Some "rust"; Some "go"; Some "other" ])
  /\ (forall lang,
        GithubTrending.language_to_runtime lang = None <-> lang = None \/ lang = Some "")
  /\ (forall lang,
        GithubTrending.language_to_runtime (option_map Py.lower lang)
        = GithubTrending.language_to_runtime lang)
  /\ (forall row e,
        GithubTrending.entry_of row = Exc.Ok e ->
        (e_runtime e = None <-> Py.strip (Py.or_str (GithubTrending.language row) "") = "")).
Proof.
  split_and!.
  - intros [l |]; [| by left]. unfold GithubTrending.language_to_runtime.
    destruct (Py.is_empty l); [by left |].
    repeat match goal with
           | |- context [if ?b then _ else _] => destruct b; [cbn [In]; tauto |]
           end.
    cbn [In]. tauto.
  - intros [[| c l] |]; unfold GithubTrending.language_to_runtime; cbn [Py.is_empty].
    + split; [by right | reflexivity].
    + split; [| intros [H | H]; discriminate].
      repeat match goal with
             | |- context [if ?b then _ else _] => destruct b; [discriminate |]
             end.
      discriminate.
    + split; [by left | reflexivity].
  - intros [l |]; [| reflexivity]. unfold GithubTrending.language_to_runtime. simpl.
    by rewrite lower_is_empty, lower_idem.
  - intros row e He. unfold GithubTrending.entry_of in He. cbv zeta in He.
    destruct (GithubTrending.parse_stars _) as [n | x]; cbn [mbind Exc.result_bind] in He;
      [| discriminate].
    apply Ok_inj in He. subst e. cbn [e_runtime].
    destruct (Py.strip (Py.or_str (GithubTrending.language row) "")) as [| c l] eqn:El;
      cbn [Py.is_empty].
    + split; reflexivity.
    + split; [| discriminate].
      unfold GithubTrending.language_to_runtime. cbn [Py.is_empty].
      repeat match goal with
             | |- context [if ?b then _ else _] => destruct b; [discriminate |]
             end.
      discriminate.
Qed.

(** The language of [typescript_row] is not blank, and its record,
    [typescript_entry], has a runtime. *)
Lemma language_to_runtime_range_witness :
  e_runtime typescript_entry = None
  <-> Py.strip (Py.or_str (GithubTrending.language typescript_row) "") = "".
Proof.
  apply (proj2 (proj2 (proj2 language_to_runtime_range)) typescript_row typescript_entry).
  vm_compute. reflexivity.
Defined.

(** ** What [parse_stars] can raise *)

Lemma float_of_str_exn s e : PyNum.float_of_str s = Exc.Raise e -> e = Exc.ValueError.
Proof.
  unfold PyNum.float_of_str.
  destruct (PyNum.split_sign _) as [neg body].
  destruct (_ || _); [discriminate |].
  destruct (String.eqb _ "nan"); [discriminate |].
  destruct (PyNum.floatnumber body) as [[m ex] |]; [discriminate |].
  intros [= <-]. reflexivity.
Qed.

(** X9: [parse_stars] returns a number, or raises [OverflowError]; it raises
    only on the branch that multiplies by a thousand, which is taken when
    the text, without blanks at its ends, without commas and in lower case,
    ends in k, and only when the number before the k, times a thousand, is
    an infinity.  ([str.lower] decides what ends in k: among the characters
    below 256 these are k and K.) *)
Theorem parse_stars_raises text :
  (exists n, GithubTrending.parse_stars text = Exc.Ok n)
  \/ (GithubTrending.parse_stars text = Exc.Raise Exc.OverflowError
      /\ Py.endswith "k" (Py.lower (Py.remove_char ","%char (Py.strip text))) = true
      /\ exists x sign,
           PyNum.float_of_str (Py.drop_last (Py.remove_char ","%char (Py.strip text)))
           = Exc.Ok x
           /\ PyNum.fmul x (PyNum.float_of_pos 1000) = S754_infinity sign).
Proof.
  destruct (Py.endswith "k" (Py.lower (Py.remove_char ","%char (Py.strip text)))) eqn:Hk;
    [| left; by apply parse_stars_plain_returns].
  unfold GithubTrending.parse_stars. cbv zeta. rewrite Hk.
  destruct (Py.is_empty _); [left; eauto |].
  destruct (PyNum.float_of_str _) as [x | e] eqn:Hx.
  - cbn [mbind Exc.result_bind].
    destruct (PyNum.fmul x (PyNum.float_of_pos 1000)) as [s | s | | s m ex] eqn:Hmul;
      cbn [PyNum.int_of_float Exc.except_ValueError]; try (left; eauto; fail).
    right. split_and!; [reflexivity | reflexivity | eauto].
  - apply float_of_str_exn in Hx as ->. left. cbn. eauto.
Qed.

(** ** The slug generator beyond the claims *)

Lemma slug_alnum_not_hyphen c : is_slug_alnum c = true -> Ascii.eqb hyphen c = false.
Proof.
  destruct c as [b0 b1 b2 b3 b4 b5 b6 b7].
  destruct b0, b1, b2, b3, b4, b5, b6, b7; vm_compute; congruence.
Qed.

Lemma slug_char_lower c : is_slug_char c = true -> Py.lower_char c = c.
Proof.
  destruct c as [b0 b1 b2 b3 b4 b5 b6 b7].
  destruct b0, b1, b2, b3, b4, b5, b6, b7; vm_compute; congruence.
Qed.

Lemma startswith_hyphen s :
  Py.startswith "-" s = true <-> Py.first_char s = Some hyphen.
Proof.
  destruct s as [| c s]; cbn [Py.startswith Py.first_char]; [split; discriminate |].
  destruct (Ascii.eqb "-" c) eqn:Hc.
  - apply Ascii.eqb_eq in Hc as <-. split; reflexivity.
  - apply Ascii.eqb_neq in Hc. split; [discriminate | intros [= ->]; by destruct Hc].
Qed.

Lemma contains_double_cons c s :
  Py.contains "--" (String c s)
  = (Ascii.eqb hyphen c && Py.startswith "-" s) || Py.contains "--" s.
Proof.
  cbn [Py.contains Py.startswith]. unfold hyphen.
  destruct (Ascii.eqb "-" c); reflexivity.
Qed.

(** What [sub_non_alnum] writes has no two hyphens in a row, and does not
    begin with a hyphen when it goes on in a run. *)
Lemma sub_non_alnum_no_double in_run s :
  Py.contains "--" (sub_non_alnum in_run s) = false
  /\ (in_run = true -> Py.first_char (sub_non_alnum in_run s) <> Some hyphen).
Proof.
  revert in_run. induction s as [| c s IH]; intros in_run.
  - split; [reflexivity | discriminate].
  - cbn [sub_non_alnum]. destruct (is_slug_alnum c) eqn:Hc.
    + destruct (IH false) as [Hno _]. split.
      * rewrite contains_double_cons, Hno, (slug_alnum_not_hyphen c Hc). reflexivity.
      * intros _. cbn [Py.first_char]. intros [= ->]. vm_compute in Hc. discriminate.
    + destruct (IH true) as [Hno Hfirst]. destruct in_run.
      * split; [exact Hno | intros _; by apply Hfirst].
      * split; [| discriminate].
        rewrite contains_double_cons, Hno, orb_false_r.
        destruct (Py.startswith "-" (sub_non_alnum true s)) eqn:Hs;
          [| by rewrite andb_false_r].
        apply startswith_hyphen in Hs. by destruct Hfirst.
Qed.

Lemma startswith_trans p t s :
  Py.startswith p t = true -> Py.startswith t s = true -> Py.startswith p s = true.
Proof.
  revert t s. induction p as [| a p IH]; intros [| b t] [| c s]; simpl; try congruence.
  destruct (Ascii.eqb a b) eqn:Hab; [| discriminate].
  destruct (Ascii.eqb b c) eqn:Hbc; [| discriminate].
  apply Ascii.eqb_eq in Hab as ->. rewrite Hbc. apply IH.
Qed.

(** a part of a string, at its beginning or at its end, contains no more
    than the string *)
Lemma contains_prefix p t s :
  Py.startswith t s = true -> Py.contains p s = false -> Py.contains p t = false.
Proof.
  revert s. induction t as [| b t IH]; intros s Hts Hs.
  - destruct p as [| a p]; [| reflexivity]. by destruct s.
  - destruct s as [| c s]; [discriminate |].
    cbn [Py.contains] in *. apply orb_false_iff in Hs as [Hstart Hs].
    cbn [Py.startswith] in Hts. destruct (Ascii.eqb b c) eqn:Hbc; [| discriminate].
    apply orb_false_iff. split.
    + destruct (Py.startswith p (String b t)) eqn:Hp; [| reflexivity].
      assert (Hps : Py.startswith p (String c s) = true).
      { apply (startswith_trans p (String b t)); [exact Hp |].
        cbn [Py.startswith]. by rewrite Hbc. }
      congruence.
    + by apply (IH s).
Qed.

Lemma contains_lstrip p q s :
  Py.contains p s = false -> Py.contains p (Py.lstrip_by q s) = false.
Proof.
  induction s as [| c s IH]; intros Hs; [exact Hs |].
  cbn [Py.lstrip_by]. destruct (q c); [| exact Hs].
  apply IH. cbn [Py.contains] in Hs. by apply orb_false_iff in Hs as [_ Hs].
Qed.

Lemma take_prefix n s : Py.startswith (Py.take n s) s = true.
Proof.
  revert s. induction n as [| n IH]; intros [| c s]; simpl; try reflexivity.
  by rewrite Ascii.eqb_refl.
Qed.

Lemma rstrip_prefix q s : Py.startswith (Py.rstrip_by q s) s = true.
Proof.
  induction s as [| c s IH]; [reflexivity |]. cbn [Py.rstrip_by]. cbv zeta.
  destruct (q c && Py.is_empty (Py.rstrip_by q s)); [reflexivity |].
  cbn [Py.startswith]. by rewrite Ascii.eqb_refl.
Qed.

Lemma slugify_no_double name : Py.contains "--" (slugify name) = false.
Proof.
  unfold slugify, Py.strip_by. cbv zeta.
  apply (contains_prefix _ _ _ (take_prefix _ _)).
  apply (contains_prefix _ _ _ (rstrip_prefix _ _)).
  apply contains_lstrip, sub_non_alnum_no_double.
Qed.

(** X11: No slug has two hyphens in a row. *)
Theorem slugify_no_double_hyphen name : Py.contains "--" (slugify name) = false.
Proof. exact (slugify_no_double name). Qed.

Lemma lstrip_sub_empty in_run s :
  Py.is_empty (Py.lstrip_by (Ascii.eqb hyphen) (sub_non_alnum in_run s))
  = Py.all_chars (fun c => negb (is_slug_alnum c)) s.
Proof.
  revert in_run. induction s as [| c s IH]; intros in_run; [reflexivity |].
  cbn [sub_non_alnum Py.all_chars]. destruct (is_slug_alnum c) eqn:Hc.
  - cbn [Py.lstrip_by]. by rewrite (slug_alnum_not_hyphen c Hc).
  - destruct in_run; cbn [negb andb]; [apply IH |].
    cbn [Py.lstrip_by]. rewrite Ascii.eqb_refl. apply IH.
Qed.

Lemma strip_by_empty q s :
  Py.is_empty (Py.strip_by q s) = Py.is_empty (Py.lstrip_by q s).
Proof.
  unfold Py.strip_by. destruct (Py.lstrip_by q s) as [| c r] eqn:Hl; [reflexivity |].
  assert (Hc : q c = false) by (apply (lstrip_by_first q s); by rewrite Hl).
  cbn [Py.rstrip_by]. cbv zeta. rewrite Hc. reflexivity.
Qed.

(** X12: The slug is empty exactly when the name, in lower case, has no letter
    of a to z and no digit; an empty name is one such. *)
Theorem slugify_empty name :
  Py.is_empty (slugify name)
  = Py.all_chars (fun c => negb (is_slug_alnum c)) (Py.lower name).
Proof.
  unfold slugify. cbv zeta.
  rewrite <- (lstrip_sub_empty false), <- strip_by_empty.
  by destruct (Py.strip_by _ _).
Qed.

Lemma lower_slug_chars s : Py.all_chars is_slug_char s = true -> Py.lower s = s.
Proof.
  induction s as [| c s IH]; [reflexivity |].
  cbn [Py.all_chars Py.lower]. rewrite andb_true_iff. intros [Hc Hs].
  by rewrite (slug_char_lower c Hc), IH.
Qed.

(** [sub_non_alnum] leaves a text of slug characters as it is when it has
    no two hyphens in a row. *)
Lemma sub_non_alnum_fixed in_run s :
  Py.all_chars is_slug_char s = true ->
  Py.contains "--" s = false ->
  (in_run = true -> Py.first_char s <> Some hyphen) ->
  sub_non_alnum in_run s = s.
Proof.
  revert in_run. induction s as [| c s IH]; intros in_run Hchars Hno Hfirst; [reflexivity |].
  cbn [Py.all_chars] in Hchars. apply andb_true_iff in Hchars as [Hc Hchars].
  rewrite contains_double_cons in Hno. apply orb_false_iff in Hno as [Hcs Hno].
  cbn [sub_non_alnum]. destruct (is_slug_alnum c) eqn:Ha.
  - f_equal. apply IH; [exact Hchars | exact Hno | discriminate].
  - unfold is_slug_char in Hc. rewrite Ha in Hc. cbn [orb] in Hc.
    apply Ascii.eqb_eq in Hc as ->. destruct in_run.
    + by destruct Hfirst.
    + f_equal. apply IH; [exact Hchars | exact Hno |].
      intros _ Hs. apply startswith_hyphen in Hs.
      rewrite Hs, Ascii.eqb_refl in Hcs. discriminate.
Qed.

Lemma lstrip_by_fixed q s :
  (forall c, Py.first_char s = Some c -> q c = false) -> Py.lstrip_by q s = s.
Proof.
  destruct s as [| c s]; [reflexivity |]. intros H. cbn [Py.lstrip_by].
  by rewrite (H c eq_refl).
Qed.

Lemma rstrip_by_length q s : len (Py.rstrip_by q s) <= len s.
Proof.
  unfold len. induction s as [| c s IH]; [reflexivity |].
  cbn [Py.rstrip_by]. cbv zeta.
  destruct (q c && Py.is_empty (Py.rstrip_by q s)); simpl; lia.
Qed.

(** X13: The slug of a slug is the slug without the hyphen it may end in: the
    second application repairs the end, and ends in no hyphen. *)
Theorem slugify_twice name :
  slugify (slugify name) = Py.rstrip_by (Ascii.eqb hyphen) (slugify name)
  /\ Py.last_char (slugify (slugify name)) <> Some hyphen.
Proof.
  destruct (slugify_shape name) as (Hchars & Hlen & Hfirst & _).
  pose proof (slugify_no_double name) as Hno.
  assert (E : slugify (slugify name) = Py.rstrip_by (Ascii.eqb hyphen) (slugify name)).
  { set (t := slugify name) in *. unfold slugify at 1. cbv zeta.
    rewrite (lower_slug_chars t Hchars).
    rewrite (sub_non_alnum_fixed false t Hchars Hno) by discriminate.
    unfold Py.strip_by. rewrite lstrip_by_fixed.
    - apply take_all. pose proof (rstrip_by_length (Ascii.eqb hyphen) t). lia.
    - intros c Hc. destruct (Ascii.eqb hyphen c) eqn:E; [| reflexivity].
      apply Ascii.eqb_eq in E as <-. by destruct Hfirst. }
  split; [exact E |].
  rewrite E. intros H. apply rstrip_by_last in H. by rewrite Ascii.eqb_refl in H.
Qed.

(** ** The extractor of There's An AI For That *)

(** X14: Of the matches of a blob that pass the filters and carry the same slug
    the extractor of There's An AI For That retains the first, and its
    output has every slug once. *)
Theorem taaft_first_candidate_retained :
  (forall md, NoDup (Taaft.t_slug <$> Taaft.extract_tools_from_markdown md))
  /\ (forall md tool,
        tool ∈ Taaft.extract_tools_from_markdown md
        <-> first_cand (taaft_candidate md) (Re.finditer Taaft.pattern md)
              (Taaft.t_slug tool) tool).
Proof. split; [exact taaft_extract_NoDup | exact taaft_extract_elem]. Qed.

(** On [pricing_first_blob] the tool "Tool Name" is retained: its link is
    the first with the slug "tool-name" that passes the filters. *)
Lemma taaft_first_candidate_retained_witness :
  Taaft.mkTool "Tool Name" "tool-name" "https://theresanaiforthat.com/ai/tool-name/"
  ∈ Taaft.extract_tools_from_markdown pricing_first_blob.
Proof.
  apply (proj2 taaft_first_candidate_retained).
  eexists [_], _, []. split_and!.
  - vm_compute. reflexivity.
  - vm_compute. reflexivity.
  - intros m' Hm'. apply list_elem_of_singleton in Hm' as ->. vm_compute. discriminate.
Defined.

(** *** A match does not end before it starts *)

Section MatcherFacts.
Context {R : Type}.

Lemma run_star (r : Re.regex) pos s cs (k : nat -> string -> Re.caps -> option R) :
  Re.run (Re.Star r) pos s cs k = star_loop r k (S (String.length s)) pos s cs.
Proof. reflexivity. Qed.

Lemma run_mono (r : Re.regex) :
  forall pos s cs (k : nat -> string -> Re.caps -> option R) x,
    Re.run r pos s cs k = Some x ->
    exists pos' s' cs', pos <= pos' /\ k pos' s' cs' = Some x.
Proof.
  induction r as [| p | r1 IH1 r2 IH2 | r1 IH1 r2 IH2 | r IH | n r IH | |];
    intros pos s cs k x Hrun.
  - cbn [Re.run] in Hrun. eauto.
  - cbn [Re.run] in Hrun. destruct s as [| c s]; [discriminate |].
    destruct (p c); [| discriminate]. exists (S pos), s, cs. split; [lia | exact Hrun].
  - cbn [Re.run] in Hrun.
    apply IH1 in Hrun as (pos1 & s1 & cs1 & Hle1 & Hrun).
    apply IH2 in Hrun as (pos2 & s2 & cs2 & Hle2 & Hrun).
    exists pos2, s2, cs2. split; [lia | exact Hrun].
  - cbn [Re.run] in Hrun. destruct (Re.run r1 pos s cs k) as [y |] eqn:H1.
    + injection Hrun as ->. by apply IH1 in H1.
    + by apply IH2 in Hrun.
  - rewrite run_star in Hrun. revert Hrun. generalize (S (String.length s)) at 1.
    intros fuel. revert pos s cs.
    induction fuel as [| fuel IHf]; intros pos s cs Hrun; cbn [star_loop] in Hrun.
    + eauto.
    + match type of Hrun with
      | match ?c with _ => _ end = _ => destruct c as [y |] eqn:Hbody
      end.
      * injection Hrun as ->.
        apply IH in Hbody as (pos1 & s1 & cs1 & Hle1 & Hbody).
        destruct (Nat.ltb pos pos1); [| discriminate].
        apply IHf in Hbody as (pos2 & s2 & cs2 & Hle2 & Hk).
        exists pos2, s2, cs2. split; [lia | exact Hk].
      * eauto.
  - cbn [Re.run] in Hrun. apply IH in Hrun as (pos1 & s1 & cs1 & Hle & Hrun). eauto.
  - cbn [Re.run] in Hrun. destruct (Nat.eqb pos 0); [eauto | discriminate].
  - cbn [Re.run] in Hrun. destruct (Re.at_eol s); [eauto | discriminate].
Qed.
End MatcherFacts.

Lemma match_at_span r pos s m :
  Re.match_at r pos s = Some m -> Re.m_start m <= Re.m_end m.
Proof.
  unfold Re.match_at. intros H.
  apply run_mono in H as (pos' & s' & cs' & Hle & H).
  injection H as <-. exact Hle.
Qed.

Lemma finditer_go_spans r skip pos s :
  Forall (fun m => Re.m_start m <= Re.m_end m) (Re.finditer_go r skip pos s).
Proof.
  revert skip pos. induction s as [| c s IH]; intros skip pos.
  - destruct skip; cbn [Re.finditer_go]; [| constructor].
    destruct (Re.match_at r pos "") as [m |] eqn:Hm; [| constructor].
    constructor; [by apply match_at_span in Hm | constructor].
  - destruct skip; cbn [Re.finditer_go]; [| apply IH].
    destruct (Re.match_at r pos (String c s)) as [m |] eqn:Hm; [| apply IH].
    constructor; [by apply match_at_span in Hm | apply IH].
Qed.

Lemma append_length s1 s2 : len (s1 +:+ s2) = len s1 + len s2.
Proof. unfold len. induction s1 as [| c s1 IH]; simpl; [reflexivity |]. by rewrite IH. Qed.

Lemma take_drop_length a b s : a <= b -> len (Py.take a s) + len (Py.drop b s) <= len s.
Proof.
  unfold len. revert b s. induction a as [| a IH]; intros b s Hab.
  - cbn [Py.take]. simpl. clear Hab. revert s. induction b as [| b IHb]; intros [| c s];
      simpl; try lia. specialize (IHb s). lia.
  - destruct b as [| b]; [lia |]. destruct s as [| c s]; simpl; [lia |].
    specialize (IH b s). lia.
Qed.

Lemma drop_length b s : len (Py.drop b s) <= len s.
Proof. pose proof (take_drop_length 0 b s). unfold len in *. simpl in *. lia. Qed.

Lemma delete_spans_length ms pos s :
  Forall (fun m => Re.m_start m <= Re.m_end m) ms ->
  len (Re.delete_spans ms pos s) <= len s.
Proof.
  intros Hms. revert pos s. induction Hms as [| m ms Hm Hms IH]; intros pos s.
  - reflexivity.
  - cbn [Re.delete_spans]. rewrite append_length.
    specialize (IH (Re.m_end m) (Py.drop (Re.m_end m - pos) s)).
    pose proof (take_drop_length (Re.m_start m - pos) (Re.m_end m - pos) s). lia.
Qed.

Lemma lstrip_by_length q s : len (Py.lstrip_by q s) <= len s.
Proof.
  unfold len. induction s as [| c s IH]; [reflexivity |].
  cbn [Py.lstrip_by]. destruct (q c); simpl; lia.
Qed.

Lemma strip_length s : len (Py.strip s) <= len s.
Proof.
  unfold Py.strip, Py.strip_by.
  pose proof (rstrip_by_length Py.is_space (Py.lstrip_by Py.is_space s)).
  pose proof (lstrip_by_length Py.is_space s). lia.
Qed.

(** the name is no longer than the text of the link *)
Lemma clean_name_length text : len (Taaft.clean_name text) <= len text.
Proof.
  unfold Taaft.clean_name, Re.sub_empty.
  pose proof (strip_length (Re.delete_spans (Re.finditer Taaft.version_suffix text) 0 text)).
  pose proof (delete_spans_length (Re.finditer Taaft.version_suffix text) 0 text
                (finditer_go_spans _ _ _ _)).
  lia.
Qed.

(** *** What the tools and their records look like *)

Lemma taaft_candidate_shape md m slug tool :
  taaft_candidate md m = Some (slug, tool) ->
  Taaft.t_name tool <> ""
  /\ len (Taaft.t_name tool) <= 100
  /\ Taaft.t_url tool = taaft_url (Taaft.t_slug tool).
Proof.
  unfold taaft_candidate. cbv zeta.
  destruct (Taaft.is_noise _) eqn:Hn; [discriminate |].
  destruct (Py.is_empty _) eqn:He; [discriminate |].
  intros [= <- <-]. cbn [Taaft.t_name Taaft.t_url Taaft.t_slug]. split_and!.
  - intros E. rewrite E in He. discriminate.
  - unfold Taaft.is_noise in Hn. rewrite !orb_false_iff in Hn.
    destruct Hn as (_ & Hlong). apply Nat.ltb_ge in Hlong.
    pose proof (clean_name_length (Py.strip (Re.group md m 1))). lia.
  - reflexivity.
Qed.

Lemma taaft_extract_shape md tool :
  tool ∈ Taaft.extract_tools_from_markdown md ->
  Taaft.t_name tool <> ""
  /\ len (Taaft.t_name tool) <= 100
  /\ Taaft.t_url tool = taaft_url (Taaft.t_slug tool).
Proof.
  intros H. apply taaft_extract_elem in H as (ms1 & m & ms2 & _ & Hm & _).
  exact (taaft_candidate_shape _ _ _ _ Hm).
Qed.

Lemma taaft_tools_elem crawl url tool :
  tool ∈ taaft_tools crawl url -> exists md, tool ∈ Taaft.extract_tools_from_markdown md.
Proof.
  unfold taaft_tools, taaft_page. cbv zeta.
  destruct (negb _); [intros H; inversion H |].
  destruct (Taaft.markdown _) as [[| c md] |]; try (intros H; inversion H; fail).
  eauto.
Qed.

(** the tools a run makes its records from *)
Lemma taaft_scrape_tools crawl :
  exists tools,
    Taaft.scrape crawl = Taaft.entry_of <$> tools
    /\ NoDup (Taaft.t_slug <$> tools)
    /\ forall tool, tool ∈ tools -> exists md, tool ∈ Taaft.extract_tools_from_markdown md.
Proof.
  pose proof (taaft_scrape_eq crawl) as Hrun. cbv zeta in Hrun.
  set (first := taaft_tools crawl "https://theresanaiforthat.com/") in *.
  set (second := taaft_tools crawl "https://theresanaiforthat.com/s/ai-agents/") in *.
  set (rest := filter (fun tool => Taaft.t_slug tool ∉ Taaft.t_slug <$> first) second) in *.
  exists (take Taaft.MAX_RESULTS (first ++ rest)). split_and!.
  - exact Hrun.
  - assert (Hcut : (Taaft.t_slug <$> take Taaft.MAX_RESULTS (first ++ rest))
                   `sublist_of` (Taaft.t_slug <$> (first ++ rest)))
      by (apply fmap_sublist, sublist_take).
    assert (Hrest : (Taaft.t_slug <$> rest) `sublist_of` (Taaft.t_slug <$> second))
      by (apply fmap_sublist, sublist_filter).
    refine (sublist_NoDup _ _ _ Hcut).
    rewrite fmap_app. apply NoDup_app. split_and!.
    + apply taaft_tools_NoDup.
    + intros k Hk1 Hk2. apply list_elem_of_fmap in Hk2 as (tool & -> & Htool).
      apply list_elem_of_filter in Htool as [Hnot _]. contradiction.
    + exact (sublist_NoDup _ _ (taaft_tools_NoDup _ _) Hrest).
  - intros tool Htool. apply subseteq_take, elem_of_app in Htool as [Htool | Htool].
    + exact (taaft_tools_elem _ _ _ Htool).
    + apply list_elem_of_filter in Htool as [_ Htool].
      exact (taaft_tools_elem _ _ _ Htool).
Qed.

(** X16: Every record of There's An AI For That has a name of 1 to 100
    characters; its tagline is "AI tool: " and the name, whole, for the cut
    at 160 characters is never reached; its description has at most 138
    characters. *)
Theorem taaft_scrape_bounds crawl :
  Forall (fun e => e_name e <> ""
                   /\ len (e_name e) <= 100
                   /\ e_tagline e = "AI tool: " +:+ e_name e
                   /\ len (e_description e) <= 138)
         (Taaft.scrape crawl).
Proof.
  destruct (taaft_scrape_tools crawl) as (tools & -> & _ & Hfrom).
  apply Forall_fmap, Forall_forall. intros tool Htool.
  destruct (Hfrom tool Htool) as [md Hmd].
  destruct (taaft_extract_shape md tool Hmd) as (Hne & Hlen & _).
  unfold Taaft.entry_of. cbv zeta. cbn [e_name e_tagline e_description compose].
  split_and!; [exact Hne | exact Hlen | |].
  - apply take_all. rewrite append_length. change (len "AI tool: ") with 9. lia.
  - rewrite append_length.
    change (len "Discovered on There's An AI For That: ") with 38. lia.
Qed.

Lemma append_inj_l p a b : p +:+ a = p +:+ b -> a = b.
Proof. induction p as [| c p IH]; simpl; [auto |]. intros [= H]. by apply IH. Qed.

Lemma append_char_inj a b c : a +:+ String c "" = b +:+ String c "" -> a = b.
Proof.
  revert b. induction a as [| x a IH]; intros [| y b]; simpl; intros H.
  - reflexivity.
  - injection H as -> H. destruct b; discriminate.
  - injection H as -> H. destruct a; discriminate.
  - injection H as -> H. f_equal. by apply IH.
Qed.

Lemma taaft_url_inj : Inj (=) (=) taaft_url.
Proof.
  intros a b H. unfold taaft_url in H.
  apply append_inj_l in H. by apply append_char_inj in H.
Qed.

(** X17: No two records of a run of There's An AI For That have the same
    source address. *)
Theorem taaft_scrape_urls_NoDup crawl : NoDup (e_sourceUrl <$> Taaft.scrape crawl).
Proof.
  destruct (taaft_scrape_tools crawl) as (tools & -> & Hnd & Hfrom).
  rewrite <- list_fmap_compose.
  assert (E : e_sourceUrl ∘ Taaft.entry_of <$> tools = taaft_url <$> (Taaft.t_slug <$> tools)).
  { rewrite <- list_fmap_compose. apply list_fmap_ext.
    intros i tool Hi. apply list_elem_of_lookup_2 in Hi.
    destruct (Hfrom tool Hi) as [md Hmd].
    by destruct (taaft_extract_shape md tool Hmd) as (_ & _ & Hurl). }
  rewrite E. apply (@NoDup_fmap_2 _ _ taaft_url taaft_url_inj). exact Hnd.
Qed.

(** ** Tagline and description of the records *)

Lemma take_is_empty n s : Py.is_empty (Py.take (S n) s) = Py.is_empty s.
Proof. destruct s; reflexivity. Qed.

Lemma not_empty_iff s : s <> "" <-> Py.is_empty s = false.
Proof. destruct s; cbn [Py.is_empty]; split; congruence. Qed.

Lemma or_str_not_empty x d : d <> "" -> Py.or_str x d <> "".
Proof.
  intros Hd. unfold Py.or_str. destruct x as [s |]; [| exact Hd].
  destruct (Py.is_empty s) eqn:Hs; [exact Hd |]. by apply not_empty_iff.
Qed.

Lemma github_entry_text row e :
  GithubTrending.entry_of row = Exc.Ok e ->
  e_tagline e <> "" /\ e_description e <> ""
  /\ (e_tagline e = Py.take 160 (e_description e)
      \/ (e_tagline e = Py.take 160 ("GitHub trending: " +:+ e_name e)
          /\ e_description e = "No description provided for " +:+ e_name e)).
Proof.
  unfold GithubTrending.entry_of. cbv zeta.
  destruct (GithubTrending.parse_stars _) as [n | x]; cbn [mbind Exc.result_bind];
    [| discriminate].
  intros H%Ok_inj. subst e. cbn [e_tagline e_description e_name].
  set (desc := Py.strip (Py.or_str (GithubTrending.description row) "")).
  set (name := Py.lstrip_by (Ascii.eqb "/") (GithubTrending.row_key row)).
  split_and!.
  - apply not_empty_iff. change 160 with (S 159). rewrite take_is_empty.
    apply not_empty_iff, or_str_not_empty. discriminate.
  - apply or_str_not_empty. discriminate.
  - unfold Py.or_str. destruct (Py.is_empty desc); [right | left]; split; reflexivity.
Qed.

Lemma split_name_tagline text : snd (ProductHunt.split_name text) <> "".
Proof.
  unfold ProductHunt.split_name.
  destruct (match Re.rmatch ProductHunt.name_split text with
            | Some ns => _
            | None => _
            end) as [name tagline].
  cbv zeta. cbn [snd]. destruct (Py.is_empty tagline) eqn:Ht.
  - discriminate.
  - by apply not_empty_iff.
Qed.

Lemma producthunt_candidate_tagline md m k prod :
  producthunt_candidate md m = Some (k, prod) -> ProductHunt.p_tagline prod <> "".
Proof.
  unfold producthunt_candidate. cbv zeta.
  destruct (ProductHunt.is_noise _); [discriminate |].
  pose proof (split_name_tagline (Py.strip (Re.group md m 1))) as Ht.
  destruct (ProductHunt.split_name _) as [name tagline].
  intros [= <- <-]. exact Ht.
Qed.

Lemma producthunt_products_tagline crawl url prod :
  prod ∈ producthunt_products crawl url -> ProductHunt.p_tagline prod <> "".
Proof.
  unfold producthunt_products, producthunt_page. cbv zeta.
  destruct (negb _); [intros H; inversion H |].
  destruct (ProductHunt.markdown _) as [[| c md] |]; try (intros H; inversion H; fail).
  intros H. apply producthunt_extract_elem in H as (ms1 & m & ms2 & _ & Hm & _).
  exact (producthunt_candidate_tagline _ _ _ _ Hm).
Qed.

Lemma producthunt_entry_text topics prod :
  ProductHunt.p_tagline prod <> "" ->
  e_tagline (ProductHunt.entry_of topics prod) <> ""
  /\ e_description (ProductHunt.entry_of topics prod) <> ""
  /\ e_tagline (ProductHunt.entry_of topics prod)
     = Py.take 160 (e_description (ProductHunt.entry_of topics prod)).
Proof.
  intros Ht. unfold ProductHunt.entry_of. cbv zeta. cbn [e_tagline e_description].
  apply not_empty_iff in Ht. unfold Py.or_str. rewrite Ht.
  split_and!; [| by apply not_empty_iff | reflexivity].
  apply not_empty_iff. change 160 with (S 159). by rewrite take_is_empty.
Qed.

(** X19: Every record has a tagline and a description that are not empty.  The
    tagline of a record of Product Hunt is its description cut at 160
    characters; that of a record of GitHub is, too, unless the repository has
    no description, and then both are placeholders with the name. *)
Theorem records_have_text :
  (forall crawl,
      Forall (fun e => e_tagline e <> "" /\ e_description e <> ""
                       /\ (e_tagline e = Py.take 160 (e_description e)
                           \/ (e_tagline e = Py.take 160 ("GitHub trending: " +:+ e_name e)
                               /\ e_description e
                                  = "No description provided for " +:+ e_name e)))
             (github_emitted crawl))
  /\ (forall crawl,
        Forall (fun e => e_tagline e <> "" /\ e_description e <> ""
                         /\ e_tagline e = Py.take 160 (e_description e))
               (ProductHunt.scrape crawl))
  /\ (forall crawl,
        Forall (fun e => e_tagline e <> "" /\ e_description e <> "") (Taaft.scrape crawl)).
Proof.
  split_and!; intros crawl.
  - apply github_emitted_Forall. exact github_entry_text.
  - rewrite producthunt_scrape_eq. apply Forall_take, Forall_app. split.
    + apply Forall_fmap, Forall_forall. intros prod Hprod.
      apply producthunt_entry_text. exact (producthunt_products_tagline _ _ _ Hprod).
    + apply Forall_fmap, Forall_forall. intros prod Hprod.
      apply list_elem_of_filter in Hprod as [_ Hprod].
      apply producthunt_entry_text. exact (producthunt_products_tagline _ _ _ Hprod).
  - apply taaft_scrape_Forall. intros tool. unfold Taaft.entry_of. cbv zeta.
    cbn [e_tagline e_description]. split; [| discriminate].
    apply not_empty_iff. change 160 with (S 159). by rewrite take_is_empty.
Qed.

(** ** Counts written with digits and commas *)

Lemma digit_facts c :
  Py.is_digit c = true ->
  Py.is_space c = false /\ PyNum.is_num_space c = false
  /\ Ascii.eqb c "-" = false /\ Ascii.eqb c "+" = false /\ Ascii.eqb c "," = false
  /\ Py.lower_char c = c /\ Ascii.eqb "k" c = false.
Proof.
  destruct c as [b0 b1 b2 b3 b4 b5 b6 b7].
  destruct b0, b1, b2, b3, b4, b5, b6, b7; vm_compute; intros H;
    try discriminate; repeat split.
Qed.

Lemma comma_not_space : Py.is_space ","%char = false.
Proof. reflexivity. Qed.

Lemma digits_go_digits acc n s :
  Py.all_chars Py.is_digit s = true ->
  PyNum.digits_go acc n s
  = (fold_left (fun a c => (10 * a + PyNum.digit_val c)%Z) (list_ascii_of_string s) acc,
     n + String.length s, "").
Proof.
  revert acc n. induction s as [| c s IH]; intros acc n Hs.
  - cbn. by rewrite Nat.add_0_r.
  - cbn [Py.all_chars] in Hs. apply andb_true_iff in Hs as [Hc Hs].
    cbn [PyNum.digits_go list_ascii_of_string fold_left String.length]. rewrite Hc.
    rewrite (IH _ _ Hs). f_equal. f_equal. lia.
Qed.

Lemma rstrip_by_fixed q s :
  Py.all_chars (fun c => negb (q c)) s = true -> Py.rstrip_by q s = s.
Proof.
  induction s as [| c s IH]; [reflexivity |].
  cbn [Py.all_chars Py.rstrip_by]. rewrite andb_true_iff, negb_true_iff. intros [Hc Hs].
  cbv zeta. rewrite Hc, (IH Hs). reflexivity.
Qed.

Lemma strip_by_fixed q s :
  Py.all_chars (fun c => negb (q c)) s = true -> Py.strip_by q s = s.
Proof.
  intros Hs. unfold Py.strip_by. rewrite lstrip_by_fixed.
  - by apply rstrip_by_fixed.
  - intros c Hc. destruct s as [| a s]; [discriminate |]. injection Hc as ->.
    cbn [Py.all_chars] in Hs. apply andb_true_iff in Hs as [Hs _].
    by apply negb_true_iff in Hs.
Qed.

Lemma remove_commas_digits s :
  Py.all_chars is_digit_or_comma s = true ->
  Py.all_chars Py.is_digit (Py.remove_char ","%char s) = true.
Proof.
  induction s as [| c s IH]; [reflexivity |].
  cbn [Py.all_chars Py.remove_char]. rewrite andb_true_iff. intros [Hc Hs].
  destruct (Ascii.eqb c ",") eqn:Hcomma; [by apply IH |].
  unfold is_digit_or_comma in Hc. rewrite Hcomma, orb_false_r in Hc.
  cbn [Py.all_chars]. by rewrite Hc, IH.
Qed.

Lemma endswith_k_digits s :
  Py.all_chars Py.is_digit s = true -> Py.endswith "k" (Py.lower s) = false.
Proof.
  induction s as [| c s IH]; [reflexivity |].
  cbn [Py.all_chars]. rewrite andb_true_iff. intros [Hc Hs].
  destruct (digit_facts c Hc) as (_ & _ & _ & _ & _ & Hlow & Hk).
  cbn [Py.lower Py.endswith String.eqb]. rewrite Hlow, Hk, (IH Hs). reflexivity.
Qed.

Lemma int_of_digits s :
  Py.all_chars Py.is_digit s = true -> Py.is_empty s = false ->
  (Z.of_nat (len s) <= 4300)%Z ->
  PyNum.int_of_str s = Exc.Ok (decimal_value s).
Proof.
  intros Hs Hne Hlen. unfold PyNum.int_of_str.
  rewrite strip_by_fixed.
  - destruct s as [| c s]; [discriminate |].
    cbn [Py.all_chars] in Hs. apply andb_true_iff in Hs as [Hc Hs].
    destruct (digit_facts c Hc) as (_ & _ & Hminus & Hplus & _).
    unfold PyNum.split_sign. rewrite Hminus, Hplus.
    unfold PyNum.digitpart. rewrite Hc, (digits_go_digits _ _ _ Hs).
    unfold len in Hlen. cbn [String.length] in Hlen.
    replace (4300 <? Z.of_nat (1 + String.length s))%Z with false; [reflexivity |].
    symmetry. apply Z.ltb_ge. lia.
  - eapply all_chars_weaken; [| exact Hs].
    intros c Hc. destruct (digit_facts c Hc) as (_ & Hnum & _). by rewrite Hnum.
Qed.

(** X10: A text of digits and commas parses to the number its digits stand for,
    the commas left out; with no digit at all it parses to 0.  The text has
    at most 4300 digits, the most [int] converts: with more, [int] raises
    [ValueError] and [parse_stars] returns 0. *)
Theorem parse_stars_digits text :
  Py.all_chars is_digit_or_comma text = true ->
  len (Py.remove_char ","%char text) <= 4300 ->
  GithubTrending.parse_stars text
  = Exc.Ok (decimal_value (Py.remove_char ","%char text)).
Proof.
  intros Htext Hlen. unfold GithubTrending.parse_stars. cbv zeta.
  assert (Hlen' : (Z.of_nat (len (Py.remove_char ","%char text)) <= 4300)%Z).
  { apply Nat2Z.inj_le in Hlen. etransitivity; [exact Hlen |]. vm_compute. discriminate. }
  assert (Hstrip : Py.strip text = text).
  { apply strip_by_fixed. eapply all_chars_weaken; [| exact Htext].
    intros c Hc. unfold is_digit_or_comma in Hc. apply orb_true_iff in Hc as [Hc | Hc].
    - destruct (digit_facts c Hc) as (Hsp & _). by rewrite Hsp.
    - apply Ascii.eqb_eq in Hc as ->. reflexivity. }
  rewrite Hstrip.
  pose proof (remove_commas_digits text Htext) as Hd.
  destruct (Py.is_empty (Py.remove_char "," text)) eqn:He.
  - destruct (Py.remove_char "," text); [reflexivity | discriminate].
  - rewrite (endswith_k_digits _ Hd), (int_of_digits _ Hd He Hlen'). reflexivity.
Qed.

Lemma parse_stars_digits_witness :
  GithubTrending.parse_stars "1,234,567"
  = Exc.Ok (decimal_value (Py.remove_char ","%char "1,234,567")).
Proof.
  apply parse_stars_digits; [vm_compute; reflexivity |].
  apply Nat.leb_le. vm_compute. reflexivity.
Defined.

(** *** Categories of There's An AI For That *)

(** X18: A record of There's An AI For That has the category its name gives,
    with "ai-agent" in the place of "framework": one of six categories,
    never "framework", "saas-tool" or "api-service". *)
Theorem taaft_scrape_categories crawl :
  Forall (fun e =>
            In (e_category e)
               [ "mcp-server"; "ai-agent"; "defi-tool"; "web3-tool"; "infra";
                 "developer-tool" ]
            /\ ((categorize_by_keywords (e_name e) None None = "framework"
                 /\ e_category e = "ai-agent")
                \/ e_category e = categorize_by_keywords (e_name e) None None))
         (Taaft.scrape crawl).
Proof.
  apply taaft_scrape_Forall. intros tool. unfold Taaft.entry_of. cbv zeta.
  cbn [e_category e_name].
  pose proof (categorize_in_cascade (Taaft.t_name tool) None None) as Hin.
  set (cat := categorize_by_keywords (Taaft.t_name tool) None None) in *.
  unfold CASCADE_CATEGORIES in Hin. cbn [In] in *.
  destruct (String.eqb cat "framework") eqn:Hf.
  - apply String.eqb_eq in Hf. split; [tauto | left; by split].
  - apply String.eqb_neq in Hf. split; [intuition congruence | by right].
Qed.

(** ** What the matcher finds is a match *)

Lemma drop_drop n1 n2 s : Py.drop n2 (Py.drop n1 s) = Py.drop (n1 + n2) s.
Proof.
  revert s. induction n1 as [| n1 IH]; intros s; [reflexivity |].
  destruct s as [| c s]; [by destruct n2 |]. cbn [Py.drop Nat.add]. apply IH.
Qed.

Section MatcherSound.
Context {R : Type}.

Lemma run_sound (r : Re.regex) :
  forall pos s cs (k : nat -> string -> Re.caps -> option R) x,
    Re.run r pos s cs k = Some x ->
    exists n cs', sem r pos s cs n cs' /\ k (pos + n) (Py.drop n s) cs' = Some x.
Proof.
  induction r as [| p | r1 IH1 r2 IH2 | r1 IH1 r2 IH2 | r IH | g r IH | |];
    intros pos s cs k x Hrun.
  - cbn [Re.run] in Hrun. exists 0, cs. rewrite Nat.add_0_r. split; [constructor | exact Hrun].
  - cbn [Re.run] in Hrun. destruct s as [| c s]; [discriminate |].
    destruct (p c) eqn:Hc; [| discriminate].
    exists 1, cs. rewrite Nat.add_1_r. split; [by constructor | exact Hrun].
  - cbn [Re.run] in Hrun.
    apply IH1 in Hrun as (n1 & cs1 & H1 & Hrun).
    apply IH2 in Hrun as (n2 & cs2 & H2 & Hrun).
    exists (n1 + n2), cs2. rewrite drop_drop, <- Nat.add_assoc in Hrun.
    split; [econstructor; eassumption | exact Hrun].
  - cbn [Re.run] in Hrun. destruct (Re.run r1 pos s cs k) as [y |] eqn:H1.
    + injection Hrun as ->. apply IH1 in H1 as (n & cs' & H1 & Hk).
      exists n, cs'. split; [by apply sem_AltL | exact Hk].
    + apply IH2 in Hrun as (n & cs' & H2 & Hk).
      exists n, cs'. split; [by apply sem_AltR | exact Hk].
  - rewrite run_star in Hrun. revert Hrun. generalize (S (String.length s)) at 1.
    intros fuel. revert pos s cs.
    induction fuel as [| fuel IHf]; intros pos s cs Hrun; cbn [star_loop] in Hrun.
    + exists 0, cs. rewrite Nat.add_0_r. split; [constructor | exact Hrun].
    + match type of Hrun with
      | match ?c with _ => _ end = _ => destruct c as [y |] eqn:Hbody
      end.
      * injection Hrun as ->.
        apply IH in Hbody as (n1 & cs1 & H1 & Hbody).
        destruct (Nat.ltb pos (pos + n1)); [| discriminate].
        apply IHf in Hbody as (n2 & cs2 & H2 & Hk).
        exists (n1 + n2), cs2. rewrite drop_drop, <- Nat.add_assoc in Hk.
        split; [econstructor; eassumption | exact Hk].
      * exists 0, cs. rewrite Nat.add_0_r. split; [constructor | exact Hrun].
  - cbn [Re.run] in Hrun. apply IH in Hrun as (n & cs' & H & Hk).
    exists n, ((g, (pos, pos + n)) :: cs'). split; [by constructor | exact Hk].
  - cbn [Re.run] in Hrun. destruct (Nat.eqb pos 0) eqn:Hpos; [| discriminate].
    apply Nat.eqb_eq in Hpos as ->. exists 0, cs. split; [constructor | exact Hrun].
  - cbn [Re.run] in Hrun. destruct (Re.at_eol s) eqn:He; [| discriminate].
    exists 0, cs. rewrite Nat.add_0_r. split; [by constructor | exact Hrun].
Qed.
End MatcherSound.

(** the match at an offset *)
Lemma match_at_sound r pos s m :
  Re.match_at r pos s = Some m ->
  exists n cs, sem r pos s [] n cs /\ m = Re.mkMatch pos (pos + n) cs.
Proof.
  unfold Re.match_at. intros H. apply run_sound in H as (n & cs & Hsem & H).
  injection H as <-. eauto.
Qed.

Lemma drop_step pos text c s :
  Py.drop pos text = String c s -> Py.drop (S pos) text = s.
Proof.
  intros H. replace (S pos) with (pos + 1) by lia.
  rewrite <- drop_drop, H. reflexivity.
Qed.

(** every match of [finditer] is a match at an offset of the subject *)
Lemma finditer_go_elem r text m skip pos s :
  s = Py.drop pos text ->
  m ∈ Re.finditer_go r skip pos s ->
  exists pos', Re.match_at r pos' (Py.drop pos' text) = Some m.
Proof.
  revert skip pos. induction s as [| c s IH]; intros skip pos Hs Hm.
  - destruct skip; cbn [Re.finditer_go] in Hm; [| inversion Hm].
    destruct (Re.match_at r pos "") as [m0 |] eqn:Hm0; [| inversion Hm].
    apply elem_of_cons in Hm as [-> | Hm]; [| inversion Hm].
    exists pos. by rewrite <- Hs.
  - assert (Hs' : s = Py.drop (S pos) text) by (symmetry; by apply (drop_step _ _ c)).
    destruct skip; cbn [Re.finditer_go] in Hm; [| exact (IH _ _ Hs' Hm)].
    destruct (Re.match_at r pos (String c s)) as [m0 |] eqn:Hm0; [| exact (IH _ _ Hs' Hm)].
    apply elem_of_cons in Hm as [-> | Hm]; [| exact (IH _ _ Hs' Hm)].
    exists pos. by rewrite <- Hs.
Qed.

Lemma finditer_elem r text m :
  m ∈ Re.finditer r text ->
  exists pos n cs,
    sem r pos (Py.drop pos text) [] n cs /\ m = Re.mkMatch pos (pos + n) cs.
Proof.
  intros Hm. apply (finditer_go_elem r text m 0 0 text eq_refl) in Hm as [pos Hm].
  apply match_at_sound in Hm as (n & cs & Hsem & ->). eauto.
Qed.

(** *** Reading a match off its pattern *)

Lemma drop_length_eq n s : len (Py.drop n s) = len s - n.
Proof.
  unfold len. revert s. induction n as [| n IH]; intros s; [simpl; lia |].
  destruct s as [| c s]; [reflexivity |]. cbn [Py.drop String.length]. rewrite IH. lia.
Qed.

Lemma take_add a b s : Py.take (a + b) s = Py.take a s +:+ Py.take b (Py.drop a s).
Proof.
  revert s. induction a as [| a IH]; intros s; [reflexivity |].
  destruct s as [| c s]; [by destruct b |].
  cbn [Nat.add Py.take Py.drop String.append]. by rewrite IH.
Qed.

Lemma slice_from text i n : Re.slice text i (i + n) = Py.take n (Py.drop i text).
Proof. unfold Re.slice. f_equal. lia. Qed.

Lemma slice_app text i a b :
  Re.slice text i (i + (a + b)) = Re.slice text i (i + a) +:+ Re.slice text (i + a) (i + a + b).
Proof. by rewrite !slice_from, take_add, drop_drop. Qed.

Lemma sem_length r pos s cs n cs' : sem r pos s cs n cs' -> n <= len s.
Proof.
  induction 1 as [| | r1 r2 pos s cs n1 cs1 n2 cs2 _ IH1 _ IH2 | | |
                  | r pos s cs n1 cs1 n2 cs2 _ IH1 _ IH2 | | |];
    try (unfold len in *; simpl; lia); try assumption.
  - rewrite drop_length_eq in IH2. lia.
  - rewrite drop_length_eq in IH2. lia.
Qed.

(** a pattern without groups records none *)
Lemma sem_no_group r pos s cs n cs' :
  sem r pos s cs n cs' -> no_group r = true -> cs' = cs.
Proof.
  induction 1 as [| | r1 r2 pos s cs n1 cs1 n2 cs2 _ IH1 _ IH2 | ? ? ? ? ? ? ? _ IH
                  | ? ? ? ? ? ? ? _ IH |
                  | r pos s cs n1 cs1 n2 cs2 _ IH1 _ IH2 | | |];
    cbn [no_group]; intros Hng; try reflexivity; try discriminate.
  - apply andb_true_iff in Hng as [Hg1 Hg2]. by rewrite (IH2 Hg2), (IH1 Hg1).
  - apply andb_true_iff in Hng as [Hg1 _]. by apply IH.
  - apply andb_true_iff in Hng as [_ Hg2]. by apply IH.
  - by rewrite (IH2 Hng), (IH1 Hng).
Qed.

Lemma sem_Seq_inv r1 r2 pos s cs n cs2 :
  sem (Re.Seq r1 r2) pos s cs n cs2 ->
  exists n1 cs1 n2,
    n = n1 + n2 /\ sem r1 pos s cs n1 cs1 /\ sem r2 (pos + n1) (Py.drop n1 s) cs1 n2 cs2.
Proof. inversion 1; subst. eauto 10. Qed.

Lemma sem_Group_inv g r pos s cs n cs' :
  sem (Re.Group g r) pos s cs n cs' ->
  exists cs0, cs' = (g, (pos, pos + n)) :: cs0 /\ sem r pos s cs n cs0.
Proof. inversion 1; subst. eauto. Qed.

Lemma sem_Chr_inv p pos s cs n cs' :
  sem (Re.Chr p) pos s cs n cs' ->
  exists c s', s = String c s' /\ p c = true /\ n = 1 /\ cs' = cs.
Proof. inversion 1; subst. eauto 10. Qed.

(** a literal matches itself *)
Lemma sem_Lit l pos s cs n cs' :
  sem (Re.Lit l) pos s cs n cs' -> n = String.length l /\ cs' = cs /\ Py.take n s = l.
Proof.
  revert pos s cs n cs'. induction l as [| c l IH]; intros pos s cs n cs' H; cbn [Re.Lit] in H.
  - inversion H; subst. by destruct s.
  - apply sem_Seq_inv in H as (n1 & cs1 & n2 & -> & H1 & H2).
    apply sem_Chr_inv in H1 as (c0 & s0 & -> & Hc & -> & ->).
    apply Ascii.eqb_eq in Hc as <-. cbn [Py.drop] in H2.
    apply IH in H2 as (-> & -> & Htake).
    cbn [Nat.add String.length Py.take]. by rewrite Htake.
Qed.

(** a repetition of a class matches characters of the class *)
Lemma sem_Star_Chr p pos s cs n cs' :
  sem (Re.Star (Re.Chr p)) pos s cs n cs' ->
  cs' = cs /\ Py.all_chars p (Py.take n s) = true.
Proof.
  remember (Re.Star (Re.Chr p)) as r eqn:Hr. intros H.
  induction H as [| | | | | | r pos s cs n1 cs1 n2 cs2 H1 _ _ IH2 | | |];
    try discriminate.
  - by split.
  - injection Hr as ->. apply sem_Chr_inv in H1 as (c & s0 & -> & Hc & -> & ->).
    destruct (IH2 eq_refl) as [-> Hall]. split; [reflexivity |].
    cbn [Nat.add Py.take Py.all_chars Py.drop] in *. by rewrite Hc, Hall.
Qed.

Lemma sem_Plus_Chr p pos s cs n cs' :
  sem (Re.Plus (Re.Chr p)) pos s cs n cs' ->
  cs' = cs /\ 0 < n /\ Py.all_chars p (Py.take n s) = true.
Proof.
  unfold Re.Plus. intros H.
  apply sem_Seq_inv in H as (n1 & cs1 & n2 & -> & H1 & H2).
  apply sem_Chr_inv in H1 as (c & s0 & -> & Hc & -> & ->).
  apply sem_Star_Chr in H2 as [-> Hall]. split_and!; [reflexivity | lia |].
  cbn [Nat.add Py.take Py.all_chars Py.drop] in *. by rewrite Hc, Hall.
Qed.

Lemma take_not_empty n s : 0 < n -> n <= len s -> Py.take n s <> "".
Proof. destruct n, s; unfold len; simpl; intros; [lia | lia | lia | discriminate]. Qed.

(** *** The groups of a link of Product Hunt *)

Lemma producthunt_match_groups md m :
  m ∈ Re.finditer ProductHunt.pattern md ->
  Re.group md m 2 = "https://www.producthunt.com/products/" +:+ Re.group md m 3
  /\ Py.all_chars ProductHunt.slug_class (Re.group md m 3) = true
  /\ Re.group md m 3 <> "".
Proof.
  intros Hm. apply finditer_elem in Hm as (pos & n & cs & Hsem & ->).
  unfold ProductHunt.pattern, Re.seqs in Hsem. cbn [fold_right] in Hsem.
  apply sem_Seq_inv in Hsem as (a & csa & n1 & -> & Ha & Hsem).
  apply sem_Lit in Ha as (-> & -> & _).
  apply sem_Seq_inv in Hsem as (b & csb & n2 & -> & Hb & Hsem).
  apply sem_Group_inv in Hb as (cs1 & -> & Hb).
  apply sem_Plus_Chr in Hb as (-> & _ & _).
  apply sem_Seq_inv in Hsem as (c & csc & n3 & -> & Hc & Hsem).
  apply sem_Lit in Hc as (-> & -> & _).
  apply sem_Seq_inv in Hsem as (d & csd & n4 & -> & Hd & Hsem).
  apply sem_Group_inv in Hd as (cs2 & -> & Hd).
  apply sem_Seq_inv in Hd as (e & cse & f & -> & He & Hf).
  apply sem_Lit in He as (-> & -> & Hprefix).
  apply sem_Group_inv in Hf as (cs3 & -> & Hf).
  pose proof (sem_length _ _ _ _ _ _ Hf) as Hflen.
  apply sem_Plus_Chr in Hf as (-> & Hpos & Hall).
  apply sem_no_group in Hsem; [| reflexivity]. subst cs.
  unfold Re.group. cbn [Re.m_caps Re.span_of Nat.eqb].
  cbn [String.length] in *.
  assert (Hp : Py.take 37 (Py.drop (pos + 1 + b + 2) md)
               = "https://www.producthunt.com/products/")
    by (rewrite <- Hprefix, !drop_drop; f_equal; f_equal; lia).
  assert (Hs : Py.all_chars ProductHunt.slug_class
                 (Py.take f (Py.drop (pos + 1 + b + 2 + 37) md)) = true)
    by (rewrite <- Hall, !drop_drop; f_equal; f_equal; f_equal; lia).
  assert (Hl : f <= len (Py.drop (pos + 1 + b + 2 + 37) md))
    by (etransitivity; [exact Hflen |]; rewrite !drop_drop;
        apply Nat.eq_le_incl; f_equal; f_equal; lia).
  rewrite slice_app, !slice_from, Hp. split_and!.
  - reflexivity.
  - exact Hs.
  - by apply take_not_empty.
Qed.

Lemma producthunt_candidate_url md m k prod :
  m ∈ Re.finditer ProductHunt.pattern md ->
  producthunt_candidate md m = Some (k, prod) ->
  ProductHunt.p_url prod = "https://www.producthunt.com/products/" +:+ ProductHunt.p_slug prod
  /\ Py.all_chars ProductHunt.slug_class (ProductHunt.p_slug prod) = true
  /\ ProductHunt.p_slug prod <> "".
Proof.
  intros Hm. unfold producthunt_candidate. cbv zeta.
  destruct (ProductHunt.is_noise _); [discriminate |].
  destruct (ProductHunt.split_name _) as [name tagline].
  intros [= <- <-]. cbn [ProductHunt.p_url ProductHunt.p_slug].
  exact (producthunt_match_groups md m Hm).
Qed.

Lemma producthunt_extract_url md prod :
  prod ∈ ProductHunt.extract_products_from_markdown md ->
  ProductHunt.p_url prod = "https://www.producthunt.com/products/" +:+ ProductHunt.p_slug prod
  /\ Py.all_chars ProductHunt.slug_class (ProductHunt.p_slug prod) = true
  /\ ProductHunt.p_slug prod <> "".
Proof.
  intros H. apply producthunt_extract_elem in H as (ms1 & m & ms2 & Hms & Hm & _).
  apply (producthunt_candidate_url md m (ProductHunt.p_slug prod) prod); [| exact Hm].
  rewrite Hms. apply elem_of_app. right. apply elem_of_cons. by left.
Qed.

Lemma producthunt_products_elem crawl url prod :
  prod ∈ producthunt_products crawl url ->
  exists md, prod ∈ ProductHunt.extract_products_from_markdown md.
Proof.
  unfold producthunt_products, producthunt_page. cbv zeta.
  destruct (negb _); [intros H; inversion H |].
  destruct (ProductHunt.markdown _) as [[| c md] |]; try (intros H; inversion H; fail).
  eauto.
Qed.

Lemma producthunt_url_inj : Inj (=) (=) producthunt_url.
Proof. intros a b H. by apply append_inj_l in H. Qed.

(** X20: The slug of a record of Product Hunt is the segment of the address of
    its link: it has one character or more, all of them lowercase letters,
    digits and hyphens, and the source address of the record is the address
    of the products followed by the slug.  No two records of a run have the
    same source address. *)
Theorem producthunt_scrape_slugs crawl :
  Forall (fun e => e_slug e <> ""
                   /\ Py.all_chars ProductHunt.slug_class (e_slug e) = true
                   /\ e_sourceUrl e = producthunt_url (e_slug e))
         (ProductHunt.scrape crawl)
  /\ NoDup (e_sourceUrl <$> ProductHunt.scrape crawl).
Proof.
  assert (Hall : Forall (fun e => e_slug e <> ""
                                  /\ Py.all_chars ProductHunt.slug_class (e_slug e) = true
                                  /\ e_sourceUrl e = producthunt_url (e_slug e))
                        (ProductHunt.scrape crawl)).
  { assert (Hentry : forall topics url prod,
               prod ∈ producthunt_products crawl url ->
               e_slug (ProductHunt.entry_of topics prod) <> ""
               /\ Py.all_chars ProductHunt.slug_class
                    (e_slug (ProductHunt.entry_of topics prod)) = true
               /\ e_sourceUrl (ProductHunt.entry_of topics prod)
                  = producthunt_url (e_slug (ProductHunt.entry_of topics prod))).
    { intros topics url prod Hprod.
      apply producthunt_products_elem in Hprod as [md Hmd].
      destruct (producthunt_extract_url md prod Hmd) as (Hurl & Hchars & Hne).
      unfold ProductHunt.entry_of. cbv zeta. cbn [e_slug e_sourceUrl]. by split_and!. }
    rewrite producthunt_scrape_eq. apply Forall_take, Forall_app. split.
    - apply Forall_fmap, Forall_forall. intros prod Hprod. cbn [compose].
      eapply Hentry. exact Hprod.
    - apply Forall_fmap, Forall_forall. intros prod Hprod.
      apply list_elem_of_filter in Hprod as [_ Hprod]. cbn [compose].
      eapply Hentry. exact Hprod. }
  split; [exact Hall |].
  assert (E : e_sourceUrl <$> ProductHunt.scrape crawl
              = producthunt_url <$> (e_slug <$> ProductHunt.scrape crawl)).
  { rewrite <- list_fmap_compose. apply list_fmap_ext. intros i e Hi.
    apply list_elem_of_lookup_2 in Hi. rewrite Forall_forall in Hall.
    by destruct (Hall e Hi) as (_ & _ & Hurl). }
  rewrite E. apply (@NoDup_fmap_2 _ _ producthunt_url producthunt_url_inj).
  apply producthunt_scrape_NoDup.
Qed.

(** *** The groups of a link of There's An AI For That *)

Lemma all_chars_app p a b :
  Py.all_chars p (a +:+ b) = Py.all_chars p a && Py.all_chars p b.
Proof.
  induction a as [| c a IH]; [reflexivity |].
  change (String c a +:+ b) with (String c (a +:+ b)).
  cbn [Py.all_chars]. by rewrite IH, andb_assoc.
Qed.

Lemma digit_slug_class s :
  Py.all_chars Py.is_digit s = true -> Py.all_chars ProductHunt.slug_class s = true.
Proof.
  apply all_chars_weaken. intros c Hc. unfold ProductHunt.slug_class.
  by rewrite Hc, orb_true_r.
Qed.

Lemma taaft_match_groups md m :
  m ∈ Re.finditer Taaft.pattern md ->
  Py.all_chars ProductHunt.slug_class (Re.group md m 2) = true
  /\ Re.group md m 2 <> "".
Proof.
  intros Hm. apply finditer_elem in Hm as (pos & n & cs & Hsem & ->).
  unfold Taaft.pattern, Re.seqs in Hsem. cbn [fold_right] in Hsem.
  apply sem_Seq_inv in Hsem as (a & csa & n1 & -> & Ha & Hsem).
  apply sem_Lit in Ha as (-> & -> & _).
  apply sem_Seq_inv in Hsem as (b & csb & n2 & -> & Hb & Hsem).
  apply sem_Group_inv in Hb as (cs1 & -> & Hb).
  apply sem_Plus_Chr in Hb as (-> & _ & _).
  apply sem_Seq_inv in Hsem as (c & csc & n3 & -> & Hc & Hsem).
  apply sem_Lit in Hc as (-> & -> & _).
  apply sem_Seq_inv in Hsem as (d & csd & n4 & -> & Hd & Hsem).
  apply sem_Group_inv in Hd as (cs2 & -> & Hd).
  pose proof (sem_length _ _ _ _ _ _ Hd) as Hdlen.
  apply sem_no_group in Hsem; [| reflexivity]. subst cs.
  unfold Re.group. cbn [Re.m_caps Re.span_of Nat.eqb]. rewrite slice_from.
  cbn [String.length] in *.
  set (p2 := pos + 1 + b + 35) in *.
  assert (Hs : Py.drop 35 (Py.drop b (Py.drop 1 (Py.drop pos md))) = Py.drop p2 md)
    by (rewrite !drop_drop; f_equal; subst p2; lia).
  rewrite Hs in Hd, Hdlen. clear Hs.
  apply sem_Seq_inv in Hd as (e & cse & f & -> & He & Hf).
  apply sem_Plus_Chr in He as (-> & Hpos & Hall).
  split.
  - rewrite take_add, all_chars_app, Hall. cbn [andb].
    unfold Re.Opt in Hf. inversion Hf as [| | | ? ? ? ? ? ? ? Hopt | ? ? ? ? ? ? ? Heps | | | | |];
      subst.
    + apply sem_Seq_inv in Hopt as (g & csg & h & -> & Hg & Hh).
      change (Re.Seq (Re.Chr (Ascii.eqb "-")) Re.Eps) with (Re.Lit "-") in Hg.
      apply sem_Lit in Hg as (-> & -> & Hdash).
      apply sem_Plus_Chr in Hh as (_ & _ & Hdigits).
      rewrite take_add, all_chars_app, Hdash. cbn [Py.all_chars andb].
      rewrite (digit_slug_class _ Hdigits). reflexivity.
    + inversion Heps; subst. reflexivity.
  - apply take_not_empty; [lia | exact Hdlen].
Qed.

(** X15: The slug of a tool is the segment of the address of its link: it has
    one character or more, all of them lowercase letters, digits and
    hyphens; the address of the tool is written anew from the slug and ends
    in a slash, whether the link did or not. *)
Theorem taaft_extract_slugs md :
  Forall (fun tool => Taaft.t_slug tool <> ""
                      /\ Py.all_chars ProductHunt.slug_class (Taaft.t_slug tool) = true
                      /\ Taaft.t_url tool = taaft_url (Taaft.t_slug tool))
         (Taaft.extract_tools_from_markdown md).
Proof.
  apply Forall_forall. intros tool Htool.
  destruct (taaft_extract_shape md tool Htool) as (_ & _ & Hurl).
  apply taaft_extract_elem in Htool as (ms1 & m & ms2 & Hms & Hm & _).
  assert (Hin : m ∈ Re.finditer Taaft.pattern md)
    by (rewrite Hms; apply elem_of_app; right; apply elem_of_cons; by left).
  destruct (taaft_match_groups md m Hin) as [Hchars Hne].
  unfold taaft_candidate in Hm. cbv zeta in Hm.
  destruct (Taaft.is_noise _); [discriminate |].
  destruct (Py.is_empty _); [discriminate |].
  injection Hm as Hslug _. rewrite <- Hslug in *. by split_and!.
Qed.

(** ** Counts of reviews *)

Example review_count_ex :
  map parse_review_count
      [ "1.4K reviews"; "630 reviews"; "no reviews"; "1.2.3 reviews"; "12 k Reviews";
        "5review"; "x 3.5k REVIEW y"; "..reviews"; "1e5 reviews"; "K 7 reviews";
        "7 K reviews"; ""; "0.0004k reviews"; "12reviewsreviews 5 reviews"; "1 2 reviews";
        "3.reviews"; ".5K reviews"; "4  kk reviews 2k review" ]
  = [ Exc.Ok 1400; Exc.Ok 630; Exc.Ok 0; Exc.Raise Exc.ValueError; Exc.Ok 12000;
      Exc.Ok 5; Exc.Ok 3500; Exc.Raise Exc.ValueError; Exc.Ok 5; Exc.Ok 7;
      Exc.Ok 7000; Exc.Ok 0; Exc.Ok 0; Exc.Ok 12; Exc.Ok 2;
      Exc.Ok 3; Exc.Ok 500; Exc.Ok 2000 ]%Z.
Proof. vm_compute. reflexivity. Qed.

Lemma review_count_match_at pos s m :
  Re.match_at review_count_pattern pos s = Some m ->
  exists c s', s = String c s' /\ is_digit_or_dot c = true.
Proof.
  unfold Re.match_at, review_count_pattern, Re.seqs, Re.Plus.
  cbn [fold_right Re.run]. destruct s as [| c s]; [discriminate |].
  destruct (is_digit_or_dot c) eqn:Hc; [eauto | discriminate].
Qed.

Lemma search_go_none pos s :
  Py.all_chars (fun c => negb (is_digit_or_dot c)) s = true ->
  search_go review_count_pattern pos s = None.
Proof.
  revert pos. induction s as [| c s IH]; intros pos Hs; cbn [search_go].
  - destruct (Re.match_at _ _ _) as [m |] eqn:Hm; [| reflexivity].
    apply review_count_match_at in Hm as (c & s' & [=] & _).
  - cbn [Py.all_chars] in Hs. apply andb_true_iff in Hs as [Hc Hs].
    destruct (Re.match_at _ _ _) as [m |] eqn:Hm; [| by apply IH].
    apply review_count_match_at in Hm as (c' & s' & [= <- <-] & Hc').
    rewrite Hc' in Hc. discriminate.
Qed.

(** X22: A text with no digit and no dot has no count of reviews:
    [parse_review_count] returns 0. *)
Theorem parse_review_count_none text :
  Py.all_chars (fun c => negb (is_digit_or_dot c)) text = true ->
  parse_review_count text = Exc.Ok 0%Z.
Proof.
  intros Htext. unfold parse_review_count, re_search.
  by rewrite (search_go_none 0 text Htext).
Qed.

Lemma parse_review_count_none_witness : parse_review_count "no reviews yet" = Exc.Ok 0%Z.
Proof. apply parse_review_count_none. vm_compute. reflexivity. Defined.

(** *** The count is never below zero *)

Lemma search_go_sound r text m pos s :
  s = Py.drop pos text ->
  search_go r pos s = Some m ->
  exists pos', Re.match_at r pos' (Py.drop pos' text) = Some m.
Proof.
  revert pos. induction s as [| c s IH]; intros pos Hs Hm; cbn [search_go] in Hm.
  - destruct (Re.match_at r pos "") as [m0 |] eqn:Hm0; [| discriminate].
    injection Hm as ->. exists pos. by rewrite <- Hs.
  - destruct (Re.match_at r pos (String c s)) as [m0 |] eqn:Hm0.
    + injection Hm as ->. exists pos. by rewrite <- Hs.
    + apply (IH (S pos)); [| exact Hm]. symmetry. by apply (drop_step _ _ c).
Qed.

(** the first group of a match of [review_count_pattern] begins with a
    digit or a dot *)
Lemma review_count_group text m :
  re_search review_count_pattern text = Some m ->
  exists c s, Re.group text m 1 = String c s
              /\ Py.all_chars is_digit_or_dot (String c s) = true.
Proof.
  intros Hm. apply (search_go_sound _ text m 0 text eq_refl) in Hm as [pos Hm].
  apply match_at_sound in Hm as (n & cs & Hsem & ->).
  unfold review_count_pattern, Re.seqs in Hsem. cbn [fold_right] in Hsem.
  apply sem_Seq_inv in Hsem as (b & csb & n2 & -> & Hb & Hsem).
  apply sem_Group_inv in Hb as (cs1 & -> & Hb).
  pose proof (sem_length _ _ _ _ _ _ Hb) as Hlen.
  apply sem_Plus_Chr in Hb as (-> & Hpos & Hall).
  apply sem_no_group in Hsem; [| reflexivity]. subst cs.
  unfold Re.group. cbn [Re.m_caps Re.span_of Nat.eqb]. rewrite slice_from.
  destruct (Py.take b (Py.drop pos text)) as [| c s] eqn:Htake.
  - exfalso. by apply (take_not_empty b (Py.drop pos text)).
  - eauto.
Qed.

Lemma binary_round_aux_nonneg mx ex lx :
  sf_nonneg (binary_round_aux PyNum.prec PyNum.emax false mx ex lx).
Proof.
  unfold binary_round_aux.
  destruct (shr_fexp _ _ _ _ _) as [mrs' e'].
  destruct (shr_fexp _ _ _ _ _) as [mrs'' e''].
  destruct (shr_m mrs''); [exact I | | exact I].
  destruct (Z.leb _ _); exact I.
Qed.

Lemma binary_round_nonneg mx ex : sf_nonneg (binary_round PyNum.prec PyNum.emax false mx ex).
Proof.
  unfold binary_round. destruct (shl_align _ _ _) as [mz ez].
  apply binary_round_aux_nonneg.
Qed.

Lemma decimal_nonneg m e : sf_nonneg (PyNum.decimal false m e).
Proof.
  unfold PyNum.decimal. destruct m as [| p | p]; [exact I | | exact I].
  destruct (Z.leb 0 e); [apply binary_round_nonneg |].
  unfold SFdiv. destruct (SFdiv_core_binary _ _ _ _ _ _) as [[mz ez] lz].
  apply binary_round_aux_nonneg.
Qed.

Lemma fmul_nonneg x :
  sf_nonneg x -> sf_nonneg (PyNum.fmul x (PyNum.float_of_pos 1000)).
Proof.
  assert (E : exists m e, PyNum.float_of_pos 1000 = S754_finite false m e)
    by (vm_compute; eauto).
  destruct E as (m & e & ->). unfold PyNum.fmul, SFmul.
  destruct x as [sx | sx | | [|] mx ex]; cbn [sf_nonneg]; intros Hx; try exact I.
  - destruct Hx.
  - apply binary_round_aux_nonneg.
Qed.

Lemma int_of_float_nonneg x n :
  sf_nonneg x -> PyNum.int_of_float x = Exc.Ok n -> (0 <= n)%Z.
Proof.
  unfold PyNum.int_of_float.
  destruct x as [sx | sx | | [|] mx ex]; cbn [sf_nonneg]; intros Hx Hn;
    try discriminate; try (injection Hn as <-).
  - lia.
  - destruct Hx.
  - apply Z.shiftl_nonneg. lia.
Qed.

Lemma float_of_str_nonneg c s x :
  Py.all_chars is_digit_or_dot (String c s) = true ->
  PyNum.float_of_str (String c s) = Exc.Ok x -> sf_nonneg x.
Proof.
  intros Hall. unfold PyNum.float_of_str.
  assert (Hstrip : Py.strip_by PyNum.is_num_space (String c s) = String c s).
  { apply strip_by_fixed. eapply all_chars_weaken; [| exact Hall].
    intros a Ha. unfold is_digit_or_dot in Ha. apply orb_true_iff in Ha as [Ha | Ha].
    - destruct (digit_facts a Ha) as (_ & Hnum & _). by rewrite Hnum.
    - apply Ascii.eqb_eq in Ha as ->. reflexivity. }
  rewrite Hstrip.
  assert (Hsign : PyNum.split_sign (String c s) = (false, String c s)).
  { cbn [Py.all_chars] in Hall. apply andb_true_iff in Hall as [Hc _].
    unfold PyNum.split_sign, is_digit_or_dot in *. apply orb_true_iff in Hc as [Hc | Hc].
    - destruct (digit_facts c Hc) as (_ & _ & Hminus & Hplus & _). by rewrite Hminus, Hplus.
    - apply Ascii.eqb_eq in Hc as ->. reflexivity. }
  rewrite Hsign.
  destruct (_ || _); [intros [= <-]; exact I |].
  destruct (String.eqb _ "nan"); [intros [= <-]; exact I |].
  destruct (PyNum.floatnumber _) as [[m e] |]; [| discriminate].
  intros [= <-]. apply decimal_nonneg.
Qed.

(** X23: [parse_review_count] returns no number below zero; it returns what the
    docstring says on "1.4K reviews" and "630 reviews", and it raises
    [ValueError] on a count with two dots, which nothing catches. *)
Theorem parse_review_count_nonneg :
  (forall text n, parse_review_count text = Exc.Ok n -> (0 <= n)%Z)
  /\ parse_review_count "1.4K reviews" = Exc.Ok 1400%Z
  /\ parse_review_count "630 reviews" = Exc.Ok 630%Z
  /\ parse_review_count "1.2.3 reviews" = Exc.Raise Exc.ValueError.
Proof.
  split; [| split_and!; vm_compute; reflexivity].
  intros text n. unfold parse_review_count.
  destruct (re_search review_count_pattern text) as [m |] eqn:Hm;
    [| intros [= <-]; lia].
  destruct (review_count_group text m Hm) as (c & s & -> & Hall). cbv zeta.
  destruct (PyNum.float_of_str (String c s)) as [x | e] eqn:Hx;
    [| destruct (upper_has_K _); discriminate].
  apply (float_of_str_nonneg c s x Hall) in Hx.
  destruct (upper_has_K _); cbn [mbind Exc.result_bind].
  - apply int_of_float_nonneg, fmul_nonneg, Hx.
  - by apply int_of_float_nonneg.
Qed.

(** On "1.4K reviews" the count is 1400, which is not below zero. *)
Lemma parse_review_count_nonneg_witness :
  parse_review_count "1.4K reviews" = Exc.Ok 1400%Z /\ (0 <= 1400)%Z.
Proof.
  assert (H : parse_review_count "1.4K reviews" = Exc.Ok 1400%Z) by (vm_compute; reflexivity).
  split; [exact H |].
  exact (proj1 parse_review_count_nonneg "1.4K reviews" 1400%Z H).
Defined.

(** ** Slug, name and address of the records of GitHub *)

(** X21: In the records of GitHub and of There's An AI For That the slug is the
    slug of the name: at most 100 characters, all of them lowercase
    letters, digits and hyphens.  The name of a record of GitHub begins with
    no slash, and its source address is the address of GitHub followed by
    the name. *)
Theorem records_slug_of_name :
  (forall crawl,
      Forall (fun e => e_slug e = slugify (e_name e)
                       /\ Py.all_chars is_slug_char (e_slug e) = true
                       /\ len (e_slug e) <= 100
                       /\ Py.first_char (e_name e) <> Some "/"%char
                       /\ e_sourceUrl e = "https://github.com/" +:+ e_name e)
             (github_emitted crawl))
  /\ (forall crawl,
        Forall (fun e => e_slug e = slugify (e_name e)
                         /\ Py.all_chars is_slug_char (e_slug e) = true
                         /\ len (e_slug e) <= 100)
               (Taaft.scrape crawl)).
Proof.
  split; intros crawl.
  - apply github_emitted_Forall. intros row e. unfold GithubTrending.entry_of. cbv zeta.
    destruct (GithubTrending.parse_stars _) as [n | x]; cbn [mbind Exc.result_bind];
      [| discriminate].
    intros H%Ok_inj. subst e. cbn [e_slug e_name e_sourceUrl].
    set (name := Py.lstrip_by (Ascii.eqb "/") (GithubTrending.row_key row)).
    destruct (slugify_shape name) as (Hchars & Hlen & _).
    split_and!; [reflexivity | exact Hchars | exact Hlen | | reflexivity].
    intros Hfirst. apply lstrip_by_first in Hfirst. discriminate.
  - apply taaft_scrape_Forall. intros tool. unfold Taaft.entry_of. cbv zeta.
    cbn [e_slug e_name].
    destruct (slugify_shape (Taaft.t_name tool)) as (Hchars & Hlen & _).
    by split_and!.
Qed.

(** *** The name of a product *)

Lemma upper_not_space c : Py.is_upper_az c = true -> Py.is_space c = false.
Proof.
  destruct c as [b0 b1 b2 b3 b4 b5 b6 b7].
  destruct b0, b1, b2, b3, b4, b5, b6, b7; vm_compute; congruence.
Qed.

Lemma take_length_le n s : len (Py.take n s) <= len s.
Proof.
  unfold len. revert s. induction n as [| n IH]; intros [| c s]; simpl; try lia.
  specialize (IH s). lia.
Qed.

(** where [name_split] matches, the text begins with a capital letter and
    the first group ends after it *)
Lemma name_split_group text ns :
  Re.rmatch ProductHunt.name_split text = Some ns ->
  exists c s, text = String c s /\ Py.is_upper_az c = true /\ 0 < Re.group_end ns 1.
Proof.
  unfold Re.rmatch. intros Hm. apply match_at_sound in Hm as (n & cs & Hsem & ->).
  unfold ProductHunt.name_split, Re.seqs in Hsem. cbn [fold_right] in Hsem.
  apply sem_Seq_inv in Hsem as (a & csa & n1 & -> & Ha & Hsem).
  inversion Ha; subst. cbn [Nat.add Py.drop] in Hsem.
  apply sem_Seq_inv in Hsem as (b & csb & n2 & -> & Hb & Hsem).
  apply sem_Group_inv in Hb as (cs1 & -> & Hb).
  apply sem_Seq_inv in Hb as (b1 & csb1 & b2 & -> & Hb1 & Hb2).
  apply sem_Chr_inv in Hb1 as (c & s & -> & Hc & -> & ->).
  apply sem_no_group in Hb2; [| reflexivity]. subst cs1.
  apply sem_Seq_inv in Hsem as (d & csd & n3 & -> & Hd & Hsem).
  apply sem_no_group in Hd; [| reflexivity]. subst csd.
  apply sem_Seq_inv in Hsem as (e & cse & n4 & -> & He & Hsem).
  apply sem_Group_inv in He as (cs2 & -> & He).
  apply sem_no_group in He; [| reflexivity]. subst cs2.
  apply sem_no_group in Hsem; [| reflexivity]. subst cs.
  exists c, s. split_and!; [reflexivity | exact Hc |].
  unfold Re.group_end. cbn [Re.m_caps Re.span_of Nat.eqb]. lia.
Qed.

Lemma split_name_name text :
  text <> "" ->
  Py.lstrip_by Py.is_space text = text ->
  fst (ProductHunt.split_name text) <> ""
  /\ len (fst (ProductHunt.split_name text)) <= len text.
Proof.
  intros Hne Hl. unfold ProductHunt.split_name.
  destruct (Re.rmatch ProductHunt.name_split text) as [ns |] eqn:Hns.
  - destruct (name_split_group text ns Hns) as (c & s & -> & Hc & Hpos).
    cbv zeta. cbn [fst]. split.
    + apply not_empty_iff. unfold Py.strip. rewrite strip_by_empty.
      destruct (Re.group_end ns 1) as [| k]; [lia |].
      cbn [Py.take Py.lstrip_by]. by rewrite (upper_not_space c Hc).
    + pose proof (strip_length (Py.take (Re.group_end ns 1) (String c s))).
      pose proof (take_length_le (Re.group_end ns 1) (String c s)). lia.
  - cbv zeta. cbn [fst]. split; [exact Hne | lia].
Qed.

Lemma strip_lstrip_fixed s : Py.lstrip_by Py.is_space (Py.strip s) = Py.strip s.
Proof.
  unfold Py.strip, Py.strip_by.
  destruct (Py.lstrip_by Py.is_space s) as [| c r] eqn:Hl; [reflexivity |].
  assert (Hc : Py.is_space c = false) by (apply (lstrip_by_first _ s); by rewrite Hl).
  cbn [Py.rstrip_by]. cbv zeta. rewrite Hc. cbn [andb Py.lstrip_by]. by rewrite Hc.
Qed.

Lemma producthunt_candidate_name md m k prod :
  producthunt_candidate md m = Some (k, prod) ->
  ProductHunt.p_name prod <> "" /\ len (ProductHunt.p_name prod) <= 200.
Proof.
  unfold producthunt_candidate. cbv zeta.
  destruct (ProductHunt.is_noise _) eqn:Hn; [discriminate |].
  set (text := Py.strip (Re.group md m 1)) in *.
  unfold ProductHunt.is_noise in Hn. rewrite !orb_false_iff in Hn.
  destruct Hn as (((_ & _) & Hshort) & Hlong).
  apply Nat.ltb_ge in Hshort, Hlong.
  assert (Hne : text <> "") by (intros E; rewrite E in Hshort; unfold len in Hshort;
                                simpl in Hshort; lia).
  destruct (split_name_name text Hne (strip_lstrip_fixed _)) as [Hname Hlen].
  destruct (ProductHunt.split_name text) as [name tagline].
  intros [= <- <-]. cbn [ProductHunt.p_name fst] in *. split; [exact Hname | lia].
Qed.

(** X24: The name of every record of Product Hunt has 1 to 200 characters. *)
Theorem producthunt_scrape_names crawl :
  Forall (fun e => e_name e <> "" /\ len (e_name e) <= 200) (ProductHunt.scrape crawl).
Proof.
  assert (Hentry : forall topics url prod,
             prod ∈ producthunt_products crawl url ->
             e_name (ProductHunt.entry_of topics prod) <> ""
             /\ len (e_name (ProductHunt.entry_of topics prod)) <= 200).
  { intros topics url prod Hprod.
    apply producthunt_products_elem in Hprod as [md Hmd].
    apply producthunt_extract_elem in Hmd as (ms1 & m & ms2 & _ & Hm & _).
    exact (producthunt_candidate_name _ _ _ _ Hm). }
  rewrite producthunt_scrape_eq. apply Forall_take, Forall_app. split.
  - apply Forall_fmap, Forall_forall. intros prod Hprod. cbn [compose].
    eapply Hentry. exact Hprod.
  - apply Forall_fmap, Forall_forall. intros prod Hprod.
    apply list_elem_of_filter in Hprod as [_ Hprod]. cbn [compose].
    eapply Hentry. exact Hprod.
Qed.
